(** * bandping: the sampling and rendering core, embedded from the source

    A shallow embedding of [bandwidth.py] and [pingmon.py].

    Numbers.  Python's [int] is [Z].  Python's [float] is an IEEE 754
    binary64 number, and it is embedded twice.  In the modules [Bandwidth]
    and [Pingmon] a float is an exact rational of [Q]: [/] is exact
    division, [int(x)] truncates towards zero, and values are compared with
    [==] ([Qeq]) wherever the representation of a fraction could differ.
    That reading carries the statements that no rounding can change: shapes,
    indices, orders, counters, values that are only copied.  In the module
    [Binary64] the arithmetic of [render_chart_precise] is the one the
    program runs, on the kernel's binary64 numbers ([PrimFloat]), every
    operation rounded to the nearest double.  That reading decides the
    statements in which one unit in the last place moves a bucket bound or
    a row.

    Exceptions.  A Python expression that may raise is a [py_result]. *)

From Stdlib Require Import ZArith QArith Qround Lia Lqa String Ascii.
From Stdlib Require Floats.
From stdpp Require Import base list gmap strings.

Local Open Scope Z_scope.

(** ** The fragment of Python the two programs use *)

Module Py.

Inductive py_exn : Set :=
  | ZeroDivisionError
  | IndexError
  | ValueError
  | OverflowError
  | StatisticsError.

Inductive py_result (A : Type) : Type :=
  | Ok (a : A)
  | Raise (e : py_exn).

Arguments Ok {A} a.
Arguments Raise {A} e.

#[export] Instance py_ret : MRet py_result := fun _ a => Ok a.

#[export] Instance py_bind : MBind py_result := fun _ _ f m =>
  match m with
  | Ok a => f a
  | Raise e => Raise e
  end.

#[export] Instance py_fmap : FMap py_result := fun _ _ f m =>
  match m with
  | Ok a => Ok (f a)
  | Raise e => Raise e
  end.

(** [len(l)] *)
Definition len {A} (l : list A) : Z := Z.of_nat (length l).

(** [int(x)] on a float: truncation towards zero. *)
Definition py_int (x : Q) : Z :=
  if Qle_bool 0 x then Qfloor x else Qceiling x.

(** [x / y]: true division; a zero divisor raises. *)
Definition py_div (x y : Q) : py_result Q :=
  if Qeq_bool y 0 then Raise ZeroDivisionError else Ok (x / y)%Q.

(** [sum(l)]: a left fold that starts from [0]. *)
Definition py_sum (l : list Q) : Q := foldl Qplus 0%Q l.

(** [x < y] on floats. *)
Definition Qlt_bool (x y : Q) : bool := negb (Qle_bool y x).

(** [min(l)] and [max(l)]: the first least (greatest) element; [ValueError]
    on an empty list. *)
Definition py_min (l : list Q) : py_result Q :=
  match l with
  | [] => Raise ValueError
  | x :: xs => Ok (foldl (fun m v => if Qlt_bool v m then v else m) x xs)
  end.

Definition py_max (l : list Q) : py_result Q :=
  match l with
  | [] => Raise ValueError
  | x :: xs => Ok (foldl (fun m v => if Qlt_bool m v then v else m) x xs)
  end.

(** Where a slice bound lands: a negative bound counts from the end, and
    every bound is clamped to [0 .. len]. *)
Definition slice_bound (n i : Z) : nat :=
  Z.to_nat (if i <? 0 then Z.max 0 (n + i) else Z.min i n).

(** [l[start:stop]] *)
Definition py_slice {A} (l : list A) (start stop : Z) : list A :=
  let a := slice_bound (len l) start in
  let b := slice_bound (len l) stop in
  take (b - a) (drop a l).

(** The position [l[i]] names: a negative index counts from the end;
    out of range raises [IndexError]. *)
Definition py_index {A} (l : list A) (i : Z) : py_result nat :=
  if (0 <=? i) && (i <? len l) then Ok (Z.to_nat i)
  else if (- len l <=? i) && (i <? 0) then Ok (Z.to_nat (len l + i))
  else Raise IndexError.

(** [l[i]] *)
Definition py_getitem {A} (l : list A) (i : Z) : py_result A :=
  k ← py_index l i;
  match l !! k with
  | Some a => Ok a
  | None => Raise IndexError
  end.

(** [l[i] = v], as the list after the assignment. *)
Definition py_setitem {A} (l : list A) (i : Z) (v : A) : py_result (list A) :=
  k ← py_index l i; Ok (<[k := v]> l).

(** [range(n)] *)
Definition py_range (n : Z) : list Z := seqZ 0 n.

(** [[f(i) for i in l]], stopping at the first exception. *)
Fixpoint py_for {A B} (f : A -> py_result B) (l : list A) : py_result (list B) :=
  match l with
  | [] => Ok []
  | a :: l' => b ← f a; bs ← py_for f l'; Ok (b :: bs)
  end.

(** [sep.join(parts)] *)
Definition py_join (sep : string) (parts : list string) : string :=
  String.concat sep parts.

End Py.

Import Py.

(** ** bandwidth.py *)

Module Bandwidth.

(** [INTERVAL = 1] *)
Definition INTERVAL : Q := 1.

(** [safe_diff(current, previous)], on byte counters. *)
Definition safe_diff (current previous : Z) : Z :=
  if current <? previous then current else current - previous.

(** [dl = safe_diff(cur.bytes_recv, prev.bytes_recv) / INTERVAL]: the
    divisor is the module constant; the loop reads no clock. *)
Definition counter_rate (cur prev : Z) : py_result Q :=
  py_div (inject_Z (safe_diff cur prev)) INTERVAL.

(** One poll of [monitor_bandwidth.poll_loop] for a counter pair
    [(bytes_recv, bytes_sent)]. *)
Definition poll_rates (cur prev : Z * Z) : py_result (Q * Q) :=
  dl ← counter_rate (fst cur) (fst prev);
  ul ← counter_rate (snd cur) (snd prev);
  Ok (dl, ul).

(** *** [render_chart_precise(series, width, height)]

    In this module the quotients, products and sums of the renderer are
    exact.  The program rounds each of them to a double: its bucket bounds,
    means and rows are those of [Binary64] below, and they can differ from
    the exact ones by one unit where a product falls just below a whole
    number.  The properties stated of the definitions here (shapes, copied
    values, the order of rows, a row up to one) do not depend on that
    unit; the lemmas on the way to them give the exact values. *)

(** A cell of [rows] is a one-character string: [" "] or the full block
    U+2588, whose UTF-8 encoding is the bytes E2 96 88. *)
Definition blank : string := " ".
Definition block : string :=
  String (ascii_of_nat 226) (String (ascii_of_nat 150)
    (String (ascii_of_nat 136) EmptyString)).

Abbreviation grid := (list (list string)).

(** The body of [for i in range(width)]: one bucket and its mean, with
    exact products and an exact mean ([Binary64.bucket_mean] has the
    rounded ones). *)
Definition bucket_mean (data : list Q) (step : Q) (i : Z) : py_result Q :=
  let start := py_int (inject_Z i * step) in
  let end_ := py_int (inject_Z (i + 1) * step) in
  let chunk := py_slice data start end_ in
  py_div (py_sum chunk) (inject_Z (len chunk)).

(** The branch [if n > width]: compress into bins.  The step is the exact
    quotient ([Binary64.step_of] has the rounded one). *)
Definition compress (data : list Q) (n width : Z) : py_result (list Q) :=
  let step := if width =? 0 then 1%Q else (inject_Z n / inject_Z width)%Q in
  py_for (bucket_mean data step) (py_range width).

(** The branch [elif n < width]: pad with [data[-1]]. *)
Definition pad_right (data : list Q) (n width : Z) : py_result (list Q) :=
  v ← py_getitem data (-1);
  Ok (data ++ replicate (Z.to_nat (width - n)) v).

(** The statements under [# normalize in width], for a non-empty series. *)
Definition normalize_width (series : list Q) (width : Z) : py_result (list Q) :=
  let '(data, n) :=
    match series with
    | [d] => ([d; d], 2)
    | _ => (series, len series)
    end in
  if n >? width then compress data n width
  else if n <? width then pad_right data n width
  else Ok data.

(** The statements under [# normalize to height]: [(lo, span)].  When
    [data] is empty Python leaves [lo] unbound; the loop that reads it then
    has no iteration, and the model puts [0] there. *)
Definition height_scale (data : list Q) : py_result (Q * Q) :=
  match data with
  | [] => Ok (0%Q, 1%Q)
  | _ =>
      lo ← py_min data;
      hi ← py_max data;
      let d := (hi - lo)%Q in
      Ok (lo, if Qeq_bool d 0 then 1%Q else d)
  end.

(** [[[" " for _ in range(width)] for _ in range(height)]]: every row is a
    list of its own, so an assignment to one row leaves the others alone. *)
Definition blank_rows (width height : Z) : grid :=
  (fun _ => (fun _ => blank) <$> py_range width) <$> py_range height.

(** The row a value is drawn in: the two assignments to [y], with the
    exact quotient and product ([Binary64.column_row] has the rounded
    ones). *)
Definition column_row (lo span : Q) (height : Z) (val : Q) : py_result Z :=
  q ← py_div (val - lo) span;
  let y := py_int (q * inject_Z (height - 1)) in
  Ok (height - 1 - y).

(** [rows[y][x] = block] *)
Definition set_cell (rows : grid) (y x : Z) : py_result grid :=
  r ← py_getitem rows y;
  r' ← py_setitem r x block;
  py_setitem rows y r'.

(** [for x, val in enumerate(data)], from column [x] on. *)
Fixpoint plot (lo span : Q) (height : Z) (rows : grid) (x : Z) (data : list Q)
  : py_result grid :=
  match data with
  | [] => Ok rows
  | val :: rest =>
      y ← column_row lo span height val;
      rows' ← set_cell rows y x;
      plot lo span height rows' (x + 1) rest
  end.

(** The rows of a non-empty series, before they are joined. *)
Definition render_rows (series : list Q) (width height : Z) : py_result grid :=
  data ← normalize_width series width;
  '(lo, span) ← height_scale data;
  plot lo span height (blank_rows width height) 0 data.

(** [newline.join(empty.join(r) for r in rows)] *)
Definition rows_to_string (rows : grid) : string :=
  py_join (String (ascii_of_nat 10) EmptyString) (py_join EmptyString <$> rows).

Definition render_chart_precise (series : list Q) (width height : Z)
  : py_result string :=
  match series with
  | [] => Ok EmptyString
  | _ => rows_to_string <$> render_rows series width height
  end.

End Bandwidth.

(** ** [render_chart_precise] in binary64 arithmetic *)

Module Binary64.

Import Floats.PrimFloat Floats.SpecFloat Floats.FloatOps.

(** [float(z)]: the double nearest to an integer, a tie to the even one. *)
Definition of_int (z : Z) : float :=
  SF2Prim (binary_normalize prec emax z 0 false).

(** [a / b] on two integers below [2 ^ 53]: both are doubles as they are,
    and the quotient is rounded once. *)
Definition ratio (a b : Z) : float := div (of_int a) (of_int b).

(** The rational a double stands for; none for an infinity or a NaN. *)
Definition value (x : float) : option Q :=
  match Prim2SF x with
  | S754_zero _ => Some 0%Q
  | S754_finite s m e =>
      let a := (inject_Z (Z.pos m) * 2 ^ e)%Q in
      Some (Qred (if s then - a else a))
  | S754_infinity _ => None
  | S754_nan => None
  end.

(** A double that is neither an infinity nor a NaN. *)
Definition finite (x : float) : bool :=
  match Prim2SF x with
  | S754_zero _ => true
  | S754_finite _ _ _ => true
  | S754_infinity _ => false
  | S754_nan => false
  end.

(** [int(x)]: truncation towards zero; an infinity raises [OverflowError]
    and a NaN [ValueError]. *)
Definition py_int (x : float) : py_result Z :=
  match Prim2SF x with
  | S754_zero _ => Ok 0
  | S754_finite s m e =>
      let a := if 0 <=? e then Z.pos m * 2 ^ e else Z.pos m / 2 ^ (- e) in
      Ok (if s then - a else a)
  | S754_infinity _ => Raise OverflowError
  | S754_nan => Raise ValueError
  end.

(** [x / y]; a zero divisor, of either sign, raises. *)
Definition py_div (x y : float) : py_result float :=
  if eqb y zero then Raise ZeroDivisionError else Ok (div x y).

(** [sum(l)]: a left fold that starts from the integer [0], each addition
    rounded (CPython up to 3.11; from 3.12 on [sum] compensates the
    rounding of the additions, which can change the last place of a sum of
    three or more floats). *)
Definition py_sum (l : list float) : float := foldl add zero l.

(** [min(l)] and [max(l)]: an element replaces the running one when it is
    strictly smaller (greater). *)
Definition py_min (l : list float) : py_result float :=
  match l with
  | [] => Raise ValueError
  | x :: xs => Ok (foldl (fun m v => if ltb v m then v else m) x xs)
  end.

Definition py_max (l : list float) : py_result float :=
  match l with
  | [] => Raise ValueError
  | x :: xs => Ok (foldl (fun m v => if ltb m v then v else m) x xs)
  end.

(** [step = n / width if width else 1] *)
Definition step_of (n width : Z) : float :=
  if width =? 0 then one else ratio n width.

(** [start = int(i * step)] and [end = int((i + 1) * step)] *)
Definition chunk_bounds (step : float) (i : Z) : py_result (Z * Z) :=
  start ← py_int (mul (of_int i) step);
  end_ ← py_int (mul (of_int (i + 1)) step);
  Ok (start, end_).

(** The body of [for i in range(width)]: one bucket and its mean. *)
Definition bucket_mean (data : list float) (step : float) (i : Z)
  : py_result float :=
  '(start, end_) ← chunk_bounds step i;
  let chunk := py_slice data start end_ in
  py_div (py_sum chunk) (of_int (len chunk)).

(** The branch [if n > width]. *)
Definition compress (data : list float) (n width : Z) : py_result (list float) :=
  py_for (bucket_mean data (step_of n width)) (py_range width).

(** The branch [elif n < width]. *)
Definition pad_right (data : list float) (n width : Z) : py_result (list float) :=
  v ← py_getitem data (-1);
  Ok (data ++ replicate (Z.to_nat (width - n)) v).

(** The statements under [# normalize in width], for a non-empty series. *)
Definition normalize_width (series : list float) (width : Z)
  : py_result (list float) :=
  let '(data, n) :=
    match series with
    | [d] => ([d; d], 2)
    | _ => (series, len series)
    end in
  if n >? width then compress data n width
  else if n <? width then pad_right data n width
  else Ok data.

(** The statements under [# normalize to height]: [(lo, span)], where
    [span = hi - lo or 1].  For an empty [data] the loop that reads [lo]
    has no iteration, and the model puts [0] there. *)
Definition height_scale (data : list float) : py_result (float * float) :=
  match data with
  | [] => Ok (zero, one)
  | _ =>
      lo ← py_min data;
      hi ← py_max data;
      let d := sub hi lo in
      Ok (lo, if eqb d zero then one else d)
  end.

(** The row a value is drawn in: the two assignments to [y]. *)
Definition column_row (lo span : float) (height : Z) (val : float)
  : py_result Z :=
  q ← py_div (sub val lo) span;
  y ← py_int (mul q (of_int (height - 1)));
  Ok (height - 1 - y).

(** [for x, val in enumerate(data)], from column [x] on. *)
Fixpoint plot (lo span : float) (height : Z) (rows : Bandwidth.grid) (x : Z)
    (data : list float) : py_result Bandwidth.grid :=
  match data with
  | [] => Ok rows
  | val :: rest =>
      y ← column_row lo span height val;
      rows' ← Bandwidth.set_cell rows y x;
      plot lo span height rows' (x + 1) rest
  end.

(** The rows of a non-empty series, before they are joined. *)
Definition render_rows (series : list float) (width height : Z)
  : py_result Bandwidth.grid :=
  data ← normalize_width series width;
  '(lo, span) ← height_scale data;
  plot lo span height (Bandwidth.blank_rows width height) 0 data.

Definition render_chart_precise (series : list float) (width height : Z)
  : py_result string :=
  match series with
  | [] => Ok EmptyString
  | _ => Bandwidth.rows_to_string <$> render_rows series width height
  end.

End Binary64.

(** ** pingmon.py *)

Module Pingmon.

(** [float('inf')] beside the finite floats. *)
Inductive pyfloat : Set :=
  | Inf
  | Fin (q : Q).

(** What [ping(host, count=1, ...)] does, as [do_ping] sees it: it raises,
    or returns a response with [success()], [rtt_avg_ms] and, when the
    attribute exists, [ttl]. *)
Inductive ping_outcome : Set :=
  | PingRaised
  | PingResponse (success : bool) (rtt_avg_ms : Q) (ttl : option Z).

(** [do_ping(host)]: [(latency_ms, ttl, success)]. *)
Definition do_ping (o : ping_outcome) : Q * Z * bool :=
  match o with
  | PingResponse true rtt ttl => (rtt, default 0 ttl, true)
  | _ => (0%Q, 0, false)
  end.

(** [collections.deque(maxlen=...)] *)
Record deque (A : Type) : Type := mk_deque { maxlen : Z; items : list A }.
Arguments mk_deque {A} maxlen items.
Arguments maxlen {A} d.
Arguments items {A} d.

Definition deque_new {A} (m : Z) : py_result (deque A) :=
  if m <? 0 then Raise ValueError else Ok (mk_deque m []).

(** [d.append(x)]: append on the right, then drop the oldest entry when
    the deque is over [maxlen]. *)
Definition deque_append {A} (d : deque A) (x : A) : deque A :=
  let l := items d ++ [x] in
  mk_deque (maxlen d) (if maxlen d <? len l then drop 1 l else l).

(** [min(a, b)] with [a = stats['min']], and [max(a, b)]. *)
Definition min_latency (a : pyfloat) (b : Q) : pyfloat :=
  match a with
  | Inf => Fin b
  | Fin q => if Qlt_bool b q then Fin b else Fin q
  end.

Definition max_latency (a b : Q) : Q := if Qlt_bool a b then b else a.

(** [statistics.mean] *)
Definition mean (l : list Q) : py_result Q :=
  match l with
  | [] => Raise StatisticsError
  | _ => py_div (py_sum l) (inject_Z (len l))
  end.

(** [(stats['lost'] / stats['sent'] * 100) if stats['sent'] > 0 else 0] *)
Definition packet_loss (lost sent : Z) : py_result Q :=
  if sent >? 0 then
    q ← py_div (inject_Z lost) (inject_Z sent); Ok (q * 100)%Q
  else Ok 0%Q.

Section Monitors.

(** [statistics.stdev], the sample standard deviation of two or more
    values: a square root, so it is left abstract. *)
Variable stdev : list Q -> Q.

(** [stdev(latencies) if len(latencies) > 1 else 0] *)
Definition std_of (latencies : list Q) : Q :=
  if len latencies >? 1 then stdev latencies else 0%Q.

(** *** [monitor_ping_basic] *)

Record basic : Type := mk_basic {
  b_sent : Z;
  b_received : Z;
  b_lost : Z;
  b_min : pyfloat;
  b_max : Q;
  b_avg : Q;
  b_latencies : list Q;
  b_history_latency : deque Q;
  b_history_ttl : deque Z;
  b_running : bool
}.

(** The state before the loop; [history_points] is [HISTORY_POINTS], the
    terminal width less 14. *)
Definition basic_init (history_points : Z) : py_result basic :=
  hl ← deque_new history_points;
  ht ← deque_new history_points;
  Ok (mk_basic 0 0 0 Inf 0 0 [] hl ht true).

(** The sampling part of one iteration. *)
Definition basic_tick (o : ping_outcome) (st : basic) : py_result basic :=
  let '(latency, ttl, success) := do_ping o in
  let sent := b_sent st + 1 in
  if success then
    let latencies := b_latencies st ++ [latency] in
    avg ← match latencies with [] => Ok 0%Q | _ => mean latencies end;
    Ok (mk_basic sent (b_received st + 1) (b_lost st)
          (min_latency (b_min st) latency) (max_latency (b_max st) latency)
          avg latencies
          (deque_append (b_history_latency st) latency)
          (deque_append (b_history_ttl st) (if ttl >? 0 then ttl else 64))
          (b_running st))
  else
    Ok (mk_basic sent (b_received st) (b_lost st + 1)
          (b_min st) (b_max st) (b_avg st) (b_latencies st)
          (deque_append (b_history_latency st) 0%Q)
          (deque_append (b_history_ttl st) 0)
          (b_running st)).

(** What one iteration prints: the loss percentage, and the standard
    deviation when [stats['received'] > 0]. *)
Definition basic_report (st : basic) : py_result (Q * option Q) :=
  loss ← packet_loss (b_lost st) (b_sent st);
  Ok (loss, if b_received st >? 0 then Some (std_of (b_latencies st)) else None).

(** [while running:], over the outcomes of the successive probes; the flag
    beside an outcome says whether the signal handler ran during that
    iteration.  A list that ends leaves the loop where it is. *)
Fixpoint basic_loop (inputs : list (ping_outcome * bool)) (st : basic)
  : py_result basic :=
  match inputs with
  | [] => Ok st
  | (o, stop) :: rest =>
      if b_running st then
        st' ← basic_tick o st;
        _ ← basic_report st';
        basic_loop rest
          (if stop
           then mk_basic (b_sent st') (b_received st') (b_lost st') (b_min st')
                  (b_max st') (b_avg st') (b_latencies st')
                  (b_history_latency st') (b_history_ttl st') false
           else st')
      else Ok st
  end.

Definition monitor_ping_basic (history_points : Z)
  (inputs : list (ping_outcome * bool)) : py_result basic :=
  st ← basic_init history_points; basic_loop inputs st.

(** *** [monitor_ping_advanced] *)

Record advanced : Type := mk_advanced {
  a_sent : Z;
  a_received : Z;
  a_lost : Z;
  a_min : pyfloat;
  a_max : Q;
  a_latencies : list Q;
  a_history_latency : deque Q;
  a_running : bool
}.

Definition advanced_init (history_points : Z) : py_result advanced :=
  hl ← deque_new history_points;
  Ok (mk_advanced 0 0 0 Inf 0 [] hl true).

(** The sampling part of one iteration of [poll_loop]. *)
Definition advanced_tick (o : ping_outcome) (st : advanced) : advanced :=
  let '(latency, ttl, success) := do_ping o in
  let sent := a_sent st + 1 in
  if success then
    mk_advanced sent (a_received st + 1) (a_lost st)
      (min_latency (a_min st) latency) (max_latency (a_max st) latency)
      (a_latencies st ++ [latency])
      (deque_append (a_history_latency st) latency)
      (a_running st)
  else
    mk_advanced sent (a_received st) (a_lost st + 1)
      (a_min st) (a_max st) (a_latencies st)
      (deque_append (a_history_latency st) 0%Q)
      (a_running st).

(** [avg], [packet_loss] and [std] of the display. *)
Definition advanced_report (st : advanced) : py_result (Q * Q * Q) :=
  avg ← match a_latencies st with [] => Ok 0%Q | _ => mean (a_latencies st) end;
  loss ← packet_loss (a_lost st) (a_sent st);
  Ok (avg, loss, std_of (a_latencies st)).

(** [while running["val"]:]; an exception while the display is built is
    caught by the [try] around it, and the loop goes on. *)
Fixpoint poll_loop (inputs : list (ping_outcome * bool)) (st : advanced)
  : advanced :=
  match inputs with
  | [] => st
  | (o, stop) :: rest =>
      if a_running st then
        let st' := advanced_tick o st in
        poll_loop rest
          (if stop
           then mk_advanced (a_sent st') (a_received st') (a_lost st')
                  (a_min st') (a_max st') (a_latencies st')
                  (a_history_latency st') false
           else st')
      else st
  end.

Definition monitor_ping_advanced (history_points : Z)
  (inputs : list (ping_outcome * bool)) : py_result advanced :=
  st ← advanced_init history_points; Ok (poll_loop inputs st).

End Monitors.

End Pingmon.

(** ** The specification's own words, for comparison with the code *)

Module Spec.

(** The bucket [data[floor(i * n / width) .. floor((i + 1) * n / width))],
    with the floors taken by integer division. *)
Definition bucket_lo (n width i : Z) : Z := i * n / width.
Definition bucket_hi (n width i : Z) : Z := (i + 1) * n / width.

Definition bucket (data : list Q) (width i : Z) : list Q :=
  let n := len data in
  take (Z.to_nat (bucket_hi n width i - bucket_lo n width i))
       (drop (Z.to_nat (bucket_lo n width i)) data).

(** The arithmetic mean. *)
Definition arith_mean (l : list Q) : Q :=
  (foldr Qplus 0 l / inject_Z (len l))%Q.

(** A lone value is duplicated: [n == 1] becomes two equal entries. *)
Definition dup_lone (series : list Q) : list Q :=
  if len series =? 1 then series ++ series else series.

(** Padding on the right with [v] until the length is [width]. *)
Definition pad_to (width : Z) (data : list Q) (v : Q) : list Q :=
  data ++ replicate (Z.to_nat (width - len data)) v.

(** [round(x)]: to the nearest integer, a tie to the even one. *)
Definition round_half_even (x : Q) : Z :=
  let f := Qfloor x in
  let r := (x - inject_Z f)%Q in
  if Qlt_bool r (1 # 2) then f
  else if Qlt_bool (1 # 2) r then f + 1
  else if Z.even f then f else f + 1.

(** The row the specification gives a value: [height - 1 - round(...)]. *)
Definition rounded_row (lo span : Q) (height : Z) (v : Q) : Z :=
  height - 1 - round_half_even ((v - lo) / span * inject_Z (height - 1)).

(** The same with the fraction cut off instead of rounded. *)
Definition floored_row (lo span : Q) (height : Z) (v : Q) : Z :=
  height - 1 - Qfloor ((v - lo) / span * inject_Z (height - 1)).

(** The cell of a grid at row [r], column [c]. *)
Definition cell (g : Bandwidth.grid) (r c : nat) : option string :=
  g !! r ≫= fun row => row !! c.

(** The rows in which each column of a grid has a filled cell. *)
Definition painted_rows (width : Z) (g : Bandwidth.grid) : list (list Z) :=
  (fun x =>
     filter (fun y => cell g (Z.to_nat y) (Z.to_nat x) = Some Bandwidth.block)
            (py_range (len g)))
  <$> py_range width.

(** Every row of the grid has [width] cells. *)
Definition rows_of_width (width : Z) (rows : Bandwidth.grid) : Prop :=
  Forall (fun row => len row = width) rows.

(** The value column [c] holds when the plotting loop starts at column
    [x0] with the values [data] still to draw. *)
Definition column_value (data : list Q) (x0 c : nat) : option Q :=
  if decide (x0 <= c)%nat then data !! (c - x0)%nat else None.

(** A grid of [height] rows by [width] columns with the cells of row [r]
    filled and every other cell blank. *)
Definition one_row_grid (width height : nat) (r : nat) : Bandwidth.grid :=
  (fun y => replicate width (if Nat.eqb y r then Bandwidth.block else Bandwidth.blank))
    <$> seq 0 height.

(** A grid of [height] rows by [width] columns of blank cells. *)
Definition blank_grid (width height : nat) : Bandwidth.grid :=
  replicate height (replicate width Bandwidth.blank).

(** A probe fails when [do_ping] reports no success. *)
Definition probe_failed (o : Pingmon.ping_outcome) : Prop :=
  snd (Pingmon.do_ping o) = false.

(** What holds of the counters, the latency list and the latency history
    of [monitor_ping_basic] between two iterations. *)
Definition basic_inv (history_points : Z) (st : Pingmon.basic) : Prop :=
  0 <= Pingmon.b_received st /\
  0 <= Pingmon.b_lost st /\
  Pingmon.b_sent st = Pingmon.b_received st + Pingmon.b_lost st /\
  len (Pingmon.b_latencies st) = Pingmon.b_received st /\
  Pingmon.maxlen (Pingmon.b_history_latency st) = history_points /\
  len (Pingmon.items (Pingmon.b_history_latency st))
    = Z.min (Pingmon.b_sent st) history_points.

(** The same for [monitor_ping_advanced]. *)
Definition advanced_inv (history_points : Z) (st : Pingmon.advanced) : Prop :=
  0 <= Pingmon.a_received st /\
  0 <= Pingmon.a_lost st /\
  Pingmon.a_sent st = Pingmon.a_received st + Pingmon.a_lost st /\
  len (Pingmon.a_latencies st) = Pingmon.a_received st /\
  Pingmon.maxlen (Pingmon.a_history_latency st) = history_points /\
  len (Pingmon.items (Pingmon.a_history_latency st))
    = Z.min (Pingmon.a_sent st) history_points.

(** Two sessions of five probes: latencies 10, 20, 15, a lost probe, 25;
    and three answers among two lost probes.  No stop is requested. *)
Definition answered (ms : Z) : Pingmon.ping_outcome * bool :=
  (Pingmon.PingResponse true (inject_Z ms) (Some 64), false).

Definition timed_out : Pingmon.ping_outcome * bool :=
  (Pingmon.PingResponse false 0 None, false).

Definition five_probes : list (Pingmon.ping_outcome * bool) :=
  [answered 10; answered 20; answered 15; timed_out; answered 25].

Definition five_probes_two_lost : list (Pingmon.ping_outcome * bool) :=
  [answered 10; timed_out; answered 20; (Pingmon.PingRaised, false); answered 15].

(** For a value [v] of [0 .. hi] on the scale from 0 to [hi]: the row the
    program computes in binary64 is inside the grid, it is the row of the
    rounded value or the one below it, the bottom row for 0 and the top
    row for [hi]. *)
Definition row_within_one (height hi v : Z) : bool :=
  match Binary64.column_row (Binary64.of_int 0) (Binary64.of_int hi) height
                            (Binary64.of_int v) with
  | Ok y =>
      let r := rounded_row 0 (inject_Z hi) height (inject_Z v) in
      (0 <=? y) && (y <? height) && ((y =? r) || (y =? r + 1))
      && (if v =? 0 then y =? height - 1 else true)
      && (if v =? hi then y =? 0 else true)
  | Raise _ => false
  end.

(** The same for every height from 2 to [max_height], every [hi] from 1
    to [max_hi] and every value [0 .. hi]. *)
Definition rows_within_one (max_height max_hi : Z) : bool :=
  forallb (fun height =>
    forallb (fun hi =>
      forallb (fun v => row_within_one height hi v) (seqZ 0 (hi + 1)))
      (seqZ 1 max_hi))
    (seqZ 2 (max_height - 1)).

(** With a whole step [k] the bounds of chunk [i] computed in binary64 are
    [i * k] and [(i + 1) * k]: for every width from 1 to [max_width] and
    every [k] from 2 to [max_k]. *)
Definition even_chunks_exact (max_width max_k : Z) : bool :=
  forallb (fun width =>
    forallb (fun k =>
      forallb (fun i =>
        match Binary64.chunk_bounds (Binary64.step_of (k * width) width) i with
        | Ok (a, b) => (a =? i * k) && (b =? (i + 1) * k)
        | Raise _ => false
        end)
        (seqZ 0 width))
      (seqZ 2 (max_k - 1)))
    (seqZ 1 max_width).

(** Sample series as doubles: [0, 1, ..., n - 1], a list of integers, and
    the double of the literal [0.1]. *)
Definition ramp (n : Z) : list Floats.PrimFloat.float :=
  Binary64.of_int <$> seqZ 0 n.

Definition doubles (l : list Z) : list Floats.PrimFloat.float :=
  Binary64.of_int <$> l.

Definition tenth : Floats.PrimFloat.float := Binary64.ratio 1 10.

End Spec.

(** ** Sessions of the ping monitors as traces *)

Module Trace.

Import Pingmon.

(** The probes a loop handles: those up to and including the first one
    during which a stop is requested. *)
Fixpoint processed (inputs : list (ping_outcome * bool)) : list ping_outcome :=
  match inputs with
  | [] => []
  | (o, stop) :: rest => o :: (if stop then [] else processed rest)
  end.

(** Whether a stop is requested during some iteration. *)
Definition stop_requested (inputs : list (ping_outcome * bool)) : bool :=
  existsb snd inputs.

(** The latency of an answered probe. *)
Definition answered_latency (o : ping_outcome) : option Q :=
  match o with
  | PingResponse true rtt _ => Some rtt
  | _ => None
  end.

(** What one probe leaves in the latency history and in the TTL history. *)
Definition latency_entry (o : ping_outcome) : Q :=
  match o with
  | PingResponse true rtt _ => rtt
  | _ => 0%Q
  end.

Definition ttl_entry (o : ping_outcome) : Z :=
  match o with
  | PingResponse true _ ttl => if default 0 ttl >? 0 then default 0 ttl else 64
  | _ => 0
  end.

(** The newest [m] entries of a list. *)
Definition newest {A} (m : Z) (l : list A) : list A :=
  drop (length l - Z.to_nat m) l.

(** The least and the greatest of the answered latencies, as the monitors
    keep them: the least is [Inf] before the first answer, the greatest
    starts from 0. *)
Definition is_least (m : pyfloat) (l : list Q) : Prop :=
  match m with
  | Inf => l = []
  | Fin q => q ∈ l /\ Forall (fun v => (q <= v)%Q) l
  end.

Definition is_greatest_or_zero (m : Q) (l : list Q) : Prop :=
  (m = 0%Q \/ m ∈ l) /\ (0 <= m)%Q /\ Forall (fun v => (v <= m)%Q) l.

(** The state of [monitor_ping_basic] after the probes [xs]. *)
Definition basic_after (hp : Z) (xs : list ping_outcome) (st : basic) : Prop :=
  b_sent st = len xs /\
  b_received st = len (omap answered_latency xs) /\
  b_lost st = len xs - len (omap answered_latency xs) /\
  b_latencies st = omap answered_latency xs /\
  b_history_latency st = mk_deque hp (newest hp (latency_entry <$> xs)) /\
  b_history_ttl st = mk_deque hp (newest hp (ttl_entry <$> xs)) /\
  is_least (b_min st) (omap answered_latency xs) /\
  is_greatest_or_zero (b_max st) (omap answered_latency xs) /\
  b_avg st = match omap answered_latency xs with
             | [] => 0%Q
             | l => (py_sum l / inject_Z (len l))%Q
             end.

(** The state of [monitor_ping_advanced] after the probes [xs]. *)
Definition advanced_after (hp : Z) (xs : list ping_outcome) (st : advanced)
  : Prop :=
  a_sent st = len xs /\
  a_received st = len (omap answered_latency xs) /\
  a_lost st = len xs - len (omap answered_latency xs) /\
  a_latencies st = omap answered_latency xs /\
  a_history_latency st = mk_deque hp (newest hp (latency_entry <$> xs)) /\
  is_least (a_min st) (omap answered_latency xs) /\
  is_greatest_or_zero (a_max st) (omap answered_latency xs).

(** What the display of [monitor_ping_advanced] shows for the chart: the
    plot of [asciichartpy] (a parameter: it may raise), a placeholder while
    the history has fewer than two entries, or the error text. *)
Inductive chart_view : Set :=
  | Collecting
  | Chart (text : string)
  | ChartError (e : py_exn).

Definition advanced_chart (plot : list Q -> Z -> Z -> py_result string)
    (chart_height width : Z) (st : advanced) : chart_view :=
  if len (items (a_history_latency st)) >? 1 then
    match plot (items (a_history_latency st)) chart_height width with
    | Ok text => Chart text
    | Raise e => ChartError e
    end
  else Collecting.

(** The two monitors hold the same statistics. *)
Definition same_stats (sb : basic) (sa : advanced) : Prop :=
  b_sent sb = a_sent sa /\
  b_received sb = a_received sa /\
  b_lost sb = a_lost sa /\
  b_min sb = a_min sa /\
  b_max sb = a_max sa /\
  b_latencies sb = a_latencies sa /\
  b_history_latency sb = a_history_latency sa /\
  b_running sb = a_running sa.

End Trace.

(** ** bandwidth.py: widths, interfaces and the monitor loops *)

Module BandwidthCli.

Import Bandwidth.

(** What these functions raise, beside what they return. *)
Inductive cli_exn : Set :=
  | KeyError
  | RuntimeError
  | SystemExit
  | IntValueError.

Inductive outcome (A : Type) : Type :=
  | Return (a : A)
  | Raises (e : cli_exn).

Arguments Return {A} a.
Arguments Raises {A} e.

(** [_final_width()] of [monitor_bandwidth] (and of
    [monitor_ping_advanced]), for a terminal of [w] columns:
    [max(10, min((chart_width or (w - 4)), w - 4))]. *)
Definition final_width (chart_width w : Z) : Z :=
  Z.max 10 (Z.min (if chart_width =? 0 then w - 4 else chart_width) (w - 4)).

(** [final_width = chart_width if chart_width > 0 else term_width - 4] of
    [monitor_bandwidth_original] (and of [monitor_ping_basic]). *)
Definition original_width (chart_width term_width : Z) : Z :=
  if chart_width >? 0 then chart_width else term_width - 4.

(** *** [select_interface()] *)

(** [max(items, key=...)]: the first item whose key is greatest. *)
Fixpoint py_max_by {A} (key : A -> Z) (best : A) (l : list A) : A :=
  match l with
  | [] => best
  | x :: l' => py_max_by key (if key best <? key x then x else best) l'
  end.

(** [x[1].bytes_recv + x[1].bytes_sent] *)
Definition traffic (item : string * (Z * Z)) : Z :=
  fst (snd item) + snd (snd item).

(** [candidates] is the table of [psutil.net_io_counters(pernic=True)] in
    its order: interface name, then [(bytes_recv, bytes_sent)]. *)
Definition select_interface (candidates : list (string * (Z * Z)))
  : outcome string :=
  match candidates with
  | [] => Raises RuntimeError
  | item :: items => Return (fst (py_max_by traffic item items))
  end.

(** *** [colorize_chart_rich(chart_raw, dl_color, ul_color)] *)

(** Characters are code points.  [set("┤│┘┐┬┴─")] and [set("┼┘┐┬┴─")]. *)
Definition dl_chars : gset N :=
  list_to_set [0x2524; 0x2502; 0x2518; 0x2510; 0x252C; 0x2534; 0x2500]%N.

Definition ul_chars : gset N :=
  list_to_set [0x253C; 0x2518; 0x2510; 0x252C; 0x2534; 0x2500]%N.

(** The [Text] built by the loop: each character with the style it was
    appended with. *)
Definition colorize_chart_rich (chart_raw : list N) (dl_color ul_color : string)
  : list (N * option string) :=
  (fun ch =>
     if bool_decide (ch ∈ ul_chars) then (ch, Some ul_color)
     else if bool_decide (ch ∈ dl_chars) then (ch, Some dl_color)
     else (ch, None)) <$> chart_raw.

(** *** [resolve_interface(pattern)] *)

(** What is typed at [Choose index:], after [strip()]: not all digits; all
    digits, read by [int] as [k]; or all digits by [isdigit] that [int]
    rejects. *)
Inductive typed_choice : Set :=
  | NotDigits
  | Digits (k : Z)
  | DigitsNotInt.

(** The choice among several matches. *)
Definition choose (matches : list string) (choice : typed_choice)
  : outcome string :=
  match choice with
  | NotDigits => Raises SystemExit
  | DigitsNotInt => Raises IntValueError
  | Digits k =>
      if (1 <=? k) && (k <=? len matches) then
        match matches !! Z.to_nat (k - 1) with
        | Some name => Return name
        | None => Raises SystemExit
        end
      else Raises SystemExit
  end.

(** [fnmatch] is [fnmatch.fnmatch]; [regex pattern] is [None] when
    [re.compile] raises [re.error], else the [search] of the compiled
    pattern. *)
Definition resolve_interface
    (fnmatch : string -> string -> bool)
    (regex : string -> option (string -> bool))
    (interfaces : list string) (pattern : string) (choice : typed_choice)
  : outcome string :=
  if bool_decide (pattern ∈ interfaces) then Return pattern
  else
    match List.filter (fun i => fnmatch i pattern) interfaces with
    | [name] => Return name
    | (_ :: _ :: _) as matches => choose matches choice
    | [] =>
        match regex pattern with
        | None => Raises SystemExit
        | Some search =>
            match List.filter search interfaces with
            | [name] => Return name
            | (_ :: _ :: _) as matches => choose matches choice
            | [] => Raises SystemExit
            end
        end
    end.

(** *** [monitor_bandwidth] *)

(** [HISTORY_POINTS = 120] *)
Definition HISTORY_POINTS : Z := 120.

Record bw_state : Type := mk_bw {
  bw_prev : Z * Z;
  bw_history_dl : Pingmon.deque Q;
  bw_history_ul : Pingmon.deque Q;
  bw_running : bool;
  bw_removed : bool
}.

(** The state before the loop: [prev] is the first reading of the
    interface. *)
Definition bw_init (interface : string) (counters : gmap string (Z * Z))
  : outcome bw_state :=
  match counters !! interface with
  | None => Raises KeyError
  | Some first =>
      Return (mk_bw first (Pingmon.mk_deque HISTORY_POINTS [])
                (Pingmon.mk_deque HISTORY_POINTS []) true false)
  end.

(** One iteration of [poll_loop] with the table [counters] read in it.  A
    missing interface stops the loop with the message; an exception is
    caught by the [try] around the loop, which stops it too. *)
Definition bw_poll (interface : string) (counters : gmap string (Z * Z))
    (st : bw_state) : bw_state :=
  match counters !! interface with
  | None =>
      mk_bw (bw_prev st) (bw_history_dl st) (bw_history_ul st) false true
  | Some cur =>
      match poll_rates cur (bw_prev st) with
      | Ok (dl, ul) =>
          mk_bw cur (Pingmon.deque_append (bw_history_dl st) dl)
            (Pingmon.deque_append (bw_history_ul st) ul)
            (bw_running st) (bw_removed st)
      | Raise _ =>
          mk_bw (bw_prev st) (bw_history_dl st) (bw_history_ul st)
            false (bw_removed st)
      end
  end.

(** [while running["val"]:] over the tables read in the successive
    iterations; the flag says whether [q] or Ctrl-C is pressed during that
    iteration. *)
Fixpoint bw_poll_loop (interface : string)
    (inputs : list (gmap string (Z * Z) * bool)) (st : bw_state) : bw_state :=
  match inputs with
  | [] => st
  | (counters, stop) :: rest =>
      if bw_running st then
        let st' := bw_poll interface counters st in
        bw_poll_loop interface rest
          (if stop
           then mk_bw (bw_prev st') (bw_history_dl st') (bw_history_ul st')
                  false (bw_removed st')
           else st')
      else st
  end.

(** *** [monitor_bandwidth_rich] *)

Record rich_state : Type := mk_rich {
  rich_prev : Z * Z;
  rich_history_dl : Pingmon.deque Q;
  rich_history_ul : Pingmon.deque Q
}.

(** One iteration, on a terminal of [cols] columns; [history] is
    [HISTORY], fixed when the monitor starts.  The rates are plain
    differences over the local [INTERVAL = 1]. *)
Definition rich_step (history : Z) (interface : string) (cols : Z)
    (counters : gmap string (Z * Z)) (st : rich_state) : outcome rich_state :=
  let '(hdl, hul) :=
    if negb (cols - 14 =? history)
    then (Pingmon.mk_deque history [], Pingmon.mk_deque history [])
    else (rich_history_dl st, rich_history_ul st) in
  match counters !! interface with
  | None => Raises KeyError
  | Some cur =>
      let dl := (inject_Z (fst cur - fst (rich_prev st)) / 1)%Q in
      let ul := (inject_Z (snd cur - snd (rich_prev st)) / 1)%Q in
      Return (mk_rich cur (Pingmon.deque_append hdl dl)
                (Pingmon.deque_append hul ul))
  end.

(** The readings of [interface] in a table are not negative. *)
Definition readings_nonneg (interface : string) (counters : gmap string (Z * Z))
  : Prop :=
  forall r s, counters !! interface = Some (r, s) -> 0 <= r /\ 0 <= s.

(** What [monitor_bandwidth] keeps between two iterations. *)
Definition bw_inv (st : bw_state) : Prop :=
  0 <= fst (bw_prev st) /\ 0 <= snd (bw_prev st) /\
  Pingmon.maxlen (bw_history_dl st) = HISTORY_POINTS /\
  Pingmon.maxlen (bw_history_ul st) = HISTORY_POINTS /\
  len (Pingmon.items (bw_history_dl st)) = len (Pingmon.items (bw_history_ul st)) /\
  len (Pingmon.items (bw_history_dl st)) <= HISTORY_POINTS /\
  Forall (fun v => (0 <= v)%Q) (Pingmon.items (bw_history_dl st)) /\
  Forall (fun v => (0 <= v)%Q) (Pingmon.items (bw_history_ul st)).

(** A table with the one interface [eth0]. *)
Definition eth0_at (recv sent : Z) : gmap string (Z * Z) :=
  {[ "eth0"%string := (recv, sent) ]}.

(** A table without it. *)
Definition lo_only : gmap string (Z * Z) := {[ "lo"%string := (0, 0) ]}.

End BandwidthCli.

(** ** Facts about the Python fragment *)

Module PyFacts.

Lemma Qle_bool_false (x y : Q) : Qle_bool x y = false <-> (y < x)%Q.
Proof.
  split.
  - intros H. apply Qnot_le_lt. intros Hle.
    apply Qle_bool_iff in Hle. congruence.
  - intros H. destruct (Qle_bool x y) eqn:E; [|reflexivity].
    apply Qle_bool_iff in E. exfalso. eapply Qlt_not_le; eauto.
Qed.

Lemma Qlt_bool_iff (x y : Q) : Qlt_bool x y = true <-> (x < y)%Q.
Proof.
  unfold Qlt_bool. rewrite negb_true_iff. apply Qle_bool_false.
Qed.

Lemma Qlt_bool_false (x y : Q) : Qlt_bool x y = false <-> (y <= x)%Q.
Proof.
  unfold Qlt_bool. rewrite negb_false_iff. apply Qle_bool_iff.
Qed.

Lemma py_int_nonneg (x : Q) : (0 <= x)%Q -> py_int x = Qfloor x.
Proof.
  intros H. unfold py_int. apply Qle_bool_iff in H. now rewrite H.
Qed.

Lemma py_int_comp (x y : Q) : (x == y)%Q -> py_int x = py_int y.
Proof.
  intros H. unfold py_int. rewrite (Qleb_comp 0%Q 0%Q (Qeq_refl 0%Q) x y H).
  destruct (Qle_bool 0 y); [apply Qfloor_comp | apply Qceiling_comp]; exact H.
Qed.

Lemma py_int_zero (x : Q) : (x == 0)%Q -> py_int x = 0.
Proof. intros H. now rewrite (py_int_comp x 0%Q H). Qed.

Lemma py_div_ok (x y : Q) : ~ y == 0 -> py_div x y = Ok (x / y)%Q.
Proof.
  intros H. unfold py_div. destruct (Qeq_bool y 0) eqn:E; [|reflexivity].
  apply Qeq_bool_eq in E. contradiction.
Qed.

Lemma inject_Z_nonzero (z : Z) : z <> 0 -> ~ (inject_Z z == 0)%Q.
Proof. intros Hz E. unfold Qeq in E. cbn in E. lia. Qed.

Lemma bind_Ok {A B} (a : A) (f : A -> py_result B) : (Ok a ≫= f) = f a.
Proof. reflexivity. Qed.

Lemma bind_Ok_eq {A B} (m : py_result A) (a : A) (f : A -> py_result B) :
  m = Ok a -> (m ≫= f) = f a.
Proof. now intros ->. Qed.

Lemma len_nonneg {A} (l : list A) : 0 <= len l.
Proof. unfold len. lia. Qed.

Lemma len_app {A} (l k : list A) : len (l ++ k) = len l + len k.
Proof. unfold len. rewrite length_app. lia. Qed.

End PyFacts.

Import PyFacts.

(** ** bandwidth.py: the counter delta *)

Module CounterDelta.

Import Bandwidth.

Lemma safe_diff_nonneg (cur prev : Z) :
  0 <= prev -> 0 <= cur -> 0 <= safe_diff cur prev.
Proof.
  intros Hp Hc. unfold safe_diff. destruct (Z.ltb_spec cur prev); lia.
Qed.

Lemma safe_diff_forward (cur prev : Z) :
  prev <= cur -> safe_diff cur prev = cur - prev.
Proof.
  intros H. unfold safe_diff. destruct (Z.ltb_spec cur prev); lia.
Qed.

Lemma safe_diff_wrapped (cur prev : Z) :
  cur < prev -> safe_diff cur prev = cur.
Proof.
  intros H. unfold safe_diff. destruct (Z.ltb_spec cur prev); lia.
Qed.

(** C2 (amended): for non-negative readings [prev] and [curr] the counter
    delta is divided by the constant [INTERVAL = 1], no elapsed time being
    measured: the rate is [(curr - prev) / INTERVAL = curr - prev] when
    [curr >= prev] and [curr / INTERVAL = curr] when [curr < prev]; in both
    cases it is not negative, and nothing is raised. *)
Theorem counter_rate_fixed_interval (prev curr : Z) :
  0 <= prev -> 0 <= curr ->
  exists rate,
    counter_rate curr prev = Ok rate /\
    (INTERVAL == 1)%Q /\
    (prev <= curr ->
       (rate == (inject_Z curr - inject_Z prev) / INTERVAL)%Q /\
       (rate == inject_Z (curr - prev))%Q) /\
    (curr < prev ->
       (rate == inject_Z curr / INTERVAL)%Q /\ (rate == inject_Z curr)%Q) /\
    (0 <= rate)%Q.
Proof.
  intros Hp Hc. exists (inject_Z (safe_diff curr prev) / INTERVAL)%Q.
  split; [|split; [|split; [|split]]].
  - unfold counter_rate. apply py_div_ok. discriminate.
  - reflexivity.
  - intros H. rewrite safe_diff_forward by exact H. split.
    + unfold Z.sub. now rewrite inject_Z_plus, inject_Z_opp.
    + unfold INTERVAL. field.
  - intros H. rewrite safe_diff_wrapped by exact H. split.
    + reflexivity.
    + unfold INTERVAL. field.
  - unfold INTERVAL. apply Qle_shift_div_l; [reflexivity|]. rewrite Qmult_0_l.
    change 0%Q with (inject_Z 0). rewrite <- Zle_Qle.
    now apply safe_diff_nonneg.
Qed.

(** A counter that wrapped from 1000 to 300: the rate is 300. *)
Lemma counter_rate_fixed_interval_witness :
  (exists rate,
    counter_rate 300 1000 = Ok rate /\
    (INTERVAL == 1)%Q /\
    (1000 <= 300 ->
       (rate == (inject_Z 300 - inject_Z 1000) / INTERVAL)%Q /\
       (rate == inject_Z (300 - 1000))%Q) /\
    (300 < 1000 ->
       (rate == inject_Z 300 / INTERVAL)%Q /\ (rate == inject_Z 300)%Q) /\
    (0 <= rate)%Q) /\
  fmap (M := py_result) Qred (counter_rate 300 1000) = Ok 300%Q.
Proof.
  split.
  - apply (counter_rate_fixed_interval 1000 300); lia.
  - reflexivity.
Defined.

(** C2 as it is worded fails: it takes the rate over every elapsed time
    [t > 0], but the code has no such input.  For the readings 0 and 10 and
    an elapsed time of 2 seconds the claim gives [(10 - 0) / 2 = 5]; the
    code returns 10. *)
Lemma elapsed_time_not_measured :
  let prev := 0 in
  let curr := 10 in
  let t := 2%Q in
  0 <= prev /\ 0 <= curr /\ (0 < t)%Q /\ prev <= curr /\
  exists rate,
    counter_rate curr prev = Ok rate /\
    (rate == 10)%Q /\
    ~ (rate == (inject_Z curr - inject_Z prev) / t)%Q.
Proof.
  cbv zeta. split; [lia|]. split; [lia|]. split; [reflexivity|]. split; [lia|].
  eexists. split; [reflexivity|]. split; [reflexivity|]. discriminate.
Qed.

(** The rates of one poll, where the divisor is [INTERVAL]. *)
Lemma poll_rates_ok (cur prev : Z * Z) :
  poll_rates cur prev =
  Ok ((inject_Z (safe_diff (fst cur) (fst prev)) / 1)%Q,
      (inject_Z (safe_diff (snd cur) (snd prev)) / 1)%Q).
Proof. reflexivity. Qed.

End CounterDelta.

(** ** bandwidth.py: the width axis of [render_chart_precise] *)

Module WidthAxis.

Import Bandwidth.

(** *** Loops and slices *)

Lemma py_for_fmap {A B} (f : A -> py_result B) (g : A -> B) (l : list A) :
  Forall (fun a => f a = Ok (g a)) l -> py_for f l = Ok (g <$> l).
Proof.
  induction 1 as [|a l Ha _ IH]; [reflexivity|].
  cbn [py_for]. rewrite Ha. cbn. rewrite IH. reflexivity.
Qed.

Lemma slice_bound_inside (n i : Z) :
  0 <= i <= n -> slice_bound n i = Z.to_nat i.
Proof.
  intros H. unfold slice_bound. destruct (Z.ltb_spec i 0); [lia|].
  f_equal. lia.
Qed.

Lemma py_slice_inside {A} (l : list A) (a b : Z) :
  0 <= a -> a <= b -> b <= len l ->
  py_slice l a b = take (Z.to_nat (b - a)) (drop (Z.to_nat a) l).
Proof.
  intros Ha Hab Hb. unfold py_slice.
  rewrite !slice_bound_inside by lia. f_equal. lia.
Qed.

Lemma len_slice_inside {A} (l : list A) (a b : Z) :
  0 <= a -> a <= b -> b <= len l ->
  len (take (Z.to_nat (b - a)) (drop (Z.to_nat a) l)) = b - a.
Proof.
  intros Ha Hab Hb. unfold len in *.
  rewrite length_take, length_drop. lia.
Qed.

(** [sum] folds from the left; the arithmetic mean is stated with the
    right fold.  They agree. *)
Lemma foldl_Qplus (l : list Q) (a : Q) :
  (foldl Qplus a l == a + foldr Qplus 0 l)%Q.
Proof.
  revert a. induction l as [|x l IH]; intros a; cbn.
  - ring.
  - rewrite IH. ring.
Qed.

Lemma py_sum_foldr (l : list Q) : (py_sum l == foldr Qplus 0 l)%Q.
Proof. unfold py_sum. rewrite foldl_Qplus. ring. Qed.

(** *** Bucket bounds *)

Lemma bucket_lo_nonneg (n width i : Z) :
  1 <= width -> width < n -> 0 <= i < width ->
  0 <= Spec.bucket_lo n width i.
Proof. intros Hw Hn Hi. unfold Spec.bucket_lo. apply Z.div_pos; nia. Qed.

Lemma bucket_hi_le (n width i : Z) :
  1 <= width -> width < n -> 0 <= i < width ->
  Spec.bucket_hi n width i <= n.
Proof.
  intros Hw Hn Hi. unfold Spec.bucket_hi.
  apply Z.div_le_upper_bound; [lia|]. nia.
Qed.

Lemma bucket_nonempty (n width i : Z) :
  1 <= width -> width < n -> 0 <= i < width ->
  Spec.bucket_lo n width i < Spec.bucket_hi n width i.
Proof.
  intros Hw Hn Hi. unfold Spec.bucket_lo, Spec.bucket_hi.
  assert (H : i * n / width + 1 <= (i + 1) * n / width).
  { rewrite <- (Z.div_add (i * n) 1 width) by lia.
    apply Z.div_le_mono; lia. }
  lia.
Qed.

(** The float product [i * step] has the integer quotient as its floor. *)
Lemma int_of_step (n width k : Z) :
  1 <= width -> 0 <= n -> 0 <= k ->
  py_int (inject_Z k * (inject_Z n / inject_Z width))%Q = k * n / width.
Proof.
  intros Hwidth Hn Hk.
  assert (Hw : ~ (inject_Z width == 0)%Q) by (apply inject_Z_nonzero; lia).
  assert (E : (inject_Z k * (inject_Z n / inject_Z width)
               == inject_Z (k * n) / inject_Z width)%Q).
  { rewrite inject_Z_mult. field. exact Hw. }
  rewrite (py_int_comp _ _ E), py_int_nonneg, <- Zdiv_Qdiv; [reflexivity|].
  apply Qle_shift_div_l.
  - change 0%Q with (inject_Z 0). rewrite <- Zlt_Qlt. lia.
  - rewrite Qmult_0_l. change 0%Q with (inject_Z 0). rewrite <- Zle_Qle. nia.
Qed.

Lemma bucket_mean_ok (data : list Q) (width i : Z) :
  1 <= width -> width < len data -> 0 <= i < width ->
  bucket_mean data (inject_Z (len data) / inject_Z width)%Q i =
  Ok (py_sum (Spec.bucket data width i)
      / inject_Z (len (Spec.bucket data width i)))%Q.
Proof.
  intros Hw Hn Hi. unfold bucket_mean.
  rewrite !int_of_step by (try apply len_nonneg; lia).
  pose proof (bucket_lo_nonneg (len data) width i Hw Hn Hi) as Hlo.
  pose proof (bucket_hi_le (len data) width i Hw Hn Hi) as Hhi.
  pose proof (bucket_nonempty (len data) width i Hw Hn Hi) as Hlt.
  fold (Spec.bucket_lo (len data) width i).
  fold (Spec.bucket_hi (len data) width i).
  rewrite py_slice_inside by lia.
  fold (Spec.bucket data width i).
  apply py_div_ok, inject_Z_nonzero.
  unfold Spec.bucket. rewrite len_slice_inside by lia. lia.
Qed.

Lemma compress_ok (data : list Q) (width : Z) :
  1 <= width -> width < len data ->
  compress data (len data) width =
  Ok ((fun i => py_sum (Spec.bucket data width i)
                / inject_Z (len (Spec.bucket data width i)))%Q
      <$> py_range width).
Proof.
  intros Hw Hn. unfold compress.
  destruct (Z.eqb_spec width 0); [lia|].
  apply py_for_fmap, Forall_seqZ. intros i Hi.
  apply bucket_mean_ok; lia.
Qed.

(** With two or more samples nothing is duplicated. *)
Lemma normalize_width_long (series : list Q) (width : Z) :
  2 <= len series ->
  normalize_width series width =
  if len series >? width then compress series (len series) width
  else if len series <? width then pad_right series (len series) width
  else Ok series.
Proof.
  intros H. destruct series as [|a [|b l]]; [unfold len in H; cbn in H; lia ..|].
  reflexivity.
Qed.

(** *** Padding and pass-through *)

Lemma py_getitem_last {A} (l : list A) (v : A) :
  last l = Some v -> py_getitem l (-1) = Ok v.
Proof.
  intros Hlast. unfold py_getitem, py_index.
  assert (Hlen : 1 <= len l).
  { destruct l; [discriminate|]. unfold len. cbn. lia. }
  destruct (Z.leb_spec 0 (-1)); [lia|]. cbn [andb].
  destruct (Z.leb_spec (- len l) (-1)); [|lia].
  destruct (Z.ltb_spec (-1) 0); [|lia]. cbn.
  rewrite last_lookup in Hlast.
  replace (Z.to_nat (len l + -1)) with (Nat.pred (length l))
    by (unfold len in *; lia).
  now rewrite Hlast.
Qed.

Lemma pad_right_ok (data : list Q) (width : Z) (v : Q) :
  last data = Some v ->
  pad_right data (len data) width = Ok (Spec.pad_to width data v).
Proof.
  intros Hlast. unfold pad_right. now rewrite (py_getitem_last data v Hlast).
Qed.

Lemma len_pad_to (width : Z) (data : list Q) (v : Q) :
  len data <= width -> len (Spec.pad_to width data v) = width.
Proof.
  intros H. unfold Spec.pad_to. rewrite len_app.
  unfold len in *. rewrite length_replicate. lia.
Qed.

(** C4: a series of length [1 <= n < width] has a lone value duplicated
    and is then padded on the right with its last value up to [width]. *)
Theorem pad_short_series (series : list Q) (width : Z) :
  1 <= len series -> len series < width ->
  exists v,
    last series = Some v /\
    normalize_width series width
      = Ok (Spec.pad_to width (Spec.dup_lone series) v) /\
    len (Spec.pad_to width (Spec.dup_lone series) v) = width.
Proof.
  intros Hn Hw.
  destruct series as [|a [|b l]].
  - unfold len in Hn. cbn in Hn. lia.
  - (* a lone value *)
    exists a. assert (Hw2 : 2 <= width) by (unfold len in Hw; cbn in Hw; lia).
    change (Spec.dup_lone [a]) with [a; a].
    split; [reflexivity|]. split.
    + unfold normalize_width.
      destruct (Z.gtb_spec 2 width); [lia|].
      destruct (Z.ltb_spec 2 width).
      * apply (pad_right_ok [a; a] width a). reflexivity.
      * assert (width = 2) by lia. subst width. reflexivity.
    + apply len_pad_to. unfold len. cbn [length]. lia.
  - destruct (last (a :: b :: l)) as [v|] eqn:Hlast.
    2:{ apply last_None in Hlast. discriminate. }
    exists v. split; [reflexivity|].
    assert (Hd : Spec.dup_lone (a :: b :: l) = a :: b :: l).
    { unfold Spec.dup_lone, len. cbn [length].
      destruct (Z.eqb_spec (Z.of_nat (S (S (length l)))) 1); [lia|reflexivity]. }
    rewrite Hd. split.
    + rewrite normalize_width_long by (unfold len; cbn [length]; lia).
      destruct (Z.gtb_spec (len (a :: b :: l)) width); [lia|].
      destruct (Z.ltb_spec (len (a :: b :: l)) width); [|lia].
      now apply pad_right_ok.
    + apply len_pad_to. lia.
Qed.

(** The series [3, 7] at width 5. *)
Lemma pad_short_series_witness :
  (exists v,
    last [3; 7]%Q = Some v /\
    normalize_width [3; 7]%Q 5
      = Ok (Spec.pad_to 5 (Spec.dup_lone [3; 7]%Q) v) /\
    len (Spec.pad_to 5 (Spec.dup_lone [3; 7]%Q) v) = 5) /\
  normalize_width [3; 7]%Q 5 = Ok [3; 7; 7; 7; 7]%Q.
Proof.
  split.
  - apply (pad_short_series [3; 7]%Q 5); unfold len; cbn; lia.
  - reflexivity.
Defined.

(** C9: a series whose length already equals [width] (two or more
    samples) comes back unchanged. *)
Theorem width_matched_unchanged (series : list Q) (width : Z) :
  2 <= len series -> len series = width ->
  normalize_width series width = Ok series.
Proof.
  intros Hn Hw. rewrite normalize_width_long by exact Hn.
  destruct (Z.gtb_spec (len series) width); [lia|].
  destruct (Z.ltb_spec (len series) width); [lia|]. reflexivity.
Qed.

Lemma width_matched_unchanged_witness :
  normalize_width [4; 1; 6]%Q 3 = Ok [4; 1; 6]%Q.
Proof.
  apply (width_matched_unchanged [4; 1; 6]%Q 3); unfold len; cbn; lia.
Defined.

(** *** The shape of every width-normalized series *)

Lemma normalize_width_dup (series : list Q) (width : Z) :
  series <> [] ->
  normalize_width series width =
  let data := Spec.dup_lone series in
  if len data >? width then compress data (len data) width
  else if len data <? width then pad_right data (len data) width
  else Ok data.
Proof.
  intros Hne. destruct series as [|a [|b l]]; [contradiction|reflexivity|].
  assert (Hd : Spec.dup_lone (a :: b :: l) = a :: b :: l).
  { unfold Spec.dup_lone, len. cbn [length].
    destruct (Z.eqb_spec (Z.of_nat (S (S (length l)))) 1); [lia|reflexivity]. }
  cbv zeta. rewrite Hd. apply normalize_width_long.
  unfold len. cbn [length]. lia.
Qed.

Lemma dup_lone_shape (series : list Q) :
  series <> [] ->
  2 <= len (Spec.dup_lone series) /\
  forall c, Forall (fun v => (v == c)%Q) series ->
            Forall (fun v => (v == c)%Q) (Spec.dup_lone series).
Proof.
  intros Hne. unfold Spec.dup_lone.
  destruct (Z.eqb_spec (len series) 1) as [E|E].
  - split; [rewrite len_app; lia|].
    intros c Hc. now apply Forall_app.
  - split; [|tauto]. destruct series; [contradiction|].
    unfold len in *. cbn [length] in *. lia.
Qed.

Lemma py_sum_const (l : list Q) (c : Q) :
  Forall (fun v => (v == c)%Q) l -> (py_sum l == inject_Z (len l) * c)%Q.
Proof.
  intros H. rewrite py_sum_foldr.
  induction H as [|v l Hv _ IH].
  - change (0 == 0 * c)%Q. ring.
  - cbn [foldr]. cbv beta in Hv.
    replace (len (v :: l)) with (len l + 1) by (unfold len; cbn [length]; lia).
    rewrite IH, Hv, inject_Z_plus. ring.
Qed.

Lemma normalize_width_shape (series : list Q) (width : Z) :
  series <> [] -> 1 <= width ->
  exists data,
    normalize_width series width = Ok data /\
    len data = width /\
    forall c, Forall (fun v => (v == c)%Q) series -> Forall (fun v => (v == c)%Q) data.
Proof.
  intros Hne Hw. rewrite normalize_width_dup by exact Hne. cbv zeta.
  destruct (dup_lone_shape series Hne) as [Hlen Hconst].
  set (data := Spec.dup_lone series) in *.
  destruct (Z.gtb_spec (len data) width) as [Hgt|Hle].
  - (* compress *)
    eexists. split; [apply compress_ok; lia|]. split.
    + unfold len, py_range. rewrite length_fmap, length_seqZ. lia.
    + intros c Hc. apply Forall_fmap, Forall_seqZ. intros i Hi. cbn.
      pose proof (bucket_lo_nonneg (len data) width i) as Hlo.
      pose proof (bucket_hi_le (len data) width i) as Hhi.
      pose proof (bucket_nonempty (len data) width i) as Hlt.
      assert (Hb : len (Spec.bucket data width i) <> 0).
      { unfold Spec.bucket. rewrite len_slice_inside; lia. }
      rewrite (py_sum_const _ c).
      * field. now apply inject_Z_nonzero.
      * unfold Spec.bucket. apply Forall_take, Forall_drop, Hconst, Hc.
  - destruct (Z.ltb_spec (len data) width) as [Hlt|Hge].
    + (* pad *)
      destruct (last data) as [v|] eqn:Hlast.
      2:{ apply last_None in Hlast. rewrite Hlast in Hlen.
          unfold len in Hlen. cbn in Hlen. lia. }
      exists (Spec.pad_to width data v).
      split; [now apply pad_right_ok|]. split; [apply len_pad_to; lia|].
      intros c Hc. apply Forall_app. split; [now apply Hconst|].
      apply Forall_replicate.
      assert (Hin : v ∈ data).
      { rewrite last_lookup in Hlast. eapply list_elem_of_lookup_2, Hlast. }
      specialize (Hconst c Hc). rewrite Forall_forall in Hconst. now apply Hconst.
    + exists data. split; [reflexivity|]. split; [lia|exact Hconst].
Qed.

End WidthAxis.

(** ** bandwidth.py: the height axis and the grid of [render_chart_precise] *)

Module HeightAxis.

Import Bandwidth.

(** *** [min] and [max] *)

Lemma foldl_min_spec (xs : list Q) (m : Q) :
  let r := foldl (fun m v => if Qlt_bool v m then v else m) m xs in
  r ∈ m :: xs /\ (r <= m)%Q /\ Forall (fun v => (r <= v)%Q) xs.
Proof.
  revert m. induction xs as [|x xs IH]; intros m; cbn.
  - split; [left|split; [apply Qle_refl|constructor]].
  - destruct (Qlt_bool x m) eqn:E.
    + apply Qlt_bool_iff in E. destruct (IH x) as (Hin & Hle & Hall).
      split; [now right|]. split.
      * eapply Qle_trans; [exact Hle|]. now apply Qlt_le_weak.
      * constructor; assumption.
    + apply Qlt_bool_false in E. destruct (IH m) as (Hin & Hle & Hall).
      split.
      * apply elem_of_cons in Hin as [->|Hin]; [left|right; now right].
      * split; [exact Hle|]. constructor; [|exact Hall].
        eapply Qle_trans; eassumption.
Qed.

Lemma foldl_max_spec (xs : list Q) (m : Q) :
  let r := foldl (fun m v => if Qlt_bool m v then v else m) m xs in
  r ∈ m :: xs /\ (m <= r)%Q /\ Forall (fun v => (v <= r)%Q) xs.
Proof.
  revert m. induction xs as [|x xs IH]; intros m; cbn.
  - split; [left|split; [apply Qle_refl|constructor]].
  - destruct (Qlt_bool m x) eqn:E.
    + apply Qlt_bool_iff in E. destruct (IH x) as (Hin & Hle & Hall).
      split; [now right|]. split.
      * eapply Qle_trans; [|exact Hle]. now apply Qlt_le_weak.
      * constructor; assumption.
    + apply Qlt_bool_false in E. destruct (IH m) as (Hin & Hle & Hall).
      split.
      * apply elem_of_cons in Hin as [->|Hin]; [left|right; now right].
      * split; [exact Hle|]. constructor; [|exact Hall].
        eapply Qle_trans; eassumption.
Qed.

Lemma py_min_spec (l : list Q) :
  l <> [] ->
  exists lo, py_min l = Ok lo /\ lo ∈ l /\ Forall (fun v => (lo <= v)%Q) l.
Proof.
  intros Hl. destruct l as [|x xs]; [contradiction|].
  destruct (foldl_min_spec xs x) as (Hin & Hle & Hall).
  eexists. split; [reflexivity|]. split; [exact Hin|].
  constructor; assumption.
Qed.

Lemma py_max_spec (l : list Q) :
  l <> [] ->
  exists hi, py_max l = Ok hi /\ hi ∈ l /\ Forall (fun v => (v <= hi)%Q) l.
Proof.
  intros Hl. destruct l as [|x xs]; [contradiction|].
  destruct (foldl_max_spec xs x) as (Hin & Hle & Hall).
  eexists. split; [reflexivity|]. split; [exact Hin|].
  constructor; assumption.
Qed.

(** *** The row of one value *)

Lemma scaled_bounds (lo span v : Q) (height : Z) :
  (0 < span)%Q -> (lo <= v)%Q -> (v - lo <= span)%Q -> 1 <= height ->
  (0 <= (v - lo) / span * inject_Z (height - 1)
     <= inject_Z (height - 1))%Q.
Proof.
  intros Hs Hlo Hhi Hh.
  assert (Hh' : (0 <= inject_Z (height - 1))%Q).
  { change 0%Q with (inject_Z 0). rewrite <- Zle_Qle. lia. }
  assert (Hq0 : (0 <= (v - lo) / span)%Q).
  { apply Qle_shift_div_l; [exact Hs|]. lra. }
  assert (Hq1 : ((v - lo) / span <= 1)%Q).
  { apply Qle_shift_div_r; [exact Hs|]. lra. }
  split.
  - apply Qmult_le_0_compat; assumption.
  - rewrite <- (Qmult_1_l (inject_Z (height - 1))) at 2.
    apply Qmult_le_compat_r; assumption.
Qed.

Lemma floored_row_range (lo span v : Q) (height : Z) :
  (0 < span)%Q -> (lo <= v)%Q -> (v - lo <= span)%Q -> 1 <= height ->
  0 <= Spec.floored_row lo span height v < height.
Proof.
  intros Hs Hlo Hhi Hh.
  destruct (scaled_bounds lo span v height Hs Hlo Hhi Hh) as [H0 H1].
  unfold Spec.floored_row.
  apply Qfloor_resp_le in H0, H1. rewrite Qfloor_Z in H1.
  change (Qfloor 0) with 0 in H0. lia.
Qed.

Lemma column_row_ok (lo span v : Q) (height : Z) :
  (0 < span)%Q -> (lo <= v)%Q -> (v - lo <= span)%Q -> 1 <= height ->
  column_row lo span height v = Ok (Spec.floored_row lo span height v).
Proof.
  intros Hs Hlo Hhi Hh. unfold column_row.
  rewrite py_div_ok by (intros E; rewrite E in Hs; now apply Qlt_irrefl in Hs).
  cbn. rewrite py_int_nonneg; [reflexivity|].
  now apply scaled_bounds.
Qed.

(** *** Indexing *)

Lemma py_index_inside {A} (l : list A) (i : Z) :
  0 <= i < len l -> py_index l i = Ok (Z.to_nat i).
Proof.
  intros H. unfold py_index.
  destruct (Z.leb_spec 0 i); [|lia]. destruct (Z.ltb_spec i (len l)); [|lia].
  reflexivity.
Qed.

Lemma py_getitem_inside {A} (l : list A) (i : Z) (a : A) :
  0 <= i -> l !! Z.to_nat i = Some a -> py_getitem l i = Ok a.
Proof.
  intros Hi Ha. unfold py_getitem. rewrite py_index_inside.
  - cbn. now rewrite Ha.
  - apply lookup_lt_Some in Ha. unfold len. lia.
Qed.

Lemma py_setitem_inside {A} (l : list A) (i : Z) (v : A) :
  0 <= i < len l -> py_setitem l i v = Ok (<[Z.to_nat i := v]> l).
Proof.
  intros H. unfold py_setitem. now rewrite py_index_inside.
Qed.

(** *** One assignment [rows[y][x] = block] *)

Lemma cell_painted (rows : grid) (row : list string) (i j r c : nat) :
  rows !! i = Some row -> (j < length row)%nat ->
  Spec.cell (<[i := <[j := block]> row]> rows) r c =
  if decide (r = i /\ c = j) then Some block else Spec.cell rows r c.
Proof.
  intros Hrow Hj. unfold Spec.cell.
  destruct (decide (r = i)) as [->|Hr].
  - rewrite list_lookup_insert_eq by (now apply lookup_lt_Some in Hrow).
    rewrite Hrow. cbn.
    destruct (decide (c = j)) as [->|Hc].
    + rewrite list_lookup_insert_eq by exact Hj.
      destruct (decide (i = i /\ j = j)) as [_|[]]; tauto.
    + rewrite list_lookup_insert_ne by congruence.
      destruct (decide (i = i /\ c = j)) as [[_ ?]|_]; [contradiction|reflexivity].
  - rewrite list_lookup_insert_ne by congruence.
    destruct (decide (r = i /\ c = j)) as [[? _]|_]; [contradiction|reflexivity].
Qed.

Lemma set_cell_ok (rows : grid) (width y x : Z) :
  Spec.rows_of_width width rows -> 0 <= y < len rows -> 0 <= x < width ->
  exists rows',
    set_cell rows y x = Ok rows' /\
    len rows' = len rows /\
    Spec.rows_of_width width rows' /\
    forall r c,
      Spec.cell rows' r c =
      if decide (r = Z.to_nat y /\ c = Z.to_nat x) then Some block
      else Spec.cell rows r c.
Proof.
  intros Hw Hy Hx.
  destruct (rows !! Z.to_nat y) as [row|] eqn:Hrow.
  2:{ apply lookup_ge_None in Hrow. unfold len in Hy. lia. }
  assert (Hlen : len row = width).
  { unfold Spec.rows_of_width in Hw. rewrite Forall_lookup in Hw. eauto. }
  exists (<[Z.to_nat y := <[Z.to_nat x := block]> row]> rows).
  split; [|split; [|split]].
  - unfold set_cell. rewrite (py_getitem_inside rows y row) by (lia || exact Hrow).
    cbn. rewrite py_setitem_inside by lia. cbn.
    now rewrite py_setitem_inside by lia.
  - unfold len. now rewrite length_insert.
  - apply Forall_insert; [exact Hw|]. unfold len in *. now rewrite length_insert.
  - intros r c. apply cell_painted; [exact Hrow|]. unfold len in Hlen. lia.
Qed.

(** *** The plotting loop *)

Lemma plot_cells (lo span : Q) (width height : Z) (row_of : Q -> Z)
    (data : list Q) :
  Forall (fun v => column_row lo span height v = Ok (row_of v)
                   /\ 0 <= row_of v < height) data ->
  forall (rows : grid) (x0 : nat),
    Spec.rows_of_width width rows -> len rows = height ->
    Z.of_nat x0 + len data <= width ->
    exists rows',
      plot lo span height rows (Z.of_nat x0) data = Ok rows' /\
      len rows' = height /\
      Spec.rows_of_width width rows' /\
      forall r c,
        Spec.cell rows' r c =
        match Spec.column_value data x0 c with
        | Some v =>
            if decide (Z.of_nat r = row_of v) then Some block
            else Spec.cell rows r c
        | None => Spec.cell rows r c
        end.
Proof.
  induction 1 as [|v rest [Hv Hrange] _ IH]; intros rows x0 Hw Hh Hx.
  - exists rows. repeat split; try assumption.
    intros r c. unfold Spec.column_value.
    destruct (decide (x0 <= c)%nat); [now rewrite lookup_nil|reflexivity].
  - assert (Hlen : len (v :: rest) = 1 + len rest) by (unfold len; cbn [length]; lia).
    pose proof (len_nonneg rest) as Hrest.
    destruct (set_cell_ok rows width (row_of v) (Z.of_nat x0))
      as (rows1 & Hset & Hh1 & Hw1 & Hcell1); [exact Hw|lia|lia|].
    destruct (IH rows1 (S x0)) as (rows' & Hplot & Hh' & Hw' & Hcell');
      [exact Hw1|lia|lia|].
    exists rows'. split; [|split; [exact Hh'|split; [exact Hw'|]]].
    + cbn [plot]. rewrite Hv. cbn. rewrite Hset. cbn.
      replace (Z.of_nat x0 + 1) with (Z.of_nat (S x0)) by lia. exact Hplot.
    + intros r c. rewrite Hcell', Hcell1. unfold Spec.column_value.
      rewrite Nat2Z.id.
      destruct (decide (S x0 <= c)%nat) as [Hc|Hc].
      * destruct (decide (x0 <= c)%nat); [|lia].
        replace (c - x0)%nat with (S (c - S x0)) by lia. cbn.
        destruct (rest !! (c - S x0)%nat) as [v'|]; [|].
        -- destruct (decide (Z.of_nat r = row_of v')); [reflexivity|].
           destruct (decide (r = Z.to_nat (row_of v) /\ c = x0)); [lia|reflexivity].
        -- destruct (decide (r = Z.to_nat (row_of v) /\ c = x0)); [lia|reflexivity].
      * destruct (decide (x0 <= c)%nat) as [Hc'|Hc'].
        -- assert (c = x0) by lia. subst c. rewrite Nat.sub_diag. cbn.
           destruct (decide (r = Z.to_nat (row_of v) /\ x0 = x0)) as [[Hr0 _]|Hn];
             destruct (decide (Z.of_nat r = row_of v)) as [Hr|Hr];
             try reflexivity; exfalso; lia.
        -- destruct (decide (r = Z.to_nat (row_of v) /\ c = x0)); [lia|reflexivity].
Qed.

(** *** The grid before the loop *)

Lemma blank_rows_shape (width height : Z) :
  0 <= width -> 0 <= height ->
  len (blank_rows width height) = height /\
  Spec.rows_of_width width (blank_rows width height) /\
  forall r c, (Z.of_nat r < height) -> (Z.of_nat c < width) ->
    Spec.cell (blank_rows width height) r c = Some blank.
Proof.
  intros Hw Hh. unfold blank_rows, py_range. split; [|split].
  - unfold len. rewrite length_fmap, length_seqZ. lia.
  - unfold Spec.rows_of_width. rewrite Forall_fmap. apply Forall_forall.
    intros y _. cbn. unfold len. rewrite length_fmap, length_seqZ. lia.
  - intros r c Hr Hc. unfold Spec.cell.
    rewrite list_lookup_fmap, lookup_seqZ_lt by exact Hr. cbn.
    now rewrite list_lookup_fmap, lookup_seqZ_lt by exact Hc.
Qed.

Lemma grid_ext (g1 g2 : grid) (width height : Z) :
  len g1 = height -> len g2 = height ->
  Spec.rows_of_width width g1 -> Spec.rows_of_width width g2 ->
  (forall r c, Z.of_nat r < height -> Z.of_nat c < width ->
     Spec.cell g1 r c = Spec.cell g2 r c) ->
  g1 = g2.
Proof.
  intros H1 H2 W1 W2 Hcell.
  apply (list_eq_same_length g1 g2 (Z.to_nat height));
    [unfold len in *; lia ..|].
  intros r row1 row2 Hr Hrow1 Hrow2.
  unfold Spec.rows_of_width in W1, W2. rewrite Forall_lookup in W1, W2.
  pose proof (W1 _ _ Hrow1) as L1. pose proof (W2 _ _ Hrow2) as L2.
  apply (list_eq_same_length row1 row2 (Z.to_nat width));
    [unfold len in *; lia ..|].
  intros c x y Hc Hx Hy.
  specialize (Hcell r c ltac:(lia) ltac:(lia)). unfold Spec.cell in Hcell.
  rewrite Hrow1, Hrow2 in Hcell. cbn in Hcell. congruence.
Qed.

(** *** The scale of a non-empty series *)

Lemma height_scale_spec (data : list Q) :
  data <> [] ->
  exists lo hi span,
    py_min data = Ok lo /\ py_max data = Ok hi /\
    height_scale data = Ok (lo, span) /\
    span = (if Qeq_bool (hi - lo) 0 then 1 else hi - lo)%Q /\
    (0 < span)%Q /\ lo ∈ data /\ hi ∈ data /\
    Forall (fun v => (lo <= v)%Q /\ (v - lo <= span)%Q) data.
Proof.
  intros Hne.
  destruct (py_min_spec data Hne) as (lo & Hmin & Hlo_in & Hlo).
  destruct (py_max_spec data Hne) as (hi & Hmax & Hhi_in & Hhi).
  exists lo, hi, (if Qeq_bool (hi - lo) 0 then 1 else hi - lo)%Q.
  assert (Hlohi : (lo <= hi)%Q).
  { rewrite Forall_forall in Hhi. now apply Hhi. }
  split; [exact Hmin|]. split; [exact Hmax|]. split.
  { unfold height_scale. destruct data; [contradiction|].
    rewrite Hmin, bind_Ok, Hmax, bind_Ok. reflexivity. }
  split; [reflexivity|].
  rewrite Forall_forall in Hlo, Hhi.
  destruct (Qeq_bool (hi - lo) 0) eqn:E.
  - apply Qeq_bool_eq in E.
    split; [reflexivity|]. split; [exact Hlo_in|]. split; [exact Hhi_in|].
    apply Forall_forall. intros v Hv.
    specialize (Hlo v Hv). specialize (Hhi v Hv). split; lra.
  - apply Qeq_bool_neq in E.
    split.
    { destruct (Qlt_le_dec 0 (hi - lo)) as [Hpos|Hneg]; [exact Hpos|].
      exfalso. apply E. lra. }
    split; [exact Hlo_in|]. split; [exact Hhi_in|].
    apply Forall_forall. intros v Hv.
    specialize (Hlo v Hv). specialize (Hhi v Hv). split; lra.
Qed.

(** *** The whole grid *)

Lemma render_rows_cells (series data : list Q) (width height : Z)
    (lo span : Q) :
  normalize_width series width = Ok data -> len data = width ->
  height_scale data = Ok (lo, span) -> (0 < span)%Q ->
  Forall (fun v => (lo <= v)%Q /\ (v - lo <= span)%Q) data ->
  1 <= height ->
  exists rows,
    render_rows series width height = Ok rows /\
    len rows = height /\
    Spec.rows_of_width width rows /\
    forall r x, Z.of_nat r < height -> Z.of_nat x < width ->
      exists v, data !! x = Some v /\
        Spec.cell rows r x =
        Some (if decide (Z.of_nat r = Spec.floored_row lo span height v)
              then block else blank).
Proof.
  intros Hnorm Hlen Hscale Hspan Hdata Hh.
  pose proof (len_nonneg data) as Hw.
  destruct (blank_rows_shape width height) as (Bh & Bw & Bcell); [lia|lia|].
  destruct (plot_cells lo span width height (Spec.floored_row lo span height)
              data) with (rows := blank_rows width height) (x0 := 0%nat)
    as (rows & Hplot & Hrh & Hrw & Hcell).
  - eapply Forall_impl; [exact Hdata|]. intros v [Hv1 Hv2]. split.
    + now apply column_row_ok.
    + now apply floored_row_range.
  - exact Bw.
  - exact Bh.
  - lia.
  - exists rows. split; [|split; [exact Hrh|split; [exact Hrw|]]].
    + unfold render_rows. rewrite Hnorm, bind_Ok, Hscale, bind_Ok. exact Hplot.
    + intros r x Hr Hx.
      destruct (data !! x) as [v|] eqn:Hv.
      2:{ apply lookup_ge_None in Hv. unfold len in Hlen. lia. }
      exists v. split; [reflexivity|].
      rewrite Hcell. unfold Spec.column_value.
      destruct (decide (0 <= x)%nat); [|lia]. rewrite Nat.sub_0_r, Hv.
      destruct (decide (Z.of_nat r = Spec.floored_row lo span height v));
        [reflexivity|]. now apply Bcell.
Qed.

Lemma one_row_grid_shape (width height : Z) (r0 : nat) :
  0 <= width -> 0 <= height ->
  let g := Spec.one_row_grid (Z.to_nat width) (Z.to_nat height) r0 in
  len g = height /\
  Spec.rows_of_width width g /\
  forall r c, Z.of_nat r < height -> Z.of_nat c < width ->
    Spec.cell g r c = Some (if decide (r = r0) then block else blank).
Proof.
  intros Hw Hh. unfold Spec.one_row_grid. cbv zeta. split; [|split].
  - unfold len. rewrite length_fmap, length_seq. lia.
  - unfold Spec.rows_of_width. rewrite Forall_fmap. apply Forall_forall.
    intros y _. cbn. unfold len. rewrite length_replicate. lia.
  - intros r c Hr Hc. unfold Spec.cell.
    rewrite list_lookup_fmap, lookup_seq_lt by lia. cbn.
    rewrite lookup_replicate_2 by lia.
    destruct (Nat.eqb_spec r r0); destruct (decide (r = r0));
      try reflexivity; contradiction.
Qed.

Lemma render_chart_of_rows (series : list Q) (width height : Z) (rows : grid) :
  series <> [] -> render_rows series width height = Ok rows ->
  render_chart_precise series width height = Ok (rows_to_string rows).
Proof.
  intros Hne Hrows. unfold render_chart_precise.
  destruct series; [contradiction|]. now rewrite Hrows.
Qed.

(** *** The specified properties of the height axis *)

(** [round] and [int] differ by one at most. *)
Lemma round_half_even_cases (x : Q) :
  Spec.round_half_even x = Qfloor x \/ Spec.round_half_even x = Qfloor x + 1.
Proof.
  unfold Spec.round_half_even. cbv zeta.
  destruct (Qlt_bool _ _); [now left|].
  destruct (Qlt_bool _ _); [now right|].
  destruct (Z.even _); [now left|now right].
Qed.

(** A series with two different values has two samples or more, and one
    whose length is the width goes through the width normalization as it
    is. *)
Lemma spanning_series_unchanged (data : list Q) (lo hi : Q) :
  py_min data = Ok lo -> py_max data = Ok hi -> (lo < hi)%Q ->
  2 <= len data /\ normalize_width data (len data) = Ok data.
Proof.
  intros Hmin Hmax Hlt.
  assert (H2 : 2 <= len data).
  { destruct data as [|a [|b l]].
    - discriminate Hmin.
    - cbn in Hmin, Hmax. injection Hmin as <-. injection Hmax as <-.
      now apply Qlt_irrefl in Hlt.
    - unfold len. cbn [length]. lia. }
  split; [exact H2|].
  rewrite WidthAxis.normalize_width_long by exact H2.
  destruct (Z.gtb_spec (len data) (len data)); [lia|].
  destruct (Z.ltb_spec (len data) (len data)); [lia|]. reflexivity.
Qed.

(** C3 (amended): for a width-normalized sequence (its length is [width])
    with [span = max - min > 0] and [height >= 2], the grid has [height]
    rows of [width] cells and the column of a value [v] has exactly one
    filled cell.  The scaled value is cut off by [int()], not rounded, so
    that cell is in the row [height - 1 - round((v - min) / span *
    (height - 1))] or in the row directly below it, never above; the
    minimum is drawn in the bottom row [height - 1] and the maximum in the
    top row [0]. *)
Theorem column_rows_truncated (data : list Q) (width height : Z) (lo hi : Q) :
  len data = width -> 2 <= height ->
  py_min data = Ok lo -> py_max data = Ok hi -> (lo < hi)%Q ->
  exists rows,
    render_rows data width height = Ok rows /\
    len rows = height /\
    Spec.rows_of_width width rows /\
    forall x v, data !! x = Some v ->
      exists y,
        0 <= y < height /\
        (y = Spec.rounded_row lo (hi - lo) height v \/
         y = Spec.rounded_row lo (hi - lo) height v + 1) /\
        ((v == lo)%Q -> y = height - 1) /\
        ((v == hi)%Q -> y = 0) /\
        forall r, Z.of_nat r < height ->
          Spec.cell rows r x =
          Some (if decide (Z.of_nat r = y) then block else blank).
Proof.
  intros Hlen Hh Hmin Hmax Hlt.
  destruct (spanning_series_unchanged data lo hi Hmin Hmax Hlt) as [H2 Hnorm].
  rewrite Hlen in Hnorm.
  assert (Hdata : data <> []).
  { intros ->. unfold len in H2. cbn in H2. lia. }
  destruct (height_scale_spec data Hdata)
    as (lo' & hi' & span & Hmin' & Hmax' & Hscale & Hspan & Hpos & _ & _ & Hall).
  assert (lo' = lo) by congruence. assert (hi' = hi) by congruence.
  subst lo' hi'.
  assert (Hspan' : span = (hi - lo)%Q).
  { rewrite Hspan. destruct (Qeq_bool (hi - lo) 0) eqn:E; [|reflexivity].
    apply Qeq_bool_eq in E. lra. }
  clear Hspan. subst span.
  destruct (render_rows_cells data data width height lo (hi - lo)%Q)
    as (rows & Hrows & Hrh & Hrw & Hcell); try assumption; [lia|].
  exists rows. split; [exact Hrows|]. split; [exact Hrh|].
  split; [exact Hrw|].
  intros x v Hv. exists (Spec.floored_row lo (hi - lo) height v).
  split; [|split; [|split; [|split]]].
  - rewrite Forall_lookup in Hall. destruct (Hall x v Hv) as [H1 H3].
    apply floored_row_range; (assumption || lia).
  - unfold Spec.floored_row, Spec.rounded_row.
    destruct (round_half_even_cases
                ((v - lo) / (hi - lo) * inject_Z (height - 1))%Q) as [E|E];
      rewrite E; [left|right]; lia.
  - intros Ev. unfold Spec.floored_row.
    rewrite (Qfloor_comp _ 0%Q); [change (Qfloor 0) with 0; lia|].
    rewrite Ev. field. lra.
  - intros Ev. unfold Spec.floored_row.
    rewrite (Qfloor_comp _ (inject_Z (height - 1))); [rewrite Qfloor_Z; lia|].
    rewrite Ev. field. lra.
  - intros r Hr.
    destruct (Hcell r x Hr) as (v' & Hv' & Hc).
    { apply lookup_lt_Some in Hv. unfold len in Hlen. lia. }
    assert (v' = v) by congruence. now subst v'.
Qed.

(** A series over [0 .. 10] at height 3: 0 is drawn in the bottom row, 10
    in the top row and 5 in the middle row. *)
Lemma column_rows_truncated_witness :
  (exists rows,
    render_rows [0; 5; 10]%Q 3 3 = Ok rows /\
    len rows = 3 /\
    Spec.rows_of_width 3 rows /\
    forall x v, [0; 5; 10]%Q !! x = Some v ->
      exists y,
        0 <= y < 3 /\
        (y = Spec.rounded_row 0 (10 - 0) 3 v \/
         y = Spec.rounded_row 0 (10 - 0) 3 v + 1) /\
        ((v == 0)%Q -> y = 3 - 1) /\
        ((v == 10)%Q -> y = 0) /\
        forall r, Z.of_nat r < 3 ->
          Spec.cell rows r x =
          Some (if decide (Z.of_nat r = y) then block else blank)) /\
  render_rows [0; 5; 10]%Q 3 3
  = Ok [[blank; blank; block]; [blank; block; blank]; [block; blank; blank]] /\
  fmap (M := py_result) (Spec.painted_rows 3) (render_rows [0; 5; 10]%Q 3 3)
  = Ok [[2]; [1]; [0]].
Proof.
  split; [|split; [reflexivity | vm_compute; reflexivity]].
  apply (column_rows_truncated [0; 5; 10]%Q 3 3 0%Q 10%Q);
    try reflexivity; lia.
Defined.

(** C3 as it is worded fails: in [0, 9, 10] at height 3 the value 9 scales
    to 1.8, which rounds to 2 and so to row 0, but the code cuts it to 1 and
    fills row 1; row 0 of that column stays blank. *)
Lemma rounded_row_counterexample :
  Spec.rounded_row 0 (10 - 0) 3 9 = 0 /\
  column_row 0 (10 - 0) 3 9 = Ok 1 /\
  exists rows,
    render_rows [0; 9; 10]%Q 3 3 = Ok rows /\
    Spec.cell rows (Z.to_nat (Spec.rounded_row 0 (10 - 0) 3 9)) 1 = Some blank /\
    Spec.cell rows 1 1 = Some block.
Proof.
  split; [reflexivity|]. split; [reflexivity|].
  eexists. split; [reflexivity|]. split; reflexivity.
Qed.

(** A flat non-empty series that the width normalization does not compress
    (with a lone value doubled it is no longer than [width], so its values
    are only copied): the span [max - min == 0] is replaced by 1, and the
    series is drawn as a single full row, the bottom row [height - 1] of
    the grid.  [Rounding.flat_bottom_row_binary64] states the same of the
    rounded arithmetic. *)
Lemma flat_uncompressed_bottom_row (series : list Q) (c : Q) (width height : Z) :
  series <> [] -> Forall (fun v => (v == c)%Q) series ->
  len (Spec.dup_lone series) <= width -> 1 <= height ->
  let bottom :=
    Spec.one_row_grid (Z.to_nat width) (Z.to_nat height) (Z.to_nat (height - 1)) in
  (exists v lo,
     last series = Some v /\
     normalize_width series width
       = Ok (Spec.pad_to width (Spec.dup_lone series) v) /\
     height_scale (Spec.pad_to width (Spec.dup_lone series) v) = Ok (lo, 1%Q)) /\
  render_rows series width height = Ok bottom /\
  render_chart_precise series width height = Ok (rows_to_string bottom).
Proof.
  intros Hne Hflat Hn Hh bottom.
  destruct (WidthAxis.dup_lone_shape series Hne) as [H2 Hdup].
  specialize (Hdup c Hflat).
  set (dup := Spec.dup_lone series) in *.
  assert (Hw : 1 <= width) by lia.
  (* the width axis: values are copied *)
  destruct (last series) as [v|] eqn:Hlast.
  2:{ apply last_None in Hlast. contradiction. }
  assert (Hlast' : last dup = Some v).
  { unfold dup, Spec.dup_lone. destruct (len series =? 1); [|exact Hlast].
    rewrite last_app, Hlast. reflexivity. }
  set (data := Spec.pad_to width dup v).
  assert (Hnorm : normalize_width series width = Ok data).
  { rewrite WidthAxis.normalize_width_dup by exact Hne. cbv zeta. fold dup.
    destruct (Z.gtb_spec (len dup) width); [lia|].
    destruct (Z.ltb_spec (len dup) width).
    - now apply WidthAxis.pad_right_ok.
    - unfold data, Spec.pad_to.
      replace (width - len dup) with 0 by lia. cbn. now rewrite app_nil_r. }
  assert (Hlen : len data = width) by (apply WidthAxis.len_pad_to; lia).
  assert (Hconst : Forall (fun x => (x == c)%Q) data).
  { unfold data, Spec.pad_to. apply Forall_app. split; [exact Hdup|].
    apply Forall_replicate.
    rewrite Forall_forall in Hdup. apply Hdup.
    rewrite last_lookup in Hlast'. eapply list_elem_of_lookup_2, Hlast'. }
  rewrite Forall_forall in Hconst.
  (* the height axis *)
  assert (Hdata : data <> []).
  { intros E. rewrite E in Hlen. unfold len in Hlen. cbn in Hlen. lia. }
  destruct (height_scale_spec data Hdata)
    as (lo & hi & span & _ & _ & Hscale & Hspan & Hpos & Hlo & Hhi & Hall).
  pose proof (Hconst lo Hlo) as Elo. pose proof (Hconst hi Hhi) as Ehi.
  cbv beta in Elo, Ehi.
  assert (Hone : span = 1%Q).
  { rewrite Hspan. destruct (Qeq_bool (hi - lo) 0) eqn:E; [reflexivity|].
    apply Qeq_bool_neq in E. exfalso. apply E. lra. }
  clear Hspan. subst span.
  destruct (render_rows_cells series data width height lo 1%Q)
    as (rows & Hrows & Hrh & Hrw & Hcell); try assumption.
  destruct (one_row_grid_shape width height (Z.to_nat (height - 1)))
    as (Gh & Gw & Gcell); [lia|lia|]. fold bottom in Gh, Gw, Gcell.
  assert (Heq : rows = bottom).
  { apply (grid_ext rows bottom width height); try assumption.
    intros r x Hr Hx. rewrite Gcell by assumption.
    destruct (Hcell r x Hr Hx) as (u & Hu & ->).
    assert (Hrow : Spec.floored_row lo 1 height u = height - 1).
    { unfold Spec.floored_row.
      assert (Eu : (u == c)%Q).
      { apply (Hconst u). eapply list_elem_of_lookup_2, Hu. }
      rewrite (Qfloor_comp _ 0%Q); [change (Qfloor 0) with 0; lia|].
      rewrite Eu, Elo. field. }
    rewrite Hrow.
    destruct (decide (Z.of_nat r = height - 1));
      destruct (decide (r = Z.to_nat (height - 1))); try reflexivity; lia. }
  subst rows. split; [|split].
  - exists v, lo. split; [reflexivity|]. split; assumption.
  - exact Hrows.
  - now apply render_chart_of_rows.
Qed.

Lemma flat_uncompressed_bottom_row_witness :
  (exists v lo,
     last [5; 5; 5]%Q = Some v /\
     normalize_width [5; 5; 5]%Q 3
       = Ok (Spec.pad_to 3 (Spec.dup_lone [5; 5; 5]%Q) v) /\
     height_scale (Spec.pad_to 3 (Spec.dup_lone [5; 5; 5]%Q) v) = Ok (lo, 1%Q)) /\
  render_rows [5; 5; 5]%Q 3 3 = Ok (Spec.one_row_grid 3 3 2) /\
  render_chart_precise [5; 5; 5]%Q 3 3
  = Ok (rows_to_string (Spec.one_row_grid 3 3 2)).
Proof.
  apply (flat_uncompressed_bottom_row [5; 5; 5]%Q 5%Q 3 3).
  - discriminate.
  - repeat constructor.
  - vm_compute. discriminate.
  - lia.
Defined.

(** C5 as it is worded fails: at height 3 the flat series [5, 5, 5] fills
    the bottom row 2; the centre row 1 stays blank. *)
Lemma flat_series_not_centred :
  render_rows [5; 5; 5]%Q 3 3 = Ok (Spec.one_row_grid 3 3 2) /\
  render_rows [5; 5; 5]%Q 3 3 <> Ok (Spec.one_row_grid 3 3 1) /\
  render_chart_precise [5; 5; 5]%Q 3 3
  <> Ok (rows_to_string (Spec.one_row_grid 3 3 1)).
Proof.
  split; [reflexivity|]. split; intros H; vm_compute in H; discriminate H.
Qed.

(** C6 (amended): for an empty series the renderer returns the empty
    string, whatever the width and the height; no cell is produced. *)
Theorem empty_series_empty_string (width height : Z) :
  render_chart_precise [] width height = Ok EmptyString.
Proof. reflexivity. Qed.

(** C6 as it is worded fails: at 2 rows by 3 columns the result for an empty
    series is not the grid of blank cells. *)
Lemma empty_series_no_blank_grid :
  render_chart_precise [] 3 2 = Ok EmptyString /\
  render_chart_precise [] 3 2 <> Ok (rows_to_string (Spec.blank_grid 3 2)).
Proof.
  split; [reflexivity|]. intros H. vm_compute in H. discriminate H.
Qed.

End HeightAxis.

(** ** bandwidth.py: [render_chart_precise] where rounding decides *)

Module Rounding.

(** C1 (the code departs from it): the 15 samples [0, 1, ..., 14] at width
    11.  The step [15 / 11] is rounded down to the nearest double, the
    product [11 * step] falls just below 15, and [int()] cuts it to 14: the
    last chunk is [data[13:14]], the last column is 13, and the newest
    sample, 14, is in no column.  The bucket of the claim is [data[13:15]],
    with the mean 13.5. *)
Theorem compress_drops_newest_sample :
  let n := 15 in
  let width := 11 in
  (* the code *)
  Binary64.py_int
    (Floats.PrimFloat.mul (Binary64.of_int width) (Binary64.step_of n width))
    = Ok 14 /\
  Binary64.chunk_bounds (Binary64.step_of n width) (width - 1) = Ok (13, 14) /\
  fmap (M := py_result) (fmap Binary64.value)
       (Binary64.normalize_width (Spec.ramp n) width)
  = Ok (Some <$> [0; 1; 5 # 2; 4; 5; 13 # 2; 8; 9; 21 # 2; 12; 13]%Q) /\
  (* the claim *)
  Spec.bucket_lo n width (width - 1) = 13 /\
  Spec.bucket_hi n width (width - 1) = n /\
  Spec.bucket (inject_Z <$> seqZ 0 n) width (width - 1) = [13; 14]%Q /\
  Qred (Spec.arith_mean (Spec.bucket (inject_Z <$> seqZ 0 n) width (width - 1)))
  = (27 # 2)%Q.
Proof.
  cbv zeta. repeat split; vm_compute; reflexivity.
Qed.

(** The same departure at 61 samples and width 7: the last chunk ends at
    60, not at 61. *)
Lemma last_chunk_one_short :
  Binary64.chunk_bounds (Binary64.step_of 61 7) 6 = Ok (52, 60) /\
  Spec.bucket_lo 61 7 6 = 52 /\ Spec.bucket_hi 61 7 6 = 61.
Proof. repeat split; vm_compute; reflexivity. Qed.

(** The example of the claim holds as it is: [0, 1, ..., 9] at width 5. *)
Lemma ten_samples_five_columns :
  fmap (M := py_result) (fmap Binary64.value)
       (Binary64.normalize_width (Spec.ramp 10) 5)
  = Ok (Some <$> [1 # 2; 5 # 2; 9 # 2; 13 # 2; 17 # 2]%Q).
Proof. vm_compute. reflexivity. Qed.

(** When [width] divides [n] the step is a whole number and the bounds
    are exact: 12 samples at width 4, and every width up to 16 with a step
    up to 16. *)
Lemma even_chunks :
  py_for (Binary64.chunk_bounds (Binary64.step_of 12 4)) (py_range 4)
  = Ok [(0, 3); (3, 6); (6, 9); (9, 12)] /\
  Spec.even_chunks_exact 16 16 = true.
Proof. split; vm_compute; reflexivity. Qed.

(** A product one unit in the last place below a whole number: in
    [0, 15, 22] at height 23, [15 / 22 * 22] is cut to 14 and the value 15
    is drawn in row 8; with the exact product it would be row 7, which is
    also the row of the rounded value. *)
Lemma row_below_exact_product :
  Binary64.height_scale (Spec.doubles [0; 15; 22])
    = Ok (Binary64.of_int 0, Binary64.of_int 22) /\
  Binary64.column_row (Binary64.of_int 0) (Binary64.of_int 22) 23
                      (Binary64.of_int 15) = Ok 8 /\
  fmap (M := py_result) (Spec.painted_rows 3)
       (Binary64.render_rows (Spec.doubles [0; 15; 22]) 3 23)
    = Ok [[22]; [8]; [0]] /\
  Bandwidth.column_row 0 22 23 15 = Ok 7 /\
  Spec.rounded_row 0 22 23 15 = 7.
Proof. repeat split; vm_compute; reflexivity. Qed.

(** The series behind the corrections of the height axis, in binary64:
    [0, 9, 10] and [5, 5, 5] at height 3, and [0, 5, 10]. *)
Lemma height_axis_samples :
  fmap (M := py_result) (Spec.painted_rows 3)
       (Binary64.render_rows (Spec.doubles [0; 9; 10]) 3 3)
    = Ok [[2]; [1]; [0]] /\
  fmap (M := py_result) (Spec.painted_rows 3)
       (Binary64.render_rows (Spec.doubles [5; 5; 5]) 3 3)
    = Ok [[2]; [2]; [2]] /\
  fmap (M := py_result) (Spec.painted_rows 3)
       (Binary64.render_rows (Spec.doubles [0; 5; 10]) 3 3)
    = Ok [[2]; [1]; [0]].
Proof. repeat split; vm_compute; reflexivity. Qed.

(** A flat series that is compressed into buckets of unequal size: five
    times [0.1] at width 2.  The means of [data[0:2]] and [data[2:5]]
    differ in the last place, the span is not 0, and two rows are drawn. *)
Lemma flat_compressed_two_rows :
  let series := replicate 5 Spec.tenth in
  py_for (Binary64.chunk_bounds (Binary64.step_of 5 2)) (py_range 2)
    = Ok [(0, 2); (2, 5)] /\
  fmap (M := py_result) (fmap Binary64.value)
       (Binary64.normalize_width series 2)
    = Ok [Some (3602879701896397 # 36028797018963968)%Q;
          Some (7205759403792795 # 72057594037927936)%Q] /\
  fmap (M := py_result) (Spec.painted_rows 2)
       (Binary64.render_rows series 2 3)
    = Ok [[2]; [0]].
Proof. cbv zeta. repeat split; vm_compute; reflexivity. Qed.

(** *** A flat series that is only copied, in binary64 *)

Import Floats.PrimFloat Floats.SpecFloat Floats.FloatOps Floats.FloatAxioms.

Lemma sub_diag (c : float) :
  Binary64.finite c = true -> Prim2SF (sub c c) = S754_zero false.
Proof.
  intros Hc. rewrite sub_spec. unfold Binary64.finite in Hc.
  destruct (Prim2SF c) as [s|s| |s m e]; try discriminate.
  - now destruct s.
  - unfold SF64sub, SFsub. cbv zeta. rewrite Z.min_id.
    unfold shl_align. rewrite !Z.sub_diag. reflexivity.
Qed.

Lemma ltb_irrefl (c : float) : ltb c c = false.
Proof.
  rewrite ltb_spec. unfold SFltb, SFcompare.
  destruct (Prim2SF c) as [s|s| |s m e]; try reflexivity.
  - now destruct s.
  - destruct s; rewrite Z.compare_refl;
      change (Pos.compare_cont Eq m m) with (Pos.compare m m);
      now rewrite Pos.compare_refl.
Qed.

Lemma foldl_min_const (c : float) (l : list float) :
  Forall (fun v => v = c) l ->
  foldl (fun m v => if ltb v m then v else m) c l = c.
Proof.
  induction 1 as [|v l -> _ IH]; [reflexivity|].
  cbn. now rewrite ltb_irrefl.
Qed.

Lemma foldl_max_const (c : float) (l : list float) :
  Forall (fun v => v = c) l ->
  foldl (fun m v => if ltb m v then v else m) c l = c.
Proof.
  induction 1 as [|v l -> _ IH]; [reflexivity|].
  cbn. now rewrite ltb_irrefl.
Qed.

Lemma height_scale_flat (c : float) (data : list float) :
  data <> [] -> Forall (fun v => v = c) data -> Binary64.finite c = true ->
  Binary64.height_scale data = Ok (c, one).
Proof.
  intros Hne Hflat Hc. destruct data as [|v l]; [contradiction|].
  apply Forall_cons in Hflat as [-> Hl].
  unfold Binary64.height_scale, Binary64.py_min, Binary64.py_max.
  rewrite foldl_min_const, foldl_max_const by exact Hl.
  rewrite !bind_Ok. do 2 f_equal.
  rewrite FloatAxioms.eqb_spec, (sub_diag c Hc). reflexivity.
Qed.

Lemma column_row_flat (c : float) (height : Z) :
  Binary64.finite c = true ->
  Binary64.finite (Binary64.of_int (height - 1)) = true ->
  Binary64.column_row c one height c = Ok (height - 1).
Proof.
  intros Hc Hh. unfold Binary64.column_row, Binary64.py_div.
  change (eqb one zero) with false. cbv iota. rewrite bind_Ok.
  unfold Binary64.py_int.
  rewrite mul_spec, div_spec, (sub_diag c Hc).
  replace (Prim2SF one) with (S754_finite false 4503599627370496 (-52))
    by (vm_compute; reflexivity).
  unfold Binary64.finite in Hh. unfold SF64mul, SF64div, SFdiv, SFmul.
  destruct (Prim2SF (Binary64.of_int (height - 1))) as [s|s| |s m e];
    try discriminate; cbn; f_equal; lia.
Qed.

Lemma plot_cells_binary64 (lo span : float) (width height : Z)
    (row_of : float -> Z) (data : list float) :
  Forall (fun v => Binary64.column_row lo span height v = Ok (row_of v)
                   /\ 0 <= row_of v < height) data ->
  forall (rows : Bandwidth.grid) (x0 : nat),
    Spec.rows_of_width width rows -> len rows = height ->
    Z.of_nat x0 + len data <= width ->
    exists rows',
      Binary64.plot lo span height rows (Z.of_nat x0) data = Ok rows' /\
      len rows' = height /\
      Spec.rows_of_width width rows' /\
      forall r c,
        Spec.cell rows' r c =
        match (if decide (x0 <= c)%nat then data !! (c - x0)%nat else None) with
        | Some v =>
            if decide (Z.of_nat r = row_of v) then Some Bandwidth.block
            else Spec.cell rows r c
        | None => Spec.cell rows r c
        end.
Proof.
  induction 1 as [|v rest [Hv Hrange] _ IH]; intros rows x0 Hw Hh Hx.
  - exists rows. repeat split; try assumption.
    intros r c.
    destruct (decide (x0 <= c)%nat); [now rewrite lookup_nil|reflexivity].
  - assert (Hlen : len (v :: rest) = 1 + len rest) by (unfold len; cbn [length]; lia).
    pose proof (len_nonneg rest) as Hrest.
    destruct (HeightAxis.set_cell_ok rows width (row_of v) (Z.of_nat x0))
      as (rows1 & Hset & Hh1 & Hw1 & Hcell1); [exact Hw|lia|lia|].
    destruct (IH rows1 (S x0)) as (rows' & Hplot & Hh' & Hw' & Hcell');
      [exact Hw1|lia|lia|].
    exists rows'. split; [|split; [exact Hh'|split; [exact Hw'|]]].
    + cbn [Binary64.plot]. rewrite Hv. cbn. rewrite Hset. cbn.
      replace (Z.of_nat x0 + 1) with (Z.of_nat (S x0)) by lia. exact Hplot.
    + intros r c. rewrite Hcell', Hcell1.
      rewrite Nat2Z.id.
      destruct (decide (S x0 <= c)%nat) as [Hc|Hc].
      * destruct (decide (x0 <= c)%nat); [|lia].
        replace (c - x0)%nat with (S (c - S x0)) by lia. cbn.
        destruct (rest !! (c - S x0)%nat) as [v'|]; [|].
        -- destruct (decide (Z.of_nat r = row_of v')); [reflexivity|].
           destruct (decide (r = Z.to_nat (row_of v) /\ c = x0)); [lia|reflexivity].
        -- destruct (decide (r = Z.to_nat (row_of v) /\ c = x0)); [lia|reflexivity].
      * destruct (decide (x0 <= c)%nat) as [Hc'|Hc'].
        -- assert (c = x0) by lia. subst c. rewrite Nat.sub_diag. cbn.
           destruct (decide (r = Z.to_nat (row_of v) /\ x0 = x0)) as [[Hr0 _]|Hn];
             destruct (decide (Z.of_nat r = row_of v)) as [Hr|Hr];
             try reflexivity; exfalso; lia.
        -- destruct (decide (r = Z.to_nat (row_of v) /\ c = x0)); [lia|reflexivity].
Qed.

(** The minimum of a scale is drawn in the bottom row, whatever the
    span, an infinite one included. *)
Lemma minimum_bottom_row (lo span : float) (height : Z) :
  Binary64.finite lo = true ->
  eqb span zero = false -> is_nan span = false ->
  Binary64.finite (Binary64.of_int (height - 1)) = true ->
  Binary64.column_row lo span height lo = Ok (height - 1).
Proof.
  intros Hlo Hz Hn Hh. unfold Binary64.column_row, Binary64.py_div.
  rewrite Hz, bind_Ok. unfold Binary64.py_int.
  rewrite mul_spec, div_spec, (sub_diag lo Hlo).
  rewrite FloatAxioms.eqb_spec in Hz.
  unfold is_nan in Hn. rewrite FloatAxioms.eqb_spec in Hn.
  unfold Binary64.finite in Hh. unfold SF64mul, SF64div, SFdiv, SFmul.
  destruct (Prim2SF span) as [s|s| |s m e]; try discriminate;
    destruct (Prim2SF (Binary64.of_int (height - 1))) as [s'|s'| |s' m' e'];
    try discriminate; cbn; f_equal; lia.
Qed.

(** On the scales from 0 to [hi <= 24] with the values [0 .. hi], at the
    heights 2 to 24, the row computed in binary64 is inside the grid, it
    is the row of the rounded value or the one below it, the bottom row
    for 0 and the top row for [hi]. *)
Lemma truncated_rows_sampled : Spec.rows_within_one 24 24 = true.
Proof. vm_compute. reflexivity. Qed.

(** The width normalization of a series no longer than [width], with a
    lone value doubled: the values are copied and nothing is computed. *)
Lemma normalize_width_copies (series : list float) (c : float) (width : Z) :
  series <> [] -> Forall (fun v => v = c) series ->
  len series <= width -> 2 <= width ->
  Binary64.normalize_width series width = Ok (replicate (Z.to_nat width) c).
Proof.
  intros Hne Hflat Hn Hw.
  assert (Hrep : forall l : list float,
             Forall (fun v => v = c) l -> l = replicate (length l) c).
  { induction 1 as [|v l -> _ IH]; [reflexivity|]. cbn. now f_equal. }
  assert (Hpad : forall data : list float,
             data <> [] -> Forall (fun v => v = c) data -> len data <= width ->
             (if len data >? width
              then Binary64.compress data (len data) width
              else if len data <? width
                   then Binary64.pad_right data (len data) width
                   else Ok data)
             = Ok (replicate (Z.to_nat width) c)).
  { intros data Hd Hf Hl.
    destruct (Z.gtb_spec (len data) width); [lia|].
    destruct (Z.ltb_spec (len data) width) as [Hlt|Hge].
    - unfold Binary64.pad_right.
      assert (Hlast : last data = Some c).
      { destruct (last data) as [v|] eqn:E.
        - f_equal. rewrite Forall_forall in Hf. apply Hf.
          rewrite last_lookup in E. eapply list_elem_of_lookup_2, E.
        - apply last_None in E. contradiction. }
      rewrite (WidthAxis.py_getitem_last data c Hlast), bind_Ok. f_equal.
      rewrite (Hrep data Hf) at 1. rewrite <- replicate_add. f_equal.
      unfold len in *. lia.
    - f_equal. rewrite (Hrep data Hf) at 1. f_equal. unfold len in *. lia. }
  destruct series as [|a [|b l]]; [contradiction| |].
  - apply Forall_cons in Hflat as [-> _].
    apply (Hpad [c; c]); [discriminate|repeat constructor|].
    unfold len. cbn. lia.
  - apply (Hpad (a :: b :: l)); [discriminate|exact Hflat|exact Hn].
Qed.

(** C5 (amended): for a flat non-empty series of a finite double [c] that
    the width normalization does not compress (it is no longer than
    [width], and [width >= 2] so that a lone value, once doubled, is not
    either: its values are only copied), the span [max - min == 0] is
    replaced by 1, and the series is drawn as a single full row, the bottom
    row [height - 1] of the grid (not a centred one), for every height
    whose [height - 1] is in the range of a double.  This is stated of the
    arithmetic the program runs. *)
Theorem flat_bottom_row_binary64 (series : list float) (c : float)
    (width height : Z) :
  series <> [] -> Forall (fun v => v = c) series ->
  Binary64.finite c = true ->
  len series <= width -> 2 <= width -> 1 <= height ->
  Binary64.finite (Binary64.of_int (height - 1)) = true ->
  let bottom :=
    Spec.one_row_grid (Z.to_nat width) (Z.to_nat height) (Z.to_nat (height - 1)) in
  Binary64.height_scale (replicate (Z.to_nat width) c) = Ok (c, one) /\
  Binary64.render_rows series width height = Ok bottom /\
  Binary64.render_chart_precise series width height
  = Ok (Bandwidth.rows_to_string bottom).
Proof.
  intros Hne Hflat Hc Hn Hw Hh Hk bottom.
  set (data := replicate (Z.to_nat width) c).
  assert (Hdata : data <> []).
  { unfold data. destruct (Z.to_nat width) eqn:E; [lia|discriminate]. }
  assert (Hall : Forall (fun v => v = c) data) by now apply Forall_replicate.
  assert (Hlen : len data = width).
  { unfold data, len. rewrite length_replicate. lia. }
  pose proof (height_scale_flat c data Hdata Hall Hc) as Hscale.
  assert (Hrows : Binary64.render_rows series width height = Ok bottom).
  { unfold Binary64.render_rows.
    rewrite (normalize_width_copies series c width Hne Hflat Hn Hw), bind_Ok.
    fold data. rewrite Hscale, bind_Ok.
    destruct (HeightAxis.blank_rows_shape width height) as (Bh & Bw & Bcell);
      [lia|lia|].
    destruct (plot_cells_binary64 c one width height (fun _ => height - 1) data)
      with (rows := Bandwidth.blank_rows width height) (x0 := 0%nat)
      as (rows & Hplot & Hrh & Hrw & Hcell).
    - eapply Forall_impl; [exact Hall|]. intros v ->. split; [|lia].
      now apply column_row_flat.
    - exact Bw.
    - exact Bh.
    - lia.
    - change (Z.of_nat 0) with 0 in Hplot. rewrite Hplot. f_equal.
      destruct (HeightAxis.one_row_grid_shape width height (Z.to_nat (height - 1)))
        as (Gh & Gw & Gcell); [lia|lia|]. fold bottom in Gh, Gw, Gcell.
      apply (HeightAxis.grid_ext rows bottom width height); try assumption.
      intros r x Hr Hx. rewrite Gcell, Hcell by assumption.
      destruct (decide (0 <= x)%nat); [|lia]. rewrite Nat.sub_0_r.
      destruct (data !! x) as [v|] eqn:Hv.
      2:{ apply lookup_ge_None in Hv. unfold len in Hlen. lia. }
      destruct (decide (Z.of_nat r = height - 1));
        destruct (decide (r = Z.to_nat (height - 1))); try reflexivity; try lia.
      now rewrite Bcell. }
  split; [exact Hscale|]. split; [exact Hrows|].
  unfold Binary64.render_chart_precise.
  destruct series; [contradiction|]. now rewrite Hrows.
Qed.

(** Three times 5 at 3 by 3, and a lone 0.1 at width 4 and height 2. *)
Lemma flat_bottom_row_binary64_witness :
  (Binary64.height_scale (replicate 3 (Binary64.of_int 5))
     = Ok (Binary64.of_int 5, one) /\
   Binary64.render_rows (Spec.doubles [5; 5; 5]) 3 3
     = Ok (Spec.one_row_grid 3 3 2) /\
   Binary64.render_chart_precise (Spec.doubles [5; 5; 5]) 3 3
     = Ok (Bandwidth.rows_to_string (Spec.one_row_grid 3 3 2))) /\
  (Binary64.height_scale (replicate 4 Spec.tenth) = Ok (Spec.tenth, one) /\
   Binary64.render_rows [Spec.tenth] 4 2 = Ok (Spec.one_row_grid 4 2 1) /\
   Binary64.render_chart_precise [Spec.tenth] 4 2
     = Ok (Bandwidth.rows_to_string (Spec.one_row_grid 4 2 1))).
Proof.
  split.
  - apply (flat_bottom_row_binary64 (Spec.doubles [5; 5; 5])
             (Binary64.of_int 5) 3 3);
      try (vm_compute; reflexivity); try lia; try discriminate.
    repeat constructor.
  - apply (flat_bottom_row_binary64 [Spec.tenth] Spec.tenth 4 2);
      try (vm_compute; reflexivity); try lia; try discriminate.
    repeat constructor.
Defined.

End Rounding.

(** ** pingmon.py: counters, loss rate and the latency history *)

Module PingStats.

Import Pingmon.

(** *** The deque *)

Lemma deque_append_maxlen {A} (d : deque A) (x : A) :
  maxlen (deque_append d x) = maxlen d.
Proof. reflexivity. Qed.

Lemma deque_append_len {A} (d : deque A) (x : A) :
  len (items d) <= maxlen d ->
  len (items (deque_append d x)) = Z.min (len (items d) + 1) (maxlen d).
Proof.
  intros H. unfold deque_append. cbn [items maxlen].
  assert (E : len (items d ++ [x]) = len (items d) + 1).
  { rewrite len_app. reflexivity. }
  destruct (Z.ltb_spec (maxlen d) (len (items d ++ [x]))) as [Hlt|Hge].
  - unfold len in *. rewrite length_drop. lia.
  - lia.
Qed.

Lemma deque_append_last {A} (d : deque A) (x : A) :
  1 <= maxlen d -> last (items (deque_append d x)) = Some x.
Proof.
  intros H. unfold deque_append. cbn [items maxlen].
  destruct (Z.ltb_spec (maxlen d) (len (items d ++ [x]))) as [Hlt|Hge].
  - destruct (items d) as [|a l].
    + unfold len in Hlt. cbn in Hlt. lia.
    + cbn. unfold drop. apply last_snoc.
  - apply last_snoc.
Qed.

(** *** The figures of the display *)

Lemma packet_loss_ok (lost sent : Z) :
  exists loss,
    packet_loss lost sent = Ok loss /\
    (0 < sent -> (loss == inject_Z lost / inject_Z sent * 100)%Q) /\
    (sent <= 0 -> loss = 0%Q).
Proof.
  unfold packet_loss. destruct (Z.gtb_spec sent 0) as [Hpos|Hle].
  - rewrite py_div_ok by (apply inject_Z_nonzero; lia).
    eexists. split; [reflexivity|]. split; [reflexivity|lia].
  - exists 0%Q. split; [reflexivity|]. split; [lia|reflexivity].
Qed.

Lemma avg_after_success (l : list Q) (x : Q) :
  exists avg,
    match l ++ [x] with [] => Ok 0%Q | _ => mean (l ++ [x]) end = Ok avg.
Proof.
  destruct (l ++ [x]) as [|a k] eqn:E.
  - now apply app_nil in E as [_ ?].
  - unfold mean. rewrite py_div_ok; [eauto|].
    apply inject_Z_nonzero. unfold len. cbn [length]. lia.
Qed.

Lemma std_of_few (stdev : list Q -> Q) (l : list Q) :
  len l < 2 -> std_of stdev l = 0%Q.
Proof.
  intros H. unfold std_of. destruct (Z.gtb_spec (len l) 1); [lia|reflexivity].
Qed.

Lemma probe_failed_cases (o : ping_outcome) :
  Spec.probe_failed o <->
  o = PingRaised \/ exists rtt ttl, o = PingResponse false rtt ttl.
Proof.
  unfold Spec.probe_failed. split.
  - destruct o as [|[] rtt ttl]; cbn; intros H; [now left|discriminate|].
    right. eauto.
  - intros [->|(rtt & ttl & ->)]; reflexivity.
Qed.

Lemma do_ping_failed (o : ping_outcome) :
  Spec.probe_failed o -> do_ping o = (0%Q, 0, false).
Proof.
  intros H. apply probe_failed_cases in H as [->|(rtt & ttl & ->)]; reflexivity.
Qed.

Lemma classic_failed (o : ping_outcome) :
  Spec.probe_failed o \/ exists rtt ttl, o = PingResponse true rtt ttl.
Proof.
  destruct o as [|[] rtt ttl]; [now left|right; eauto|now left].
Qed.

(** *** One iteration of [monitor_ping_basic] *)

Lemma basic_tick_failed (o : ping_outcome) (st : basic) :
  Spec.probe_failed o ->
  basic_tick o st =
  Ok (mk_basic (b_sent st + 1) (b_received st) (b_lost st + 1)
        (b_min st) (b_max st) (b_avg st) (b_latencies st)
        (deque_append (b_history_latency st) 0%Q)
        (deque_append (b_history_ttl st) 0)
        (b_running st)).
Proof.
  intros H. unfold basic_tick. now rewrite (do_ping_failed o H).
Qed.

Lemma basic_tick_success (rtt : Q) (ttl : option Z) (st : basic) :
  exists avg,
    basic_tick (PingResponse true rtt ttl) st =
    Ok (mk_basic (b_sent st + 1) (b_received st + 1) (b_lost st)
          (min_latency (b_min st) rtt) (max_latency (b_max st) rtt)
          avg (b_latencies st ++ [rtt])
          (deque_append (b_history_latency st) rtt)
          (deque_append (b_history_ttl st)
             (if default 0 ttl >? 0 then default 0 ttl else 64))
          (b_running st)).
Proof.
  destruct (avg_after_success (b_latencies st) rtt) as [avg Havg].
  exists avg. unfold basic_tick. cbn [do_ping]. cbv iota beta zeta.
  now rewrite Havg.
Qed.

Lemma basic_tick_spec (hp : Z) (o : ping_outcome) (st : basic) :
  Spec.basic_inv hp st ->
  exists st',
    basic_tick o st = Ok st' /\
    Spec.basic_inv hp st' /\
    b_running st' = b_running st /\
    b_sent st' = b_sent st + 1 /\
    (if snd (do_ping o)
     then b_received st' = b_received st + 1 /\ b_lost st' = b_lost st
     else b_received st' = b_received st /\ b_lost st' = b_lost st + 1).
Proof.
  intros (Hr & Hl & Hs & Hlat & Hmax & Hlen).
  assert (Hroom : len (items (b_history_latency st))
                  <= maxlen (b_history_latency st)) by lia.
  destruct (classic_failed o) as [Hfail|(rtt & ttl & ->)].
  - rewrite (basic_tick_failed o st Hfail). eexists. split; [reflexivity|].
    unfold Spec.probe_failed in Hfail. rewrite Hfail.
    unfold Spec.basic_inv. cbn [b_sent b_received b_lost b_latencies
      b_history_latency b_running].
    rewrite deque_append_maxlen, deque_append_len by exact Hroom.
    repeat split; lia.
  - destruct (basic_tick_success rtt ttl st) as [avg ->].
    eexists. split; [reflexivity|].
    unfold Spec.basic_inv. cbn [b_sent b_received b_lost b_latencies
      b_history_latency b_running do_ping snd].
    rewrite deque_append_maxlen, deque_append_len, len_app by exact Hroom.
    change (len [rtt]) with 1.
    repeat split; lia.
Qed.

Lemma basic_report_ok (stdev : list Q -> Q) (st : basic) :
  exists loss,
    packet_loss (b_lost st) (b_sent st) = Ok loss /\
    basic_report stdev st =
    Ok (loss, if b_received st >? 0
              then Some (std_of stdev (b_latencies st)) else None).
Proof.
  destruct (packet_loss_ok (b_lost st) (b_sent st)) as (loss & Hloss & _).
  exists loss. split; [exact Hloss|].
  unfold basic_report. now rewrite Hloss.
Qed.

Lemma basic_loop_spec (stdev : list Q -> Q) (hp : Z)
    (inputs : list (ping_outcome * bool)) :
  forall st, Spec.basic_inv hp st ->
  exists st', basic_loop stdev inputs st = Ok st' /\ Spec.basic_inv hp st'.
Proof.
  induction inputs as [|[o stop] rest IH]; intros st Hinv.
  - exists st. split; [reflexivity|exact Hinv].
  - cbn [basic_loop]. destruct (b_running st); [|eauto].
    destruct (basic_tick_spec hp o st Hinv) as (st1 & Htick & Hinv1 & _).
    destruct (basic_report_ok stdev st1) as (loss & _ & Hrep).
    rewrite Htick, bind_Ok, Hrep, bind_Ok.
    apply IH. destruct stop; [|exact Hinv1]. exact Hinv1.
Qed.

Lemma basic_init_spec (hp : Z) :
  0 <= hp ->
  exists st, basic_init hp = Ok st /\ Spec.basic_inv hp st.
Proof.
  intros H. unfold basic_init, deque_new.
  destruct (Z.ltb_spec hp 0); [lia|].
  eexists. split; [reflexivity|].
  unfold Spec.basic_inv, len. cbn. repeat split; lia.
Qed.

Lemma monitor_ping_basic_spec (stdev : list Q -> Q) (hp : Z)
    (inputs : list (ping_outcome * bool)) :
  0 <= hp ->
  exists st,
    monitor_ping_basic stdev hp inputs = Ok st /\ Spec.basic_inv hp st.
Proof.
  intros H. destruct (basic_init_spec hp H) as (st0 & Hinit & Hinv0).
  unfold monitor_ping_basic. rewrite Hinit, bind_Ok.
  now apply basic_loop_spec.
Qed.

(** *** One iteration of [monitor_ping_advanced.poll_loop] *)

Lemma advanced_tick_failed (o : ping_outcome) (st : advanced) :
  Spec.probe_failed o ->
  advanced_tick o st =
  mk_advanced (a_sent st + 1) (a_received st) (a_lost st + 1)
    (a_min st) (a_max st) (a_latencies st)
    (deque_append (a_history_latency st) 0%Q)
    (a_running st).
Proof.
  intros H. unfold advanced_tick. now rewrite (do_ping_failed o H).
Qed.

Lemma advanced_tick_spec (hp : Z) (o : ping_outcome) (st : advanced) :
  Spec.advanced_inv hp st ->
  Spec.advanced_inv hp (advanced_tick o st) /\
  a_running (advanced_tick o st) = a_running st /\
  a_sent (advanced_tick o st) = a_sent st + 1 /\
  (if snd (do_ping o)
   then a_received (advanced_tick o st) = a_received st + 1
        /\ a_lost (advanced_tick o st) = a_lost st
   else a_received (advanced_tick o st) = a_received st
        /\ a_lost (advanced_tick o st) = a_lost st + 1).
Proof.
  intros (Hr & Hl & Hs & Hlat & Hmax & Hlen).
  assert (Hroom : len (items (a_history_latency st))
                  <= maxlen (a_history_latency st)) by lia.
  destruct (classic_failed o) as [Hfail|(rtt & ttl & ->)].
  - rewrite (advanced_tick_failed o st Hfail).
    unfold Spec.probe_failed in Hfail. rewrite Hfail.
    unfold Spec.advanced_inv. cbn [a_sent a_received a_lost a_latencies
      a_history_latency a_running].
    rewrite deque_append_maxlen, deque_append_len by exact Hroom.
    repeat split; lia.
  - unfold advanced_tick, Spec.advanced_inv.
    cbn [a_sent a_received a_lost a_latencies a_history_latency a_running
         do_ping snd].
    rewrite deque_append_maxlen, deque_append_len, len_app by exact Hroom.
    change (len [rtt]) with 1.
    repeat split; lia.
Qed.

Lemma poll_loop_spec (hp : Z) (inputs : list (ping_outcome * bool)) :
  forall st, Spec.advanced_inv hp st ->
  Spec.advanced_inv hp (poll_loop inputs st).
Proof.
  induction inputs as [|[o stop] rest IH]; intros st Hinv; [exact Hinv|].
  cbn [poll_loop]. destruct (a_running st); [|exact Hinv].
  destruct (advanced_tick_spec hp o st Hinv) as (Hinv1 & _).
  apply IH. destruct stop; exact Hinv1.
Qed.

Lemma monitor_ping_advanced_spec (hp : Z)
    (inputs : list (ping_outcome * bool)) :
  0 <= hp ->
  exists st,
    monitor_ping_advanced hp inputs = Ok st /\ Spec.advanced_inv hp st.
Proof.
  intros H. unfold monitor_ping_advanced, advanced_init, deque_new.
  destruct (Z.ltb_spec hp 0); [lia|]. rewrite bind_Ok.
  eexists. split; [reflexivity|].
  apply poll_loop_spec. unfold Spec.advanced_inv, len. cbn. repeat split; lia.
Qed.

(** *** The counters of one iteration, in any state *)

Lemma basic_tick_counters (o : ping_outcome) (st : basic) :
  exists st',
    basic_tick o st = Ok st' /\
    b_sent st' = b_sent st + 1 /\
    (b_received st' = b_received st + 1 /\ b_lost st' = b_lost st \/
     b_received st' = b_received st /\ b_lost st' = b_lost st + 1) /\
    (Spec.probe_failed o <-> b_lost st' = b_lost st + 1).
Proof.
  destruct (classic_failed o) as [Hfail|(rtt & ttl & ->)].
  - rewrite (basic_tick_failed o st Hfail). eexists. split; [reflexivity|].
    cbn. split; [reflexivity|]. split; [right; split; reflexivity|tauto].
  - destruct (basic_tick_success rtt ttl st) as [avg ->].
    eexists. split; [reflexivity|].
    cbn. split; [reflexivity|]. split; [left; split; reflexivity|].
    unfold Spec.probe_failed. cbn. split; [discriminate|lia].
Qed.

Lemma advanced_tick_counters (o : ping_outcome) (st : advanced) :
  a_sent (advanced_tick o st) = a_sent st + 1 /\
  (a_received (advanced_tick o st) = a_received st + 1
     /\ a_lost (advanced_tick o st) = a_lost st \/
   a_received (advanced_tick o st) = a_received st
     /\ a_lost (advanced_tick o st) = a_lost st + 1) /\
  (Spec.probe_failed o <-> a_lost (advanced_tick o st) = a_lost st + 1).
Proof.
  destruct (classic_failed o) as [Hfail|(rtt & ttl & ->)].
  - rewrite (advanced_tick_failed o st Hfail).
    cbn. split; [reflexivity|]. split; [right; split; reflexivity|tauto].
  - cbn. split; [reflexivity|]. split; [left; split; reflexivity|].
    unfold Spec.probe_failed. cbn. split; [discriminate|lia].
Qed.

Lemma avg_ok (l : list Q) :
  exists avg, match l with [] => Ok 0%Q | _ => mean l end = Ok avg.
Proof.
  destruct l as [|a k]; [eauto|].
  unfold mean. rewrite py_div_ok; [eauto|].
  apply inject_Z_nonzero. unfold len. cbn [length]. lia.
Qed.

Lemma forty_percent (lost sent received : Z) (loss : Q) :
  sent = received + lost ->
  (0 < sent -> (loss == inject_Z lost / inject_Z sent * 100)%Q) ->
  sent = 5 -> received = 3 -> (loss == 40)%Q.
Proof.
  intros Hs Hloss -> ->. assert (lost = 2) by lia. subst lost.
  rewrite Hloss by lia. reflexivity.
Qed.

(** *** The specified properties of the ping statistics *)

(** C10: at every point of a session of either monitor,
    [sent = received + lost]; one iteration adds exactly 1 to [sent] and
    exactly 1 to exactly one of [received] and [lost] ([lost] exactly when
    the probe failed). *)
Theorem counters_balance (stdev : list Q -> Q) (hp : Z)
    (inputs : list (ping_outcome * bool)) :
  0 <= hp ->
  (exists st,
     monitor_ping_basic stdev hp inputs = Ok st /\
     b_sent st = b_received st + b_lost st) /\
  (exists st,
     monitor_ping_advanced hp inputs = Ok st /\
     a_sent st = a_received st + a_lost st) /\
  (forall o st, exists st',
     basic_tick o st = Ok st' /\
     b_sent st' = b_sent st + 1 /\
     (b_received st' = b_received st + 1 /\ b_lost st' = b_lost st \/
      b_received st' = b_received st /\ b_lost st' = b_lost st + 1) /\
     (Spec.probe_failed o <-> b_lost st' = b_lost st + 1)) /\
  (forall o st,
     a_sent (advanced_tick o st) = a_sent st + 1 /\
     (a_received (advanced_tick o st) = a_received st + 1
        /\ a_lost (advanced_tick o st) = a_lost st \/
      a_received (advanced_tick o st) = a_received st
        /\ a_lost (advanced_tick o st) = a_lost st + 1) /\
     (Spec.probe_failed o <-> a_lost (advanced_tick o st) = a_lost st + 1)).
Proof.
  intros Hhp. split; [|split; [|split]].
  - destruct (monitor_ping_basic_spec stdev hp inputs Hhp)
      as (st & Hrun & _ & _ & Hs & _).
    eauto.
  - destruct (monitor_ping_advanced_spec hp inputs Hhp)
      as (st & Hrun & _ & _ & Hs & _).
    eauto.
  - apply basic_tick_counters.
  - apply advanced_tick_counters.
Qed.

(** C7: at every point of a session the loss rate of the display is
    [lost / sent * 100] when [sent > 0] and 0 otherwise; the standard
    deviation is 0 while fewer than two probes have succeeded; with
    [sent = 5] and [received = 3] the loss rate is 40. *)
Theorem loss_rate_and_stddev (stdev : list Q -> Q) (hp : Z)
    (inputs : list (ping_outcome * bool)) :
  0 <= hp ->
  (exists st loss,
     monitor_ping_basic stdev hp inputs = Ok st /\
     basic_report stdev st =
       Ok (loss, if b_received st >? 0
                 then Some (std_of stdev (b_latencies st)) else None) /\
     (0 < b_sent st ->
        (loss == inject_Z (b_lost st) / inject_Z (b_sent st) * 100)%Q) /\
     (b_sent st <= 0 -> loss = 0%Q) /\
     (b_received st < 2 -> std_of stdev (b_latencies st) = 0%Q) /\
     (b_sent st = 5 -> b_received st = 3 -> (loss == 40)%Q)) /\
  (exists st avg loss,
     monitor_ping_advanced hp inputs = Ok st /\
     advanced_report stdev st = Ok (avg, loss, std_of stdev (a_latencies st)) /\
     (0 < a_sent st ->
        (loss == inject_Z (a_lost st) / inject_Z (a_sent st) * 100)%Q) /\
     (a_sent st <= 0 -> loss = 0%Q) /\
     (a_received st < 2 -> std_of stdev (a_latencies st) = 0%Q) /\
     (a_sent st = 5 -> a_received st = 3 -> (loss == 40)%Q)).
Proof.
  intros Hhp. split.
  - destruct (monitor_ping_basic_spec stdev hp inputs Hhp)
      as (st & Hrun & _ & _ & Hs & Hlat & _).
    destruct (packet_loss_ok (b_lost st) (b_sent st)) as (loss & Hloss & Hpos & Hzero).
    exists st, loss. split; [exact Hrun|]. split.
    { unfold basic_report. now rewrite Hloss. }
    split; [exact Hpos|]. split; [exact Hzero|]. split.
    + intros H. apply std_of_few. lia.
    + now apply (forty_percent (b_lost st) (b_sent st) (b_received st)).
  - destruct (monitor_ping_advanced_spec hp inputs Hhp)
      as (st & Hrun & _ & _ & Hs & Hlat & _).
    destruct (packet_loss_ok (a_lost st) (a_sent st)) as (loss & Hloss & Hpos & Hzero).
    destruct (avg_ok (a_latencies st)) as (avg & Havg).
    exists st, avg, loss. split; [exact Hrun|]. split.
    { unfold advanced_report. now rewrite Havg, bind_Ok, Hloss. }
    split; [exact Hpos|]. split; [exact Hzero|]. split.
    + intros H. apply std_of_few. lia.
    + now apply (forty_percent (a_lost st) (a_sent st) (a_received st)).
Qed.

(** Three answers and two lost probes on an 80-column terminal
    ([HISTORY_POINTS = 66]): the loss rate is 40. *)
Lemma loss_rate_and_stddev_witness :
  let stdev := fun _ : list Q => 0%Q in
  ((exists st loss,
     monitor_ping_basic stdev 66 Spec.five_probes_two_lost = Ok st /\
     basic_report stdev st =
       Ok (loss, if b_received st >? 0
                 then Some (std_of stdev (b_latencies st)) else None) /\
     (0 < b_sent st ->
        (loss == inject_Z (b_lost st) / inject_Z (b_sent st) * 100)%Q) /\
     (b_sent st <= 0 -> loss = 0%Q) /\
     (b_received st < 2 -> std_of stdev (b_latencies st) = 0%Q) /\
     (b_sent st = 5 -> b_received st = 3 -> (loss == 40)%Q)) /\
  (exists st avg loss,
     monitor_ping_advanced 66 Spec.five_probes_two_lost = Ok st /\
     advanced_report stdev st = Ok (avg, loss, std_of stdev (a_latencies st)) /\
     (0 < a_sent st ->
        (loss == inject_Z (a_lost st) / inject_Z (a_sent st) * 100)%Q) /\
     (a_sent st <= 0 -> loss = 0%Q) /\
     (a_received st < 2 -> std_of stdev (a_latencies st) = 0%Q) /\
     (a_sent st = 5 -> a_received st = 3 -> (loss == 40)%Q))) /\
  exists st loss,
    monitor_ping_basic stdev 66 Spec.five_probes_two_lost = Ok st /\
    b_sent st = 5 /\ b_received st = 3 /\ b_lost st = 2 /\
    packet_loss (b_lost st) (b_sent st) = Ok loss /\ Qred loss = 40%Q.
Proof.
  intros stdev. split.
  - apply (loss_rate_and_stddev stdev 66 Spec.five_probes_two_lost). lia.
  - eexists. eexists. split; [vm_compute; reflexivity|].
    repeat split; vm_compute; reflexivity.
Defined.

(** The five probes 10, 20, 15, lost, 25. *)
Lemma counters_balance_witness :
  let stdev := fun _ : list Q => 0%Q in
  ((exists st,
     monitor_ping_basic stdev 66 Spec.five_probes = Ok st /\
     b_sent st = b_received st + b_lost st) /\
  (exists st,
     monitor_ping_advanced 66 Spec.five_probes = Ok st /\
     a_sent st = a_received st + a_lost st) /\
  (forall o st, exists st',
     basic_tick o st = Ok st' /\
     b_sent st' = b_sent st + 1 /\
     (b_received st' = b_received st + 1 /\ b_lost st' = b_lost st \/
      b_received st' = b_received st /\ b_lost st' = b_lost st + 1) /\
     (Spec.probe_failed o <-> b_lost st' = b_lost st + 1)) /\
  (forall o st,
     a_sent (advanced_tick o st) = a_sent st + 1 /\
     (a_received (advanced_tick o st) = a_received st + 1
        /\ a_lost (advanced_tick o st) = a_lost st \/
      a_received (advanced_tick o st) = a_received st
        /\ a_lost (advanced_tick o st) = a_lost st + 1) /\
     (Spec.probe_failed o <-> a_lost (advanced_tick o st) = a_lost st + 1))) /\
  exists st,
    monitor_ping_basic stdev 66 Spec.five_probes = Ok st /\
    b_sent st = 5 /\ b_received st = 4 /\ b_lost st = 1 /\
    b_min st = Fin 10 /\ b_max st = 25%Q.
Proof.
  intros stdev. split.
  - apply (counters_balance stdev 66 Spec.five_probes). lia.
  - eexists. split; [vm_compute; reflexivity|].
    repeat split; vm_compute; reflexivity.
Defined.

(** C8: when the probe of an iteration fails, [lost] and [sent] go up by
    1, [received] stays, a 0 is appended to the latency history (it is the
    newest entry, and the history keeps one entry per iteration up to its
    capacity), nothing is raised, and the loop goes on with the next
    iteration. *)
Theorem failed_probe_recorded (stdev : list Q -> Q) (hp : Z)
    (o : ping_outcome) (rest : list (ping_outcome * bool))
    (sb : basic) (sa : advanced) :
  Spec.probe_failed o -> 1 <= hp ->
  Spec.basic_inv hp sb -> b_running sb = true ->
  Spec.advanced_inv hp sa -> a_running sa = true ->
  (exists sb',
     basic_tick o sb = Ok sb' /\
     b_lost sb' = b_lost sb + 1 /\
     b_sent sb' = b_sent sb + 1 /\
     b_received sb' = b_received sb /\
     b_history_latency sb' = deque_append (b_history_latency sb) 0%Q /\
     last (items (b_history_latency sb')) = Some 0%Q /\
     len (items (b_history_latency sb')) = Z.min (b_sent sb') hp /\
     b_running sb' = true /\
     (exists report, basic_report stdev sb' = Ok report) /\
     basic_loop stdev ((o, false) :: rest) sb = basic_loop stdev rest sb' /\
     exists final, basic_loop stdev rest sb' = Ok final) /\
  (let sa' := advanced_tick o sa in
   a_lost sa' = a_lost sa + 1 /\
   a_sent sa' = a_sent sa + 1 /\
   a_received sa' = a_received sa /\
   a_history_latency sa' = deque_append (a_history_latency sa) 0%Q /\
   last (items (a_history_latency sa')) = Some 0%Q /\
   len (items (a_history_latency sa')) = Z.min (a_sent sa') hp /\
   a_running sa' = true /\
   poll_loop ((o, false) :: rest) sa = poll_loop rest sa').
Proof.
  intros Hfail Hhp Hb Hbrun Ha Harun. split.
  - destruct sb as [s r l mn mx av lat hl ht run].
    cbn [b_running] in Hbrun. subst run.
    set (sb := mk_basic s r l mn mx av lat hl ht true) in *.
    destruct (basic_tick_spec hp o sb Hb) as (sb' & Htick & Hinv' & _).
    pose proof (basic_tick_failed o sb Hfail) as Hshape.
    rewrite Htick in Hshape. injection Hshape as ->.
    destruct (basic_report_ok stdev
      (mk_basic (b_sent sb + 1) (b_received sb) (b_lost sb + 1)
         (b_min sb) (b_max sb) (b_avg sb) (b_latencies sb)
         (deque_append (b_history_latency sb) 0%Q)
         (deque_append (b_history_ttl sb) 0) (b_running sb)))
      as (loss & _ & Hrep).
    destruct (basic_loop_spec stdev hp rest _ Hinv') as (final & Hfinal & _).
    destruct Hb as (_ & _ & _ & _ & Hmax & _).
    destruct Hinv' as (_ & _ & _ & _ & _ & Hlen').
    change (b_running sb) with true in *.
    eexists. split; [exact Htick|].
    split; [reflexivity|]. split; [reflexivity|]. split; [reflexivity|].
    split; [reflexivity|]. split.
    { apply deque_append_last. change (1 <= maxlen (b_history_latency sb)). lia. }
    split; [exact Hlen'|]. split; [reflexivity|]. split; [eauto|].
    split; [|eauto].
    cbn [basic_loop]. change (b_running sb) with true. cbv iota.
    rewrite Htick, bind_Ok.
    etransitivity; [apply (bind_Ok_eq _ _ _ Hrep)|reflexivity].
  - destruct sa as [s r l mn mx lat hl run].
    cbn [a_running] in Harun. subst run.
    set (sa := mk_advanced s r l mn mx lat hl true) in *.
    cbv zeta.
    destruct (advanced_tick_spec hp o sa Ha) as (Hinv' & _).
    destruct Ha as (_ & _ & _ & _ & Hmax & _).
    destruct Hinv' as (_ & _ & _ & _ & _ & Hlen').
    rewrite (advanced_tick_failed o sa Hfail) in *.
    split; [reflexivity|]. split; [reflexivity|]. split; [reflexivity|].
    split; [reflexivity|]. split.
    { apply deque_append_last. change (1 <= maxlen (a_history_latency sa)). lia. }
    split; [exact Hlen'|]. split; [reflexivity|].
    cbn [poll_loop]. change (a_running sa) with true. cbv iota.
    now rewrite (advanced_tick_failed o sa Hfail).
Qed.

(** The first probe of a session raises on an 80-column terminal
    ([HISTORY_POINTS = 66]); an answered probe follows. *)
Lemma failed_probe_recorded_witness :
  let stdev := fun _ : list Q => 0%Q in
  let o := PingRaised in
  let rest := [Spec.answered 12] in
  let sb := mk_basic 0 0 0 Inf 0 0 [] (mk_deque 66 []) (mk_deque 66 []) true in
  let sa := mk_advanced 0 0 0 Inf 0 [] (mk_deque 66 []) true in
  (exists sb',
     basic_tick o sb = Ok sb' /\
     b_lost sb' = b_lost sb + 1 /\
     b_sent sb' = b_sent sb + 1 /\
     b_received sb' = b_received sb /\
     b_history_latency sb' = deque_append (b_history_latency sb) 0%Q /\
     last (items (b_history_latency sb')) = Some 0%Q /\
     len (items (b_history_latency sb')) = Z.min (b_sent sb') 66 /\
     b_running sb' = true /\
     (exists report, basic_report stdev sb' = Ok report) /\
     basic_loop stdev ((o, false) :: rest) sb = basic_loop stdev rest sb' /\
     exists final, basic_loop stdev rest sb' = Ok final) /\
  (let sa' := advanced_tick o sa in
   a_lost sa' = a_lost sa + 1 /\
   a_sent sa' = a_sent sa + 1 /\
   a_received sa' = a_received sa /\
   a_history_latency sa' = deque_append (a_history_latency sa) 0%Q /\
   last (items (a_history_latency sa')) = Some 0%Q /\
   len (items (a_history_latency sa')) = Z.min (a_sent sa') 66 /\
   a_running sa' = true /\
   poll_loop ((o, false) :: rest) sa = poll_loop rest sa').
Proof.
  intros stdev o rest sb sa.
  apply (failed_probe_recorded stdev 66 o rest sb sa).
  - reflexivity.
  - lia.
  - unfold Spec.basic_inv, len. cbn. repeat split; lia.
  - reflexivity.
  - unfold Spec.advanced_inv, len. cbn. repeat split; lia.
  - reflexivity.
Defined.

End PingStats.

(** ** pingmon.py: what a session leaves behind *)

Module PingTrace.

Import Pingmon Trace.

(** *** The deque keeps the newest entries *)

Lemma newest_snoc {A} (m : Z) (xs : list A) (x : A) :
  0 <= m ->
  deque_append (mk_deque m (newest m xs)) x
  = mk_deque m (newest m (xs ++ [x])).
Proof.
  intros Hm. unfold deque_append, newest. cbn [items maxlen]. f_equal.
  rewrite len_app. unfold len. rewrite length_drop, length_app. cbn [length].
  destruct (Z.ltb_spec m (Z.of_nat (length xs - (length xs - Z.to_nat m))
                          + Z.of_nat 1)) as [Hlt|Hge].
  - rewrite !drop_app, drop_drop, length_drop. f_equal; f_equal; lia.
  - rewrite drop_app.
    replace (length xs - Z.to_nat m)%nat with 0%nat by lia.
    replace (length xs + 1 - Z.to_nat m)%nat with 0%nat by lia.
    reflexivity.
Qed.

Lemma len_newest {A} (m : Z) (xs : list A) :
  0 <= m -> len (newest m xs) = Z.min (len xs) m.
Proof.
  intros Hm. unfold newest, len. rewrite length_drop. lia.
Qed.

(** *** Least and greatest latency *)

Lemma is_least_snoc (m : pyfloat) (l : list Q) (x : Q) :
  is_least m l -> is_least (min_latency m x) (l ++ [x]).
Proof.
  destruct m as [|q]; cbn.
  - intros ->. cbn. split; [apply list_elem_of_singleton; reflexivity|].
    repeat constructor. apply Qle_refl.
  - intros [Hin Hall]. destruct (Qlt_bool x q) eqn:E; cbn.
    + apply Qlt_bool_iff in E. split.
      * apply elem_of_app. right. now apply list_elem_of_singleton.
      * apply Forall_app. split; [|repeat constructor; apply Qle_refl].
        eapply Forall_impl; [exact Hall|]. intros v Hv. cbn in Hv. lra.
    + apply Qlt_bool_false in E. split.
      * apply elem_of_app. now left.
      * apply Forall_app. split; [exact Hall|]. now repeat constructor.
Qed.

Lemma is_greatest_snoc (m : Q) (l : list Q) (x : Q) :
  is_greatest_or_zero m l -> is_greatest_or_zero (max_latency m x) (l ++ [x]).
Proof.
  intros (Hin & Hpos & Hall). unfold max_latency, is_greatest_or_zero.
  destruct (Qlt_bool m x) eqn:E.
  - apply Qlt_bool_iff in E. split; [|split].
    + right. apply elem_of_app. right. now apply list_elem_of_singleton.
    + lra.
    + apply Forall_app. split; [|repeat constructor; apply Qle_refl].
      eapply Forall_impl; [exact Hall|]. intros v Hv. cbn in Hv. lra.
  - apply Qlt_bool_false in E. split; [|split].
    + destruct Hin as [->|Hin]; [now left|right].
      apply elem_of_app. now left.
    + exact Hpos.
    + apply Forall_app. split; [exact Hall|]. now repeat constructor.
Qed.

(** *** One iteration, on traces *)

Lemma basic_tick_answered (rtt : Q) (ttl : option Z) (st : basic) :
  basic_tick (PingResponse true rtt ttl) st =
  Ok (mk_basic (b_sent st + 1) (b_received st + 1) (b_lost st)
        (min_latency (b_min st) rtt) (max_latency (b_max st) rtt)
        (py_sum (b_latencies st ++ [rtt])
         / inject_Z (len (b_latencies st ++ [rtt])))%Q
        (b_latencies st ++ [rtt])
        (deque_append (b_history_latency st) rtt)
        (deque_append (b_history_ttl st)
           (if default 0 ttl >? 0 then default 0 ttl else 64))
        (b_running st)).
Proof.
  unfold basic_tick. cbn [do_ping]. cbv iota beta zeta.
  destruct (b_latencies st ++ [rtt]) as [|a k] eqn:E.
  - now apply app_nil in E as [_ ?].
  - unfold mean. rewrite py_div_ok; [reflexivity|].
    apply inject_Z_nonzero. unfold len. cbn [length]. lia.
Qed.

Lemma len_snoc {A} (l : list A) (x : A) : len (l ++ [x]) = len l + 1.
Proof. now rewrite len_app. Qed.

Lemma basic_tick_after (hp : Z) (xs : list ping_outcome) (o : ping_outcome)
    (st : basic) :
  0 <= hp -> basic_after hp xs st ->
  exists st',
    basic_tick o st = Ok st' /\
    basic_after hp (xs ++ [o]) st' /\
    b_running st' = b_running st.
Proof.
  intros Hhp (Hs & Hr & Hl & Hlat & Hh & Ht & Hmin & Hmax & Havg).
  destruct (PingStats.classic_failed o) as [Hfail|(rtt & ttl & ->)].
  - rewrite (PingStats.basic_tick_failed o st Hfail).
    eexists. split; [reflexivity|]. split; [|reflexivity].
    assert (Hnone : answered_latency o = None).
    { apply PingStats.probe_failed_cases in Hfail
        as [->|(rtt & ttl & ->)]; reflexivity. }
    assert (Hlat0 : latency_entry o = 0%Q).
    { apply PingStats.probe_failed_cases in Hfail
        as [->|(rtt & ttl & ->)]; reflexivity. }
    assert (Httl0 : ttl_entry o = 0).
    { apply PingStats.probe_failed_cases in Hfail
        as [->|(rtt & ttl & ->)]; reflexivity. }
    unfold basic_after.
    cbn [b_sent b_received b_lost b_latencies b_history_latency
         b_history_ttl b_min b_max b_avg].
    rewrite omap_app, !fmap_app. cbn [omap list_omap fmap list_fmap].
    rewrite Hnone, Hlat0, Httl0, app_nil_r, len_snoc, Hh, Ht.
    rewrite !newest_snoc by exact Hhp.
    destruct Hmax as (G1 & G2 & G3).
    repeat split; try assumption; lia.
  - rewrite basic_tick_answered.
    eexists. split; [reflexivity|]. split; [|reflexivity].
    unfold basic_after.
    cbn [b_sent b_received b_lost b_latencies b_history_latency
         b_history_ttl b_min b_max b_avg].
    rewrite omap_app, !fmap_app.
    cbn [omap list_omap fmap list_fmap answered_latency latency_entry ttl_entry].
    rewrite !len_snoc, Hh, Ht, Hlat.
    rewrite !newest_snoc by exact Hhp.
    pose proof (is_least_snoc _ _ rtt Hmin) as Hmin'.
    destruct (is_greatest_snoc _ _ rtt Hmax) as (G1 & G2 & G3).
    repeat split; try assumption; try lia.
    rewrite <- (len_snoc (omap answered_latency xs) rtt).
    destruct (omap answered_latency xs ++ [rtt]) as [|a k] eqn:E;
      [now apply app_nil in E as [_ ?]|reflexivity].
Qed.

Lemma advanced_tick_after (hp : Z) (xs : list ping_outcome)
    (o : ping_outcome) (st : advanced) :
  0 <= hp -> advanced_after hp xs st ->
  advanced_after hp (xs ++ [o]) (advanced_tick o st) /\
  a_running (advanced_tick o st) = a_running st.
Proof.
  intros Hhp (Hs & Hr & Hl & Hlat & Hh & Hmin & Hmax).
  destruct (PingStats.classic_failed o) as [Hfail|(rtt & ttl & ->)].
  - rewrite (PingStats.advanced_tick_failed o st Hfail).
    split; [|reflexivity].
    assert (Hnone : answered_latency o = None).
    { apply PingStats.probe_failed_cases in Hfail
        as [->|(rtt & ttl & ->)]; reflexivity. }
    assert (Hlat0 : latency_entry o = 0%Q).
    { apply PingStats.probe_failed_cases in Hfail
        as [->|(rtt & ttl & ->)]; reflexivity. }
    unfold advanced_after.
    cbn [a_sent a_received a_lost a_latencies a_history_latency a_min a_max].
    rewrite omap_app, !fmap_app. cbn [omap list_omap fmap list_fmap].
    rewrite Hnone, Hlat0, app_nil_r, len_snoc, Hh.
    rewrite !newest_snoc by exact Hhp.
    destruct Hmax as (G1 & G2 & G3).
    repeat split; try assumption; lia.
  - split; [|reflexivity].
    unfold advanced_after, advanced_tick.
    cbn [do_ping a_sent a_received a_lost a_latencies a_history_latency
         a_min a_max].
    rewrite omap_app, !fmap_app.
    cbn [omap list_omap fmap list_fmap answered_latency latency_entry].
    rewrite !len_snoc, Hh, Hlat.
    rewrite !newest_snoc by exact Hhp.
    pose proof (is_least_snoc _ _ rtt Hmin) as Hmin'.
    destruct (is_greatest_snoc _ _ rtt Hmax) as (G1 & G2 & G3).
    repeat split; try assumption; lia.
Qed.

(** *** The loops, on traces *)

Lemma basic_loop_stopped (stdev : list Q -> Q)
    (inputs : list (ping_outcome * bool)) (st : basic) :
  b_running st = false -> basic_loop stdev inputs st = Ok st.
Proof.
  intros H. destruct inputs as [|[o stop] rest]; [reflexivity|].
  cbn [basic_loop]. now rewrite H.
Qed.

Lemma poll_loop_stopped (inputs : list (ping_outcome * bool)) (st : advanced) :
  a_running st = false -> poll_loop inputs st = st.
Proof.
  intros H. destruct inputs as [|[o stop] rest]; [reflexivity|].
  cbn [poll_loop]. now rewrite H.
Qed.

Lemma basic_loop_after (stdev : list Q -> Q) (hp : Z)
    (inputs : list (ping_outcome * bool)) :
  0 <= hp ->
  forall xs st,
    basic_after hp xs st -> b_running st = true ->
    exists st',
      basic_loop stdev inputs st = Ok st' /\
      basic_after hp (xs ++ processed inputs) st' /\
      b_running st' = negb (stop_requested inputs).
Proof.
  intros Hhp. induction inputs as [|[o stop] rest IH]; intros xs st Hafter Hrun.
  - exists st. cbn. rewrite app_nil_r. auto.
  - cbn [basic_loop]. rewrite Hrun.
    destruct (basic_tick_after hp xs o st Hhp Hafter)
      as (st1 & Htick & Hafter1 & Hrun1).
    destruct (PingStats.basic_report_ok stdev st1) as (loss & _ & Hrep).
    rewrite Htick, bind_Ok, Hrep, bind_Ok.
    destruct stop.
    + rewrite basic_loop_stopped by reflexivity.
      eexists. split; [reflexivity|]. split; [exact Hafter1|reflexivity].
    + destruct (IH (xs ++ [o]) st1 Hafter1) as (st' & Hloop & Hafter' & Hrun');
        [congruence|].
      exists st'. split; [exact Hloop|]. split; [|exact Hrun'].
      cbn [processed]. now rewrite <- app_assoc in Hafter'.
Qed.

Lemma poll_loop_after (hp : Z) (inputs : list (ping_outcome * bool)) :
  0 <= hp ->
  forall xs st,
    advanced_after hp xs st -> a_running st = true ->
    advanced_after hp (xs ++ processed inputs) (poll_loop inputs st) /\
    a_running (poll_loop inputs st) = negb (stop_requested inputs).
Proof.
  intros Hhp. induction inputs as [|[o stop] rest IH]; intros xs st Hafter Hrun.
  - cbn. rewrite app_nil_r. auto.
  - cbn [poll_loop]. rewrite Hrun.
    destruct (advanced_tick_after hp xs o st Hhp Hafter) as (Hafter1 & Hrun1).
    destruct stop.
    + rewrite poll_loop_stopped by reflexivity.
      split; [exact Hafter1|reflexivity].
    + destruct (IH (xs ++ [o]) (advanced_tick o st) Hafter1) as (Hafter' & Hrun');
        [congruence|].
      split; [|exact Hrun'].
      cbn [processed]. now rewrite <- app_assoc in Hafter'.
Qed.

Lemma basic_session_after (stdev : list Q -> Q) (hp : Z)
    (inputs : list (ping_outcome * bool)) :
  0 <= hp ->
  exists st,
    monitor_ping_basic stdev hp inputs = Ok st /\
    basic_after hp (processed inputs) st /\
    b_running st = negb (stop_requested inputs).
Proof.
  intros Hhp. unfold monitor_ping_basic, basic_init, deque_new.
  destruct (Z.ltb_spec hp 0); [lia|]. rewrite !bind_Ok.
  apply (basic_loop_after stdev hp inputs Hhp []); [|reflexivity].
  unfold basic_after, is_greatest_or_zero. cbn.
  repeat split; auto. apply Qle_refl.
Qed.

Lemma advanced_session_after (hp : Z) (inputs : list (ping_outcome * bool)) :
  0 <= hp ->
  exists st,
    monitor_ping_advanced hp inputs = Ok st /\
    advanced_after hp (processed inputs) st /\
    a_running st = negb (stop_requested inputs).
Proof.
  intros Hhp. unfold monitor_ping_advanced, advanced_init, deque_new.
  destruct (Z.ltb_spec hp 0); [lia|]. rewrite !bind_Ok.
  eexists. split; [reflexivity|].
  apply (poll_loop_after hp inputs Hhp []); [|reflexivity].
  unfold advanced_after, is_greatest_or_zero. cbn.
  repeat split; auto. apply Qle_refl.
Qed.

(** *** Properties of whole sessions *)

Lemma newest_fmap {A B} (f : A -> B) (m : Z) (l : list A) :
  newest m (f <$> l) = f <$> newest m l.
Proof. unfold newest. now rewrite length_fmap, fmap_drop. Qed.

(** X1: after a session of either monitor the latency history holds, in
    order, the entries of the newest [HISTORY_POINTS] probes handled (the
    latency of an answered probe, 0 for a failed one); older entries are
    gone, and [sent] counts the probes handled. *)
Theorem latency_history_newest (stdev : list Q -> Q) (hp : Z)
    (inputs : list (ping_outcome * bool)) :
  0 <= hp ->
  (exists st,
     monitor_ping_basic stdev hp inputs = Ok st /\
     b_sent st = len (processed inputs) /\
     items (b_history_latency st)
       = latency_entry <$> newest hp (processed inputs) /\
     len (items (b_history_latency st)) = Z.min (len (processed inputs)) hp) /\
  (exists st,
     monitor_ping_advanced hp inputs = Ok st /\
     a_sent st = len (processed inputs) /\
     items (a_history_latency st)
       = latency_entry <$> newest hp (processed inputs) /\
     len (items (a_history_latency st)) = Z.min (len (processed inputs)) hp).
Proof.
  intros Hhp. split.
  - destruct (basic_session_after stdev hp inputs Hhp)
      as (st & Hrun & (Hs & _ & _ & _ & Hh & _) & _).
    exists st. rewrite Hh. cbn [items]. rewrite newest_fmap.
    repeat split; try assumption.
    unfold len. rewrite length_fmap. apply (len_newest hp _ Hhp).
  - destruct (advanced_session_after hp inputs Hhp)
      as (st & Hrun & (Hs & _ & _ & _ & Hh & _) & _).
    exists st. rewrite Hh. cbn [items]. rewrite newest_fmap.
    repeat split; try assumption.
    unfold len. rewrite length_fmap. apply (len_newest hp _ Hhp).
Qed.

Lemma latency_history_newest_witness :
  let stdev := fun _ : list Q => 0%Q in
  ((exists st,
     monitor_ping_basic stdev 3 Spec.five_probes = Ok st /\
     b_sent st = len (processed Spec.five_probes) /\
     items (b_history_latency st)
       = latency_entry <$> newest 3 (processed Spec.five_probes) /\
     len (items (b_history_latency st))
       = Z.min (len (processed Spec.five_probes)) 3) /\
  (exists st,
     monitor_ping_advanced 3 Spec.five_probes = Ok st /\
     a_sent st = len (processed Spec.five_probes) /\
     items (a_history_latency st)
       = latency_entry <$> newest 3 (processed Spec.five_probes) /\
     len (items (a_history_latency st))
       = Z.min (len (processed Spec.five_probes)) 3)) /\
  latency_entry <$> newest 3 (processed Spec.five_probes) = [15; 0; 25]%Q.
Proof.
  intros stdev. split.
  - apply (latency_history_newest stdev 3 Spec.five_probes). lia.
  - reflexivity.
Defined.

Lemma basic_loop_cut (stdev : list Q -> Q)
    (pre : list (ping_outcome * bool)) (o : ping_outcome)
    (rest : list (ping_outcome * bool)) (st : basic) :
  stop_requested pre = false ->
  basic_loop stdev (pre ++ (o, true) :: rest) st
  = basic_loop stdev (pre ++ [(o, true)]) st.
Proof.
  revert st. induction pre as [|[o' stop'] pre IH]; intros st Hpre.
  - cbn [app basic_loop]. destruct (b_running st); [|reflexivity].
    destruct (basic_tick o st) as [st1|e]; [|reflexivity]. rewrite !bind_Ok.
    destruct (basic_report stdev st1) as [r|e]; [|reflexivity]. rewrite !bind_Ok.
    now rewrite basic_loop_stopped by reflexivity.
  - cbn in Hpre. apply orb_false_iff in Hpre as [-> Hpre].
    cbn [app basic_loop]. destruct (b_running st); [|reflexivity].
    destruct (basic_tick o' st) as [st1|e]; [|reflexivity]. rewrite !bind_Ok.
    destruct (basic_report stdev st1) as [r|e]; [|reflexivity]. rewrite !bind_Ok.
    now apply IH.
Qed.

Lemma poll_loop_cut (pre : list (ping_outcome * bool)) (o : ping_outcome)
    (rest : list (ping_outcome * bool)) (st : advanced) :
  stop_requested pre = false ->
  poll_loop (pre ++ (o, true) :: rest) st = poll_loop (pre ++ [(o, true)]) st.
Proof.
  revert st. induction pre as [|[o' stop'] pre IH]; intros st Hpre.
  - cbn [app poll_loop]. destruct (a_running st); [|reflexivity].
    now rewrite poll_loop_stopped by reflexivity.
  - cbn in Hpre. apply orb_false_iff in Hpre as [-> Hpre].
    cbn [app poll_loop]. destruct (a_running st); [|reflexivity].
    now apply IH.
Qed.

(** X2: a stop request ends the session: the probes listed after the
    iteration in which it arrives are never made, and the final state has
    its running flag down. *)
Theorem stop_request_ends_session (stdev : list Q -> Q) (hp : Z)
    (pre rest : list (ping_outcome * bool)) (o : ping_outcome) :
  0 <= hp -> stop_requested pre = false ->
  (exists st,
     monitor_ping_basic stdev hp (pre ++ (o, true) :: rest) = Ok st /\
     monitor_ping_basic stdev hp (pre ++ [(o, true)]) = Ok st /\
     b_sent st = len pre + 1 /\ b_running st = false) /\
  (exists st,
     monitor_ping_advanced hp (pre ++ (o, true) :: rest) = Ok st /\
     monitor_ping_advanced hp (pre ++ [(o, true)]) = Ok st /\
     a_sent st = len pre + 1 /\ a_running st = false).
Proof.
  intros Hhp Hpre.
  assert (Hproc : forall tail,
            processed (pre ++ (o, true) :: tail) = pre.*1 ++ [o]).
  { clear Hhp. induction pre as [|[o' stop'] pre IH]; intros tail; [reflexivity|].
    cbn in Hpre. apply orb_false_iff in Hpre as [-> Hpre].
    cbn. now rewrite IH. }
  assert (Hstop : forall tail,
            stop_requested (pre ++ (o, true) :: tail) = true).
  { intros tail. unfold stop_requested. rewrite existsb_app. cbn.
    now rewrite orb_true_r. }
  assert (Hlen : len (pre.*1 ++ [o]) = len pre + 1).
  { rewrite len_snoc. unfold len. now rewrite length_fmap. }
  split.
  - destruct (basic_session_after stdev hp (pre ++ (o, true) :: rest) Hhp)
      as (st & Hrun & Hafter & Hflag).
    destruct (basic_session_after stdev hp (pre ++ [(o, true)]) Hhp)
      as (st2 & Hrun2 & Hafter2 & Hflag2).
    rewrite Hproc in Hafter, Hafter2. rewrite Hstop in Hflag, Hflag2.
    exists st. split; [exact Hrun|]. split.
    + rewrite Hrun2. f_equal.
      destruct Hafter as (A1 & A2 & A3 & A4 & A5 & A6 & _).
      destruct Hafter2 as (B1 & B2 & B3 & B4 & B5 & B6 & _).
      revert Hrun Hrun2. unfold monitor_ping_basic, basic_init, deque_new.
      destruct (Z.ltb_spec hp 0); [lia|]. rewrite !bind_Ok.
      intros Hrun Hrun2.
      pose proof (basic_loop_cut stdev pre o rest
                    (mk_basic 0 0 0 Inf 0 0 [] (mk_deque hp []) (mk_deque hp []) true)
                    Hpre) as Hcut.
      congruence.
    + destruct Hafter as (A1 & _). cbn in Hflag. split; [lia|exact Hflag].
  - destruct (advanced_session_after hp (pre ++ (o, true) :: rest) Hhp)
      as (st & Hrun & Hafter & Hflag).
    rewrite Hproc in Hafter. rewrite Hstop in Hflag.
    exists st. split; [exact Hrun|]. split.
    + revert Hrun. unfold monitor_ping_advanced, advanced_init, deque_new.
      destruct (Z.ltb_spec hp 0); [lia|]. rewrite !bind_Ok.
      intros Hrun. rewrite <- Hrun. f_equal. symmetry.
      now apply poll_loop_cut.
    + destruct Hafter as (A1 & _). cbn in Hflag. split; [lia|exact Hflag].
Qed.

Lemma stop_request_ends_session_witness :
  let stdev := fun _ : list Q => 0%Q in
  let pre := [Spec.answered 10; Spec.timed_out] in
  let rest := [Spec.answered 20; Spec.answered 30] in
  (exists st,
     monitor_ping_basic stdev 66 (pre ++ (PingRaised, true) :: rest) = Ok st /\
     monitor_ping_basic stdev 66 (pre ++ [(PingRaised, true)]) = Ok st /\
     b_sent st = len pre + 1 /\ b_running st = false) /\
  (exists st,
     monitor_ping_advanced 66 (pre ++ (PingRaised, true) :: rest) = Ok st /\
     monitor_ping_advanced 66 (pre ++ [(PingRaised, true)]) = Ok st /\
     a_sent st = len pre + 1 /\ a_running st = false).
Proof.
  intros stdev pre rest.
  apply (stop_request_ends_session stdev 66 pre rest PingRaised).
  - lia.
  - reflexivity.
Defined.

(** *** Minimum, maximum and average *)

Lemma sum_bounds (l : list Q) (m M : Q) :
  Forall (fun v => (m <= v)%Q /\ (v <= M)%Q) l ->
  (inject_Z (len l) * m <= py_sum l)%Q /\ (py_sum l <= inject_Z (len l) * M)%Q.
Proof.
  intros H. rewrite WidthAxis.py_sum_foldr.
  induction H as [|v l [Hv1 Hv2] _ [IH1 IH2]].
  - change (inject_Z (len [])) with 0%Q. cbn [foldr]. split; lra.
  - replace (len (v :: l)) with (len l + 1) by (unfold len; cbn [length]; lia).
    rewrite inject_Z_plus. cbn [foldr].
    change (inject_Z 1) with 1%Q. split; lra.
Qed.

Lemma mean_bounds (l : list Q) (m M : Q) :
  l <> [] -> Forall (fun v => (m <= v)%Q /\ (v <= M)%Q) l ->
  (m <= py_sum l / inject_Z (len l))%Q /\ (py_sum l / inject_Z (len l) <= M)%Q.
Proof.
  intros Hne H. destruct (sum_bounds l m M H) as [H1 H2].
  assert (Hpos : (0 < inject_Z (len l))%Q).
  { change 0%Q with (inject_Z 0). rewrite <- Zlt_Qlt.
    destruct l; [contradiction|]. unfold len. cbn [length]. lia. }
  split.
  - apply Qle_shift_div_l; [exact Hpos|]. lra.
  - apply Qle_shift_div_r; [exact Hpos|]. lra.
Qed.

(** X3: after a session of [monitor_ping_basic], [latencies] lists the
    latencies of the answered probes in order.  Before the first answer
    [min] is infinite and [max] and [avg] are 0.  After it, [min] is the
    least answered latency, [max] bounds every answered latency (it is the
    greatest one, or the initial 0), [avg] is their arithmetic mean, and
    [min <= avg <= max]. *)
Theorem latency_statistics (stdev : list Q -> Q) (hp : Z)
    (inputs : list (ping_outcome * bool)) :
  0 <= hp ->
  exists st,
    monitor_ping_basic stdev hp inputs = Ok st /\
    b_latencies st = omap answered_latency (processed inputs) /\
    (b_latencies st = [] ->
       b_min st = Inf /\ b_max st = 0%Q /\ b_avg st = 0%Q) /\
    (b_latencies st <> [] ->
       exists m,
         b_min st = Fin m /\ m ∈ b_latencies st /\
         (b_max st = 0%Q \/ b_max st ∈ b_latencies st) /\
         Forall (fun v => (m <= v)%Q /\ (v <= b_max st)%Q) (b_latencies st) /\
         (b_avg st == Spec.arith_mean (b_latencies st))%Q /\
         (m <= b_avg st)%Q /\ (b_avg st <= b_max st)%Q).
Proof.
  intros Hhp.
  destruct (basic_session_after stdev hp inputs Hhp)
    as (st & Hrun & (_ & _ & _ & Hlat & _ & _ & Hmin & Hmax & Havg) & _).
  exists st. split; [exact Hrun|]. split; [exact Hlat|].
  rewrite <- Hlat in Hmin, Hmax, Havg.
  destruct Hmax as (G1 & G2 & G3). split.
  - intros E. rewrite E in *. destruct (b_min st) as [|q].
    + split; [reflexivity|]. split; [|exact Havg].
      destruct G1 as [G1|G1]; [exact G1|]. now apply elem_of_nil in G1.
    + destruct Hmin as [Hin _]. now apply elem_of_nil in Hin.
  - intros Hne. destruct (b_min st) as [|m]; [contradiction|].
    destruct Hmin as [Hin Hall]. exists m.
    assert (Hboth : Forall (fun v => (m <= v)%Q /\ (v <= b_max st)%Q)
                      (b_latencies st)).
    { rewrite Forall_forall in *. intros v Hv. split; auto. }
    assert (Havg' : b_avg st
                    = (py_sum (b_latencies st)
                       / inject_Z (len (b_latencies st)))%Q).
    { rewrite Havg. destruct (b_latencies st); [contradiction|reflexivity]. }
    destruct (mean_bounds (b_latencies st) m (b_max st) Hne Hboth) as [B1 B2].
    repeat split; try assumption.
    + rewrite Havg'. unfold Spec.arith_mean.
      now rewrite WidthAxis.py_sum_foldr.
    + now rewrite Havg'.
    + now rewrite Havg'.
Qed.

Lemma latency_statistics_witness :
  let stdev := fun _ : list Q => 0%Q in
  exists st,
    monitor_ping_basic stdev 66 Spec.five_probes = Ok st /\
    b_latencies st = omap answered_latency (processed Spec.five_probes) /\
    (b_latencies st = [] ->
       b_min st = Inf /\ b_max st = 0%Q /\ b_avg st = 0%Q) /\
    (b_latencies st <> [] ->
       exists m,
         b_min st = Fin m /\ m ∈ b_latencies st /\
         (b_max st = 0%Q \/ b_max st ∈ b_latencies st) /\
         Forall (fun v => (m <= v)%Q /\ (v <= b_max st)%Q) (b_latencies st) /\
         (b_avg st == Spec.arith_mean (b_latencies st))%Q /\
         (m <= b_avg st)%Q /\ (b_avg st <= b_max st)%Q).
Proof.
  intros stdev. apply (latency_statistics stdev 66 Spec.five_probes). lia.
Defined.

(** *** The two histories of [monitor_ping_basic] *)

Lemma ttl_entry_zero (o : ping_outcome) :
  (ttl_entry o = 0 <-> Spec.probe_failed o) /\ 0 <= ttl_entry o.
Proof.
  destruct (PingStats.classic_failed o) as [Hfail|(rtt & ttl & ->)].
  - assert (E : ttl_entry o = 0).
    { apply PingStats.probe_failed_cases in Hfail
        as [->|(rtt & ttl & ->)]; reflexivity. }
    rewrite E. split; [tauto|lia].
  - unfold Spec.probe_failed. cbn.
    destruct (Z.gtb_spec (default 0 ttl) 0); split; try lia;
      split; (lia || discriminate).
Qed.

(** X4: the latency history and the TTL history of [monitor_ping_basic]
    stay aligned: entry [k] of each comes from the same probe, one of the
    newest [HISTORY_POINTS] handled.  A TTL entry is 0 exactly when that
    probe failed; for an answered probe it is the TTL when positive and 64
    otherwise, so it is positive. *)
Theorem histories_aligned (stdev : list Q -> Q) (hp : Z)
    (inputs : list (ping_outcome * bool)) :
  0 <= hp ->
  exists st,
    monitor_ping_basic stdev hp inputs = Ok st /\
    items (b_history_latency st)
      = latency_entry <$> newest hp (processed inputs) /\
    items (b_history_ttl st) = ttl_entry <$> newest hp (processed inputs) /\
    len (items (b_history_ttl st)) = len (items (b_history_latency st)) /\
    forall k t, items (b_history_ttl st) !! k = Some t ->
      exists o,
        newest hp (processed inputs) !! k = Some o /\
        items (b_history_latency st) !! k = Some (latency_entry o) /\
        (t = 0 <-> Spec.probe_failed o) /\
        (~ Spec.probe_failed o -> 0 < t).
Proof.
  intros Hhp.
  destruct (basic_session_after stdev hp inputs Hhp)
    as (st & Hrun & (_ & _ & _ & _ & Hh & Ht & _) & _).
  exists st. rewrite Hh, Ht. cbn [items]. rewrite !newest_fmap.
  split; [exact Hrun|]. split; [reflexivity|]. split; [reflexivity|]. split.
  - unfold len. now rewrite !length_fmap.
  - intros k t Hk. rewrite list_lookup_fmap in Hk.
    destruct (newest hp (processed inputs) !! k) as [o|] eqn:Ho; [|discriminate].
    cbn in Hk. injection Hk as <-. exists o.
    split; [reflexivity|]. split.
    + now rewrite list_lookup_fmap, Ho.
    + destruct (ttl_entry_zero o) as [Hiff Hpos]. split; [exact Hiff|].
      intros Hnf. destruct (Z.eq_dec (ttl_entry o) 0) as [E|E]; [|lia].
      now apply Hiff in E.
Qed.

Lemma histories_aligned_witness :
  let stdev := fun _ : list Q => 0%Q in
  exists st,
    monitor_ping_basic stdev 3 Spec.five_probes = Ok st /\
    items (b_history_latency st)
      = latency_entry <$> newest 3 (processed Spec.five_probes) /\
    items (b_history_ttl st)
      = ttl_entry <$> newest 3 (processed Spec.five_probes) /\
    len (items (b_history_ttl st)) = len (items (b_history_latency st)) /\
    forall k t, items (b_history_ttl st) !! k = Some t ->
      exists o,
        newest 3 (processed Spec.five_probes) !! k = Some o /\
        items (b_history_latency st) !! k = Some (latency_entry o) /\
        (t = 0 <-> Spec.probe_failed o) /\
        (~ Spec.probe_failed o -> 0 < t).
Proof.
  intros stdev. apply (histories_aligned stdev 3 Spec.five_probes). lia.
Defined.

Lemma length_omap_le {A B} (f : A -> option B) (l : list A) :
  (length (omap f l) <= length l)%nat.
Proof.
  induction l as [|a l IH]; cbn; [lia|]. destruct (f a); cbn; lia.
Qed.

(** *** The loss rate *)

Lemma loss_of_counts (lost sent : Z) :
  0 <= lost <= sent -> 0 < sent ->
  exists loss,
    packet_loss lost sent = Ok loss /\
    (0 <= loss)%Q /\ (loss <= 100)%Q /\
    ((loss == 0)%Q <-> lost = 0) /\ ((loss == 100)%Q <-> lost = sent).
Proof.
  intros Hl Hs.
  destruct (PingStats.packet_loss_ok lost sent) as (loss & Hloss & Hpos & _).
  specialize (Hpos Hs). exists loss. split; [exact Hloss|].
  assert (Hs' : (0 < inject_Z sent)%Q).
  { change 0%Q with (inject_Z 0). now rewrite <- Zlt_Qlt. }
  assert (E : (loss * inject_Z sent == inject_Z (lost * 100))%Q).
  { rewrite Hpos, inject_Z_mult. change (inject_Z 100) with 100%Q.
    field. intros H0. rewrite H0 in Hs'. now apply Qlt_irrefl in Hs'. }
  assert (Hcancel : forall q z, (q * inject_Z sent == inject_Z z)%Q ->
                      (q == inject_Z z / inject_Z sent)%Q).
  { intros q z Hq. rewrite <- Hq. field.
    intros H0. rewrite H0 in Hs'. now apply Qlt_irrefl in Hs'. }
  pose proof (Hcancel loss _ E) as Hval.
  split; [|split; [|split]].
  - rewrite Hval. apply Qle_shift_div_l; [exact Hs'|].
    rewrite Qmult_0_l. change 0%Q with (inject_Z 0). rewrite <- Zle_Qle. lia.
  - rewrite Hval. apply Qle_shift_div_r; [exact Hs'|].
    change 100%Q with (inject_Z 100). rewrite <- inject_Z_mult, <- Zle_Qle. lia.
  - split.
    + intros H0. rewrite H0, Qmult_0_l in E.
      unfold Qeq in E. cbn in E. lia.
    + intros ->. rewrite Hval. cbn. reflexivity.
  - split.
    + intros H100. rewrite H100 in E.
      change 100%Q with (inject_Z 100) in E. rewrite <- inject_Z_mult in E.
      unfold Qeq in E. cbn in E. lia.
    + intros ->. rewrite Hval, inject_Z_mult.
      change (inject_Z 100) with 100%Q. field.
      intros H0. rewrite H0 in Hs'. now apply Qlt_irrefl in Hs'.
Qed.

(** X5: in every session of either monitor with at least one probe
    handled, the loss percentage of the display lies between 0 and 100; it
    is 0 exactly when no probe was lost and 100 exactly when none was
    answered. *)
Theorem loss_rate_bounds (stdev : list Q -> Q) (hp : Z)
    (inputs : list (ping_outcome * bool)) :
  0 <= hp -> inputs <> [] ->
  (exists st loss,
     monitor_ping_basic stdev hp inputs = Ok st /\
     packet_loss (b_lost st) (b_sent st) = Ok loss /\
     (0 <= loss)%Q /\ (loss <= 100)%Q /\
     ((loss == 0)%Q <-> b_lost st = 0) /\
     ((loss == 100)%Q <-> b_received st = 0)) /\
  (exists st loss,
     monitor_ping_advanced hp inputs = Ok st /\
     packet_loss (a_lost st) (a_sent st) = Ok loss /\
     (0 <= loss)%Q /\ (loss <= 100)%Q /\
     ((loss == 0)%Q <-> a_lost st = 0) /\
     ((loss == 100)%Q <-> a_received st = 0)).
Proof.
  intros Hhp Hne.
  assert (Hproc : 0 < len (processed inputs)).
  { destruct inputs as [|[o stop] rest]; [contradiction|].
    unfold len. cbn [processed length]. lia. }
  split.
  - destruct (basic_session_after stdev hp inputs Hhp)
      as (st & Hrun & (Hs & Hr & Hl & _) & _).
    pose proof (len_nonneg (omap answered_latency (processed inputs))) as H0.
    assert (Hle : len (omap answered_latency (processed inputs))
                  <= len (processed inputs)).
    { unfold len. apply inj_le, length_omap_le. }
    destruct (loss_of_counts (b_lost st) (b_sent st))
      as (loss & Hloss & B1 & B2 & B3 & B4); [lia|lia|].
    exists st, loss. repeat split; try assumption; try tauto.
    + intros H. apply B4 in H. lia.
    + intros H. apply B4. lia.
  - destruct (advanced_session_after hp inputs Hhp)
      as (st & Hrun & (Hs & Hr & Hl & _) & _).
    pose proof (len_nonneg (omap answered_latency (processed inputs))) as H0.
    assert (Hle : len (omap answered_latency (processed inputs))
                  <= len (processed inputs)).
    { unfold len. apply inj_le, length_omap_le. }
    destruct (loss_of_counts (a_lost st) (a_sent st))
      as (loss & Hloss & B1 & B2 & B3 & B4); [lia|lia|].
    exists st, loss. repeat split; try assumption; try tauto.
    + intros H. apply B4 in H. lia.
    + intros H. apply B4. lia.
Qed.

Lemma loss_rate_bounds_witness :
  let stdev := fun _ : list Q => 0%Q in
  (exists st loss,
     monitor_ping_basic stdev 66 Spec.five_probes = Ok st /\
     packet_loss (b_lost st) (b_sent st) = Ok loss /\
     (0 <= loss)%Q /\ (loss <= 100)%Q /\
     ((loss == 0)%Q <-> b_lost st = 0) /\
     ((loss == 100)%Q <-> b_received st = 0)) /\
  (exists st loss,
     monitor_ping_advanced 66 Spec.five_probes = Ok st /\
     packet_loss (a_lost st) (a_sent st) = Ok loss /\
     (0 <= loss)%Q /\ (loss <= 100)%Q /\
     ((loss == 0)%Q <-> a_lost st = 0) /\
     ((loss == 100)%Q <-> a_received st = 0)).
Proof.
  intros stdev. apply (loss_rate_bounds stdev 66 Spec.five_probes).
  - lia.
  - discriminate.
Defined.

(** *** The two monitors side by side *)

Lemma tick_same (o : ping_outcome) (sb : basic) (sa : advanced) :
  same_stats sb sa ->
  exists sb', basic_tick o sb = Ok sb' /\ same_stats sb' (advanced_tick o sa).
Proof.
  intros (E1 & E2 & E3 & E4 & E5 & E6 & E7 & E8).
  destruct (PingStats.classic_failed o) as [Hfail|(rtt & ttl & ->)].
  - rewrite (PingStats.basic_tick_failed o sb Hfail),
            (PingStats.advanced_tick_failed o sa Hfail).
    eexists. split; [reflexivity|]. unfold same_stats. cbn.
    rewrite E1, E2, E3, E4, E5, E6, E7, E8. repeat split; reflexivity.
  - rewrite basic_tick_answered.
    eexists. split; [reflexivity|]. unfold same_stats, advanced_tick. cbn.
    rewrite E1, E2, E3, E4, E5, E6, E7, E8. repeat split; reflexivity.
Qed.

Lemma loop_same (stdev : list Q -> Q) (inputs : list (ping_outcome * bool)) :
  forall sb sa, same_stats sb sa ->
  exists sb',
    basic_loop stdev inputs sb = Ok sb' /\ same_stats sb' (poll_loop inputs sa).
Proof.
  induction inputs as [|[o stop] rest IH]; intros sb sa Hsame.
  - exists sb. split; [reflexivity|exact Hsame].
  - cbn [basic_loop poll_loop].
    assert (Hrun : b_running sb = a_running sa) by apply Hsame.
    rewrite <- Hrun. destruct (b_running sb); [|eauto].
    destruct (tick_same o sb sa Hsame) as (sb1 & Htick & Hsame1).
    destruct (PingStats.basic_report_ok stdev sb1) as (loss & _ & Hrep).
    rewrite Htick, bind_Ok, Hrep, bind_Ok.
    apply IH. destruct stop; [|exact Hsame1].
    destruct Hsame1 as (E1 & E2 & E3 & E4 & E5 & E6 & E7 & E8).
    unfold same_stats. cbn. repeat split; assumption.
Qed.

(** X6: from the same probes and stop requests, [monitor_ping_basic] and
    [monitor_ping_advanced] end with the same counters, minimum, maximum,
    latency list, latency history and running flag. *)
Theorem monitors_agree (stdev : list Q -> Q) (hp : Z)
    (inputs : list (ping_outcome * bool)) :
  0 <= hp ->
  exists sb sa,
    monitor_ping_basic stdev hp inputs = Ok sb /\
    monitor_ping_advanced hp inputs = Ok sa /\
    same_stats sb sa.
Proof.
  intros Hhp. unfold monitor_ping_basic, monitor_ping_advanced,
    basic_init, advanced_init, deque_new.
  destruct (Z.ltb_spec hp 0); [lia|]. rewrite !bind_Ok.
  destruct (loop_same stdev inputs
              (mk_basic 0 0 0 Inf 0 0 [] (mk_deque hp []) (mk_deque hp []) true)
              (mk_advanced 0 0 0 Inf 0 [] (mk_deque hp []) true))
    as (sb & Hloop & Hsame).
  { unfold same_stats. cbn. repeat split; reflexivity. }
  exists sb. eexists. split; [exact Hloop|]. split; [reflexivity|exact Hsame].
Qed.

Lemma monitors_agree_witness :
  let stdev := fun _ : list Q => 0%Q in
  exists sb sa,
    monitor_ping_basic stdev 66 Spec.five_probes_two_lost = Ok sb /\
    monitor_ping_advanced 66 Spec.five_probes_two_lost = Ok sa /\
    same_stats sb sa.
Proof.
  intros stdev. apply (monitors_agree stdev 66 Spec.five_probes_two_lost). lia.
Defined.

(** *** The chart of the display *)

(** X7: the display of [monitor_ping_advanced] shows the placeholder
    instead of a chart exactly when fewer than two probes have been handled
    or the history holds fewer than two entries ([HISTORY_POINTS < 2], a
    terminal of 15 columns or fewer); otherwise it shows what the plot
    gives, or its error. *)
Theorem chart_needs_two_entries
    (plot : list Q -> Z -> Z -> py_result string) (chart_height width hp : Z)
    (inputs : list (ping_outcome * bool)) :
  0 <= hp ->
  exists st,
    monitor_ping_advanced hp inputs = Ok st /\
    (advanced_chart plot chart_height width st = Collecting <->
       len (processed inputs) < 2 \/ hp < 2).
Proof.
  intros Hhp.
  destruct (advanced_session_after hp inputs Hhp)
    as (st & Hrun & (_ & _ & _ & _ & Hh & _) & _).
  exists st. split; [exact Hrun|]. unfold advanced_chart.
  rewrite Hh. cbn [items]. rewrite (len_newest hp _ Hhp).
  unfold len at 1. rewrite length_fmap. fold (len (processed inputs)).
  destruct (Z.gtb_spec (Z.min (len (processed inputs)) hp) 1) as [Hgt|Hle].
  - split; [|lia]. destruct (plot _ _ _); discriminate.
  - split; [lia|reflexivity].
Qed.

Lemma chart_needs_two_entries_witness :
  let plot := fun (_ : list Q) (_ _ : Z) => Ok EmptyString in
  exists st,
    monitor_ping_advanced 1 Spec.five_probes = Ok st /\
    (advanced_chart plot 15 76 st = Collecting <->
       len (processed Spec.five_probes) < 2 \/ 1 < 2).
Proof.
  intros plot. apply (chart_needs_two_entries plot 15 76 1 Spec.five_probes).
  lia.
Defined.

End PingTrace.

(** ** bandwidth.py: more of [render_chart_precise] *)

Module RenderEdges.

Import Bandwidth.

(** *** The buckets tile the series *)






(** *** Shape of the grid; degenerate width and height *)

(** X9: for a non-empty series, [width >= 1] and [height >= 1] the renderer
    raises nothing; the grid has exactly [height] rows of [width] cells,
    and every column holds exactly one filled cell, the rest blank. *)
Theorem one_block_per_column (series : list Q) (width height : Z) :
  series <> [] -> 1 <= width -> 1 <= height ->
  exists rows,
    render_rows series width height = Ok rows /\
    render_chart_precise series width height = Ok (rows_to_string rows) /\
    len rows = height /\
    Spec.rows_of_width width rows /\
    forall x, Z.of_nat x < width ->
      exists y,
        Z.of_nat y < height /\
        Spec.cell rows y x = Some block /\
        forall r, Z.of_nat r < height -> r <> y ->
          Spec.cell rows r x = Some blank.
Proof.
  intros Hne Hw Hh.
  destruct (WidthAxis.normalize_width_shape series width Hne Hw)
    as (data & Hnorm & Hlen & _).
  assert (Hdata : data <> []).
  { intros ->. unfold len in Hlen. cbn in Hlen. lia. }
  destruct (HeightAxis.height_scale_spec data Hdata)
    as (lo & hi & span & _ & _ & Hscale & _ & Hpos & _ & _ & Hall).
  destruct (HeightAxis.render_rows_cells series data width height lo span)
    as (rows & Hrows & Hrh & Hrw & Hcell); try assumption.
  exists rows. split; [exact Hrows|].
  split; [now apply HeightAxis.render_chart_of_rows|].
  split; [exact Hrh|]. split; [exact Hrw|].
  intros x Hx.
  destruct (Hcell 0%nat x ltac:(lia) Hx) as (v & Hv & _).
  rewrite Forall_lookup in Hall. destruct (Hall x v Hv) as [Hv1 Hv2].
  pose proof (HeightAxis.floored_row_range lo span v height Hpos Hv1 Hv2 Hh)
    as Hrange.
  exists (Z.to_nat (Spec.floored_row lo span height v)).
  split; [lia|]. split.
  - destruct (Hcell (Z.to_nat (Spec.floored_row lo span height v)) x
                ltac:(lia) Hx) as (v' & Hv' & ->).
    assert (v' = v) by congruence. subst v'.
    destruct (decide _) as [_|Hn]; [reflexivity|lia].
  - intros r Hr Hneq. destruct (Hcell r x Hr Hx) as (v' & Hv' & ->).
    assert (v' = v) by congruence. subst v'.
    destruct (decide _) as [E|_]; [lia|reflexivity].
Qed.

Lemma one_block_per_column_witness :
  exists rows,
    render_rows [2; 9; 4; 4; 7]%Q 3 4 = Ok rows /\
    render_chart_precise [2; 9; 4; 4; 7]%Q 3 4 = Ok (rows_to_string rows) /\
    len rows = 4 /\
    Spec.rows_of_width 3 rows /\
    forall x, Z.of_nat x < 3 ->
      exists y,
        Z.of_nat y < 4 /\
        Spec.cell rows y x = Some block /\
        forall r, Z.of_nat r < 4 -> r <> y ->
          Spec.cell rows r x = Some blank.
Proof.
  apply (one_block_per_column [2; 9; 4; 4; 7]%Q 3 4); [discriminate|lia|lia].
Defined.

Lemma py_getitem_nil {A} (i : Z) : py_getitem (@nil A) i = Raise IndexError.
Proof.
  unfold py_getitem, py_index. change (len (@nil A)) with 0.
  destruct (Z.leb_spec 0 i), (Z.ltb_spec i 0), (Z.leb_spec (- 0) i);
    cbn; try reflexivity; lia.
Qed.

(** X10: with a non-empty series and [width >= 1], a [height] of 0 or less
    makes the renderer raise [IndexError]: the grid has no row to hold the
    first column. *)
Theorem no_rows_index_error (series : list Q) (width height : Z) :
  series <> [] -> 1 <= width -> height <= 0 ->
  render_chart_precise series width height = Raise IndexError.
Proof.
  intros Hne Hw Hh.
  destruct (WidthAxis.normalize_width_shape series width Hne Hw)
    as (data & Hnorm & Hlen & _).
  assert (Hdata : data <> []).
  { intros ->. unfold len in Hlen. cbn in Hlen. lia. }
  destruct (HeightAxis.height_scale_spec data Hdata)
    as (lo & hi & span & _ & _ & Hscale & _ & Hpos & _).
  unfold render_chart_precise. destruct series as [|s0 series']; [contradiction|].
  unfold render_rows. rewrite Hnorm, bind_Ok, Hscale, bind_Ok.
  destruct data as [|v rest]; [contradiction|].
  assert (Hblank : blank_rows width height = []).
  { unfold blank_rows, py_range. now rewrite (seqZ_nil 0 height Hh). }
  rewrite Hblank. cbn [plot]. unfold column_row.
  rewrite py_div_ok by (intros E; rewrite E in Hpos; now apply Qlt_irrefl in Hpos).
  rewrite !bind_Ok. unfold set_cell. now rewrite py_getitem_nil.
Qed.

Lemma no_rows_index_error_witness :
  render_chart_precise [1; 2; 3]%Q 3 0 = Raise IndexError.
Proof.
  apply (no_rows_index_error [1; 2; 3]%Q 3 0); [discriminate|lia|lia].
Defined.

(** X11: with a non-empty series and a [width] of 0 or less every sample
    is discarded and nothing raises, whatever the height: the rows are
    [height] empty rows (none when [height <= 0]). *)
Theorem no_columns_empty_rows (series : list Q) (width height : Z) :
  series <> [] -> width <= 0 ->
  render_rows series width height = Ok (replicate (Z.to_nat height) []) /\
  render_chart_precise series width height
  = Ok (rows_to_string (replicate (Z.to_nat height) [])).
Proof.
  intros Hne Hw.
  assert (Hrows : render_rows series width height
                  = Ok (replicate (Z.to_nat height) [])).
  { unfold render_rows.
    rewrite WidthAxis.normalize_width_dup by exact Hne. cbv zeta.
    destruct (WidthAxis.dup_lone_shape series Hne) as [Hlen _].
    destruct (Z.gtb_spec (len (Spec.dup_lone series)) width); [|lia].
    unfold compress, py_range. rewrite (seqZ_nil 0 width Hw).
    cbn [py_for]. rewrite bind_Ok. cbn [height_scale]. rewrite bind_Ok.
    cbn [plot]. f_equal. unfold blank_rows, py_range.
    rewrite (seqZ_nil 0 width Hw).
    rewrite (const_fmap _ (seqZ 0 height) []) by reflexivity.
    now rewrite length_seqZ. }
  split; [exact Hrows|]. now apply HeightAxis.render_chart_of_rows.
Qed.

Lemma no_columns_empty_rows_witness :
  render_rows [1; 2; 3]%Q 0 2 = Ok (replicate (Z.to_nat 2) []) /\
  render_chart_precise [1; 2; 3]%Q 0 2
  = Ok (rows_to_string (replicate (Z.to_nat 2) [])).
Proof.
  apply (no_columns_empty_rows [1; 2; 3]%Q 0 2); [discriminate|lia].
Defined.

(** *** Order on the height axis *)

(** X12: on one scale ([span > 0], [height >= 1]) a larger value is never
    drawn lower than a smaller one: if [lo <= v1 <= v2] then the row index
    of [v2] is at most that of [v1]. *)
Theorem larger_value_not_lower (lo span v1 v2 : Q) (height y1 y2 : Z) :
  (0 < span)%Q -> 1 <= height -> (lo <= v1)%Q -> (v1 <= v2)%Q ->
  column_row lo span height v1 = Ok y1 ->
  column_row lo span height v2 = Ok y2 ->
  y2 <= y1.
Proof.
  intros Hs Hh Hlo Hv H1 H2. unfold column_row in H1, H2.
  assert (Hnz : ~ (span == 0)%Q).
  { intros E. rewrite E in Hs. now apply Qlt_irrefl in Hs. }
  rewrite py_div_ok, bind_Ok in H1, H2 by exact Hnz.
  injection H1 as <-. injection H2 as <-.
  assert (Hh' : (0 <= inject_Z (height - 1))%Q).
  { change 0%Q with (inject_Z 0). rewrite <- Zle_Qle. lia. }
  assert (Hq1 : (0 <= (v1 - lo) / span)%Q).
  { apply Qle_shift_div_l; [exact Hs|]. lra. }
  assert (Hq : ((v1 - lo) / span <= (v2 - lo) / span)%Q).
  { apply Qmult_le_compat_r; [lra|]. apply Qlt_le_weak, Qinv_lt_0_compat, Hs. }
  assert (Hm : ((v1 - lo) / span * inject_Z (height - 1)
                <= (v2 - lo) / span * inject_Z (height - 1))%Q).
  { now apply Qmult_le_compat_r. }
  assert (H0 : (0 <= (v1 - lo) / span * inject_Z (height - 1))%Q).
  { now apply Qmult_le_0_compat. }
  rewrite !py_int_nonneg by lra.
  apply Qfloor_resp_le in Hm. lia.
Qed.

Lemma larger_value_not_lower_witness :
  column_row 0 10 4 4 = Ok 2 /\ column_row 0 10 4 9 = Ok 1 /\ 1 <= 2.
Proof.
  split; [reflexivity|]. split; [reflexivity|].
  apply (larger_value_not_lower 0 10 4 9 4 2 1);
    try reflexivity; try lia; discriminate.
Defined.

End RenderEdges.

(** ** bandwidth.py: widths and interfaces *)

Module CliFacts.

Import Bandwidth BandwidthCli.

(** X13: the chart width of [_final_width] is at least 10 and at most
    [max(10, w - 4)] for a terminal of [w] columns; a requested width
    between 10 and [w - 4] is kept, 0 means [max(10, w - 4)], and a negative
    one gives 10.  The width of the basic monitors is the same when the
    request is between 10 and [w - 4], or is 0 on a terminal of 14 columns
    or more. *)
Theorem final_width_bounds (chart_width w : Z) :
  10 <= final_width chart_width w <= Z.max 10 (w - 4) /\
  (10 <= chart_width <= w - 4 -> final_width chart_width w = chart_width) /\
  (chart_width = 0 -> final_width chart_width w = Z.max 10 (w - 4)) /\
  (chart_width < 0 -> final_width chart_width w = 10) /\
  (10 <= chart_width <= w - 4 \/ chart_width = 0 /\ 14 <= w ->
   original_width chart_width w = final_width chart_width w).
Proof.
  unfold final_width, original_width.
  destruct (Z.eqb_spec chart_width 0), (Z.gtb_spec chart_width 0); lia.
Qed.

(** *** [select_interface] *)

Lemma py_max_by_first_greatest {A} (key : A -> Z) (l : list A) :
  forall pre best mid,
    Forall (fun c => key c < key best) pre ->
    Forall (fun c => key c <= key best) mid ->
    exists pre' post',
      pre ++ best :: mid ++ l = pre' ++ py_max_by key best l :: post' /\
      Forall (fun c => key c < key (py_max_by key best l)) pre' /\
      Forall (fun c => key c <= key (py_max_by key best l)) post'.
Proof.
  induction l as [|x l IH]; intros pre best mid Hpre Hmid.
  - exists pre, mid. rewrite app_nil_r. auto.
  - cbn [py_max_by]. destruct (Z.ltb_spec (key best) (key x)) as [Hlt|Hge].
    + destruct (IH (pre ++ best :: mid) x []) as (pre' & post' & E & H1 & H2).
      * apply Forall_app. split.
        -- eapply Forall_impl; [exact Hpre|]. cbn. intros; lia.
        -- constructor; [exact Hlt|].
           eapply Forall_impl; [exact Hmid|]. cbn. intros; lia.
      * constructor.
      * exists pre', post'. split; [|auto].
        rewrite <- E. cbn [app]. now rewrite <- !app_assoc.
    + destruct (IH pre best (mid ++ [x])) as (pre' & post' & E & H1 & H2).
      * exact Hpre.
      * apply Forall_app. split; [exact Hmid|]. now repeat constructor.
      * exists pre', post'. split; [|auto].
        rewrite <- E. now rewrite <- app_assoc.
Qed.

(** X14: [select_interface] raises [RuntimeError] on an empty table;
    otherwise it returns the name of an entry of the table whose traffic
    [bytes_recv + bytes_sent] is greatest, the first such entry: every
    entry before it has strictly less traffic. *)
Theorem select_interface_first_greatest (candidates : list (string * (Z * Z))) :
  (candidates = [] -> select_interface candidates = Raises RuntimeError) /\
  (candidates <> [] ->
   exists pre item post,
     candidates = pre ++ item :: post /\
     select_interface candidates = Return (fst item) /\
     Forall (fun c => traffic c < traffic item) pre /\
     Forall (fun c => traffic c <= traffic item) post).
Proof.
  split; [now intros ->|].
  intros Hne. destruct candidates as [|c cs]; [contradiction|].
  destruct (py_max_by_first_greatest traffic cs [] c [])
    as (pre & post & E & H1 & H2); [constructor ..|].
  exists pre, (py_max_by traffic c cs), post. cbn [app] in E.
  split; [exact E|]. split; [reflexivity|]. split; assumption.
Qed.

(** *** [colorize_chart_rich] *)

Lemma ul_chars_spec (ch : N) :
  ch ∈ ul_chars <-> ch ∈ [0x253C; 0x2518; 0x2510; 0x252C; 0x2534; 0x2500]%N.
Proof. unfold ul_chars. apply elem_of_list_to_set. Qed.

Lemma dl_only_spec (ch : N) :
  ch ∉ ul_chars -> (ch ∈ dl_chars <-> ch ∈ [0x2524; 0x2502]%N).
Proof.
  rewrite ul_chars_spec. unfold dl_chars. rewrite elem_of_list_to_set.
  rewrite !elem_of_cons, !elem_of_nil. intros Hn. split.
  - intros [->|[->|H]]; [tauto|tauto|]. exfalso. apply Hn. tauto.
  - tauto.
Qed.

(** X15: [colorize_chart_rich] keeps the characters of the chart, in
    order; the six characters of the upload set get the upload colour,
    also the five that are in the download set as well, so the download
    colour goes to U+2524 and U+2502 only, and every other character is
    left unstyled. *)
Theorem colorize_text_and_priority (chart_raw : list N)
    (dl_color ul_color : string) :
  (colorize_chart_rich chart_raw dl_color ul_color).*1 = chart_raw /\
  forall k ch style,
    colorize_chart_rich chart_raw dl_color ul_color !! k = Some (ch, style) ->
    chart_raw !! k = Some ch /\
    style =
      if bool_decide (ch ∈ [0x253C; 0x2518; 0x2510; 0x252C; 0x2534; 0x2500]%N)
      then Some ul_color
      else if bool_decide (ch ∈ [0x2524; 0x2502]%N) then Some dl_color
      else None.
Proof.
  unfold colorize_chart_rich. split.
  - rewrite <- list_fmap_compose. rewrite <- (list_fmap_id chart_raw) at 2.
    apply list_fmap_ext. intros k ch _. cbn.
    destruct (bool_decide _); [reflexivity|]. now destruct (bool_decide _).
  - intros k ch style Hk. rewrite list_lookup_fmap in Hk.
    destruct (chart_raw !! k) as [c|]; [|discriminate].
    cbv [fmap option_fmap option_map] in Hk. injection Hk as Hk.
    destruct (bool_decide (c ∈ ul_chars)) eqn:Eul.
    + simplify_eq. split; [reflexivity|].
      apply bool_decide_eq_true in Eul. apply ul_chars_spec in Eul.
      now rewrite bool_decide_eq_true_2.
    + apply bool_decide_eq_false in Eul.
      pose proof (dl_only_spec c Eul) as Hdl.
      rewrite ul_chars_spec in Eul.
      destruct (bool_decide (c ∈ dl_chars)) eqn:Edl; simplify_eq;
        (split; [reflexivity|]); rewrite (bool_decide_eq_false_2 _ Eul).
      * apply bool_decide_eq_true in Edl. apply Hdl in Edl.
        now rewrite bool_decide_eq_true_2.
      * apply bool_decide_eq_false in Edl.
        rewrite bool_decide_eq_false_2; [reflexivity|]. now rewrite <- Hdl.
Qed.

(** *** [resolve_interface] *)

Lemma choose_member (matches : list string) (choice : typed_choice)
    (name : string) :
  choose matches choice = Return name -> name ∈ matches.
Proof.
  unfold choose. destruct choice as [|k|]; try discriminate.
  destruct ((1 <=? k) && (k <=? len matches)); [|discriminate].
  destruct (matches !! Z.to_nat (k - 1)) as [n|] eqn:E; [|discriminate].
  intros [= <-]. eapply list_elem_of_lookup_2, E.
Qed.

Lemma filter_member (f : string -> bool) (l : list string) (name : string) :
  name ∈ List.filter f l -> name ∈ l /\ f name = true.
Proof.
  rewrite !list_elem_of_In. apply List.filter_In.
Qed.

Lemma picked_from_filter (f : string -> bool) (l : list string)
    (choice : typed_choice) (name : string) :
  match List.filter f l with
  | [n] => Return n
  | (_ :: _ :: _) as matches => choose matches choice
  | [] => Raises SystemExit
  end = Return name ->
  name ∈ l /\ f name = true.
Proof.
  destruct (List.filter f l) as [|a [|b m]] eqn:E; [intros H; discriminate H| |].
  - intros [= <-]. apply filter_member. rewrite E. left.
  - intros H. apply choose_member in H. apply filter_member. now rewrite E.
Qed.

(** X16: [resolve_interface] returns the pattern itself whenever it is the
    name of an interface, without matching or asking.  Whatever it returns
    is an interface of the list, and is the pattern itself, or matches it
    as a glob, or (only when no interface matches as a glob) is found by the
    pattern as a regular expression; when nothing matches it exits. *)
Theorem resolve_interface_listed
    (fnmatch : string -> string -> bool)
    (regex : string -> option (string -> bool))
    (interfaces : list string) (pattern : string) (choice : typed_choice) :
  (pattern ∈ interfaces ->
   resolve_interface fnmatch regex interfaces pattern choice = Return pattern) /\
  (forall name,
     resolve_interface fnmatch regex interfaces pattern choice = Return name ->
     name ∈ interfaces /\
     (name = pattern \/ fnmatch name pattern = true \/
      List.filter (fun i => fnmatch i pattern) interfaces = [] /\
      exists search, regex pattern = Some search /\ search name = true)) /\
  (pattern ∉ interfaces ->
   List.filter (fun i => fnmatch i pattern) interfaces = [] ->
   (forall search, regex pattern = Some search ->
      List.filter search interfaces = []) ->
   resolve_interface fnmatch regex interfaces pattern choice
   = Raises SystemExit).
Proof.
  unfold resolve_interface. split; [|split].
  - intros H. now rewrite bool_decide_eq_true_2.
  - intros name. destruct (bool_decide (pattern ∈ interfaces)) eqn:Ein.
    + intros [= <-]. apply bool_decide_eq_true in Ein. auto.
    + destruct (List.filter (fun i => fnmatch i pattern) interfaces)
        as [|a [|b m]] eqn:E.
      * destruct (regex pattern) as [search|]; [|discriminate].
        intros H. apply picked_from_filter in H as [H1 H2].
        split; [exact H1|]. right. right. eauto.
      * intros [= <-].
        assert (Ha : a ∈ List.filter (fun i => fnmatch i pattern) interfaces)
          by (rewrite E; left).
        apply filter_member in Ha as [H1 H2]. auto.
      * intros H. apply choose_member in H. rewrite <- E in H.
        apply filter_member in H as [H1 H2]. auto.
  - intros Hn Hglob Hre. rewrite bool_decide_eq_false_2 by exact Hn.
    rewrite Hglob. destruct (regex pattern) as [search|] eqn:E; [|reflexivity].
    now rewrite (Hre search eq_refl).
Qed.

End CliFacts.

(** ** bandwidth.py: the monitor loops *)

Module BandwidthLoops.

Import Bandwidth BandwidthCli.

Lemma rate_nonneg (cur prev : Z) :
  0 <= cur -> 0 <= prev ->
  (0 <= inject_Z (safe_diff cur prev) / 1)%Q.
Proof.
  intros Hc Hp. apply Qle_shift_div_l; [reflexivity|]. rewrite Qmult_0_l.
  change 0%Q with (inject_Z 0). rewrite <- Zle_Qle.
  now apply CounterDelta.safe_diff_nonneg.
Qed.

Lemma Forall_deque_append {A} (P : A -> Prop) (d : Pingmon.deque A) (x : A) :
  Forall P (Pingmon.items d) -> P x ->
  Forall P (Pingmon.items (Pingmon.deque_append d x)).
Proof.
  intros Hd Hx. unfold Pingmon.deque_append. cbn [Pingmon.items].
  assert (H : Forall P (Pingmon.items d ++ [x])).
  { apply Forall_app. split; [exact Hd|]. now repeat constructor. }
  destruct (_ <? _); [now apply Forall_drop|exact H].
Qed.

Lemma bw_poll_inv (interface : string) (counters : gmap string (Z * Z))
    (st : bw_state) :
  readings_nonneg interface counters -> bw_inv st ->
  bw_inv (bw_poll interface counters st).
Proof.
  intros Hnn (P1 & P2 & M1 & M2 & Hlen & Hcap & F1 & F2). unfold bw_poll.
  destruct (counters !! interface) as [[r s]|] eqn:E.
  - destruct (Hnn r s E) as [Hr Hs]. rewrite CounterDelta.poll_rates_ok.
    unfold bw_inv. cbn [bw_prev bw_history_dl bw_history_ul fst snd].
    rewrite !PingStats.deque_append_maxlen.
    rewrite !PingStats.deque_append_len by lia.
    repeat split; try assumption; try lia.
    + apply Forall_deque_append; [exact F1|]. now apply rate_nonneg.
    + apply Forall_deque_append; [exact F2|]. now apply rate_nonneg.
  - unfold bw_inv. cbn. repeat split; assumption.
Qed.

Lemma bw_poll_loop_stopped (interface : string)
    (inputs : list (gmap string (Z * Z) * bool)) (st : bw_state) :
  bw_running st = false -> bw_poll_loop interface inputs st = st.
Proof.
  intros H. destruct inputs as [|[c stop] rest]; [reflexivity|].
  cbn [bw_poll_loop]. now rewrite H.
Qed.

Lemma bw_poll_loop_inv (interface : string)
    (inputs : list (gmap string (Z * Z) * bool)) :
  Forall (fun i => readings_nonneg interface (fst i)) inputs ->
  forall st, bw_inv st -> bw_inv (bw_poll_loop interface inputs st).
Proof.
  induction 1 as [|[c stop] rest Hc _ IH]; intros st Hinv; [exact Hinv|].
  cbn [bw_poll_loop]. destruct (bw_running st); [|exact Hinv].
  apply IH. pose proof (bw_poll_inv interface c st Hc Hinv) as H1.
  destruct stop; exact H1.
Qed.

(** X17: in [monitor_bandwidth], as long as the readings of the interface
    are not negative, the download and upload histories always have the
    same length, never more than [HISTORY_POINTS = 120] entries, and never
    hold a negative rate, whatever counter resets occur. *)
Theorem bandwidth_histories (interface : string)
    (first : gmap string (Z * Z))
    (inputs : list (gmap string (Z * Z) * bool)) (st0 : bw_state) :
  bw_init interface first = Return st0 ->
  readings_nonneg interface first ->
  Forall (fun i => readings_nonneg interface (fst i)) inputs ->
  let st := bw_poll_loop interface inputs st0 in
  len (Pingmon.items (bw_history_dl st)) = len (Pingmon.items (bw_history_ul st)) /\
  len (Pingmon.items (bw_history_dl st)) <= 120 /\
  Forall (fun v => (0 <= v)%Q) (Pingmon.items (bw_history_dl st)) /\
  Forall (fun v => (0 <= v)%Q) (Pingmon.items (bw_history_ul st)).
Proof.
  intros Hinit Hfirst Hinputs st.
  assert (Hinv0 : bw_inv st0).
  { unfold bw_init in Hinit.
    destruct (first !! interface) as [[r s]|] eqn:E; [|discriminate].
    injection Hinit as <-. destruct (Hfirst r s E) as [Hr Hs].
    unfold bw_inv, HISTORY_POINTS, len. cbn. repeat split; auto; lia. }
  destruct (bw_poll_loop_inv interface inputs Hinputs st0 Hinv0)
    as (_ & _ & _ & _ & Hlen & Hcap & F1 & F2).
  fold st in Hlen, Hcap, F1, F2. unfold HISTORY_POINTS in Hcap. auto.
Qed.

Lemma eth0_nonneg (recv sent : Z) :
  0 <= recv -> 0 <= sent -> readings_nonneg "eth0" (eth0_at recv sent).
Proof.
  intros Hr Hs r s H. unfold eth0_at in H.
  rewrite lookup_singleton_eq in H. injection H as <- <-. auto.
Qed.

(** Readings 1000/500, then 1500/400 (the upload counter was reset), then
    100/900 (the download counter was reset). *)
Lemma bandwidth_histories_witness :
  let inputs := [(eth0_at 1500 400, false); (eth0_at 100 900, false)] in
  let st0 := mk_bw (1000, 500) (Pingmon.mk_deque 120 [])
               (Pingmon.mk_deque 120 []) true false in
  let st := bw_poll_loop "eth0" inputs st0 in
  (len (Pingmon.items (bw_history_dl st)) = len (Pingmon.items (bw_history_ul st)) /\
   len (Pingmon.items (bw_history_dl st)) <= 120 /\
   Forall (fun v => (0 <= v)%Q) (Pingmon.items (bw_history_dl st)) /\
   Forall (fun v => (0 <= v)%Q) (Pingmon.items (bw_history_ul st))) /\
  Qred <$> Pingmon.items (bw_history_dl st) = [500; 100]%Q /\
  Qred <$> Pingmon.items (bw_history_ul st) = [400; 500]%Q.
Proof.
  intros inputs st0 st. split; [|split; reflexivity].
  apply (bandwidth_histories "eth0" (eth0_at 1000 500) inputs st0).
  - reflexivity.
  - apply eth0_nonneg; lia.
  - constructor; [apply eth0_nonneg; lia|].
    constructor; [apply eth0_nonneg; lia|]. constructor.
Defined.

(** X18: when the interface is missing from the table of an iteration,
    [monitor_bandwidth] stops: the running flag goes down, the removal
    message is set, [prev] and both histories stay as they were, and the
    tables of later iterations are not read.  [monitor_bandwidth_rich]
    raises [KeyError] in that iteration, and so does the start of
    [monitor_bandwidth] when the interface is missing from the first
    table. *)
Theorem interface_removed (interface : string)
    (counters : gmap string (Z * Z)) (stop : bool)
    (rest : list (gmap string (Z * Z) * bool)) (st : bw_state)
    (history cols : Z) (rst : rich_state) :
  counters !! interface = None -> bw_running st = true ->
  bw_poll_loop interface ((counters, stop) :: rest) st
    = mk_bw (bw_prev st) (bw_history_dl st) (bw_history_ul st) false true /\
  rich_step history interface cols counters rst = Raises KeyError /\
  bw_init interface counters = Raises KeyError.
Proof.
  intros Hnone Hrun. split; [|split].
  - cbn [bw_poll_loop]. rewrite Hrun. unfold bw_poll. rewrite Hnone.
    destruct stop; now rewrite bw_poll_loop_stopped.
  - unfold rich_step. rewrite Hnone. now destruct (negb _).
  - unfold bw_init. now rewrite Hnone.
Qed.

Lemma interface_removed_witness :
  let st := mk_bw (1000, 500) (Pingmon.mk_deque 120 [3; 4]%Q)
              (Pingmon.mk_deque 120 [1; 2]%Q) true false in
  let rst := mk_rich (1000, 500) (Pingmon.mk_deque 66 [])
               (Pingmon.mk_deque 66 []) in
  bw_poll_loop "eth0" ((lo_only, false) :: [(eth0_at 2000 600, false)]) st
    = mk_bw (bw_prev st) (bw_history_dl st) (bw_history_ul st) false true /\
  rich_step 66 "eth0" 80 lo_only rst = Raises KeyError /\
  bw_init "eth0" lo_only = Raises KeyError.
Proof.
  intros st rst.
  apply (interface_removed "eth0" lo_only false [(eth0_at 2000 600, false)]
           st 66 80 rst); reflexivity.
Defined.

(** *** [monitor_bandwidth_rich] *)

Lemma Qdiv_1_neg (z : Z) : (inject_Z z / 1 < 0)%Q <-> z < 0.
Proof.
  unfold Qlt, Qdiv, Qmult, Qinv, inject_Z. cbn. lia.
Qed.

(** X19: [monitor_bandwidth_rich] records the plain difference of two
    readings as the rate: it is the newest history entry, it equals the
    rate of [safe_diff] when the counter did not go back, and it is negative
    exactly when the counter went back (a reset or wrap-around), where
    [safe_diff] gives a rate that is not negative. *)
Theorem rich_rate_can_be_negative (history : Z) (interface : string) (cols : Z)
    (counters : gmap string (Z * Z)) (st : rich_state) (cur : Z * Z) :
  counters !! interface = Some cur -> 1 <= history ->
  Pingmon.maxlen (rich_history_dl st) = history ->
  0 <= fst cur -> 0 <= fst (rich_prev st) ->
  let dl := (inject_Z (fst cur - fst (rich_prev st)) / 1)%Q in
  exists st',
    rich_step history interface cols counters st = Return st' /\
    rich_prev st' = cur /\
    last (Pingmon.items (rich_history_dl st')) = Some dl /\
    ((dl < 0)%Q <-> fst cur < fst (rich_prev st)) /\
    (fst (rich_prev st) <= fst cur ->
     counter_rate (fst cur) (fst (rich_prev st)) = Ok dl) /\
    (fst cur < fst (rich_prev st) ->
     exists rate,
       counter_rate (fst cur) (fst (rich_prev st)) = Ok rate /\
       (0 <= rate)%Q).
Proof.
  intros Hcur Hh Hmax Hc Hp dl. unfold rich_step. rewrite Hcur.
  destruct (negb (cols - 14 =? history)) eqn:E.
  - eexists. split; [reflexivity|]. split; [reflexivity|]. split.
    { cbn [rich_history_dl]. apply PingStats.deque_append_last. exact Hh. }
    split; [unfold dl; rewrite Qdiv_1_neg; lia|]. split.
    + intros Hle. unfold counter_rate, INTERVAL.
      rewrite CounterDelta.safe_diff_forward by exact Hle. reflexivity.
    + intros Hlt. eexists. split; [reflexivity|]. now apply rate_nonneg.
  - eexists. split; [reflexivity|]. split; [reflexivity|]. split.
    { cbn [rich_history_dl]. apply PingStats.deque_append_last. lia. }
    split; [unfold dl; rewrite Qdiv_1_neg; lia|]. split.
    + intros Hle. unfold counter_rate, INTERVAL.
      rewrite CounterDelta.safe_diff_forward by exact Hle. reflexivity.
    + intros Hlt. eexists. split; [reflexivity|]. now apply rate_nonneg.
Qed.

Lemma rich_rate_can_be_negative_witness :
  let st := mk_rich (1000, 500) (Pingmon.mk_deque 66 [])
              (Pingmon.mk_deque 66 []) in
  let cur : Z * Z := (300, 700) in
  let dl := (inject_Z (fst cur - fst (rich_prev st)) / 1)%Q in
  (exists st',
    rich_step 66 "eth0" 80 (eth0_at 300 700) st = Return st' /\
    rich_prev st' = cur /\
    last (Pingmon.items (rich_history_dl st')) = Some dl /\
    ((dl < 0)%Q <-> fst cur < fst (rich_prev st)) /\
    (fst (rich_prev st) <= fst cur ->
     counter_rate (fst cur) (fst (rich_prev st)) = Ok dl) /\
    (fst cur < fst (rich_prev st) ->
     exists rate,
       counter_rate (fst cur) (fst (rich_prev st)) = Ok rate /\
       (0 <= rate)%Q)) /\
  Qred dl = (-700 # 1)%Q.
Proof.
  intros st cur dl. split; [|reflexivity].
  apply (rich_rate_can_be_negative 66 "eth0" 80 (eth0_at 300 700) st cur);
    try reflexivity; cbn; lia.
Defined.

(** X20: in [monitor_bandwidth_rich], an iteration made while the terminal
    width differs from the one at the start empties both histories before
    the new rates are appended (the capacity stays the old one): after it
    each history holds the newest rate only. *)
Theorem rich_resize_keeps_newest_only (history : Z) (interface : string)
    (cols : Z) (counters : gmap string (Z * Z)) (st : rich_state)
    (cur : Z * Z) :
  counters !! interface = Some cur -> 1 <= history -> cols - 14 <> history ->
  exists st',
    rich_step history interface cols counters st = Return st' /\
    Pingmon.maxlen (rich_history_dl st') = history /\
    Pingmon.items (rich_history_dl st')
      = [(inject_Z (fst cur - fst (rich_prev st)) / 1)%Q] /\
    Pingmon.items (rich_history_ul st')
      = [(inject_Z (snd cur - snd (rich_prev st)) / 1)%Q].
Proof.
  intros Hcur Hh Hcols. unfold rich_step. rewrite Hcur.
  destruct (Z.eqb_spec (cols - 14) history); [contradiction|]. cbn [negb].
  eexists. split; [reflexivity|]. split; [reflexivity|].
  unfold Pingmon.deque_append. cbn [rich_history_dl rich_history_ul
    Pingmon.items Pingmon.maxlen app]. change (len [_]) with 1.
  destruct (Z.ltb_spec history 1); [lia|]. split; reflexivity.
Qed.

Lemma rich_resize_keeps_newest_only_witness :
  let st := mk_rich (1000, 500) (Pingmon.mk_deque 66 [5; 6; 7]%Q)
              (Pingmon.mk_deque 66 [1; 2; 3]%Q) in
  let cur : Z * Z := (1300, 700) in
  exists st',
    rich_step 66 "eth0" 100 (eth0_at 1300 700) st = Return st' /\
    Pingmon.maxlen (rich_history_dl st') = 66 /\
    Pingmon.items (rich_history_dl st')
      = [(inject_Z (fst cur - fst (rich_prev st)) / 1)%Q] /\
    Pingmon.items (rich_history_ul st')
      = [(inject_Z (snd cur - snd (rich_prev st)) / 1)%Q].
Proof.
  intros st cur.
  apply (rich_resize_keeps_newest_only 66 "eth0" 100 (eth0_at 1300 700) st cur);
    [reflexivity|lia|lia].
Defined.

End BandwidthLoops.
